(** * rawlib: the raw signal event container and the pulse fitting process

  A shallow embedding of [TRestRawSignalEvent] (the per-trigger collection
  of raw waveforms with its aggregate getters) and of
  [TRestRawSignalFitEventProcess::ProcessEvent] (the per-event pulse
  fitting controller), both from [TRestRawSignalFitEventProcess.cxx].

  Conventions.
  - [Double_t] is IEEE-754 binary64: Rocq's primitive [float], so that a
    division by a zero count is the NaN the program really produces.
  - [Int_t] and [Short_t] values are integers of [Z]; a conversion
    [Double_t -> Int_t] or [Double_t -> Short_t] discards the fractional
    part and is partial (it is undefined outside the range of the type).
  - [std::vector] is a [list], indexed as the loops of the source index it;
    [std::map<int, Double_t>] is a [gmap Z float].
  - [for (int i = lo; i < hi; i++)] is [for_range lo hi]. *)

From Stdlib Require Import ZArith List Bool Lia Floats.
From stdpp Require Import base option list sorting gmap strings pretty.

Open Scope Z_scope.

(** ** Numbers *)

Module Numeric.

(** [Int_t -> Double_t], exact on the whole 32-bit range. *)
Definition Z2D (z : Z) : float :=
  if z <? 0 then PrimFloat.opp (PrimFloat.of_uint63 (Uint63.of_Z (- z)))
  else PrimFloat.of_uint63 (Uint63.of_Z z).

(** Truncation toward zero of a finite binary64 value. *)
Definition trunc_SF (f : spec_float) : option Z :=
  match f with
  | S754_zero _ => Some 0
  | S754_finite s m e =>
      let a := if 0 <=? e then Z.shiftl (Z.pos m) e
               else Z.shiftr (Z.pos m) (- e) in
      Some (if s then - a else a)
  | S754_infinity _ => None
  | S754_nan => None
  end.

Definition Int_min : Z := - 2 ^ 31.
Definition Int_max : Z := 2 ^ 31 - 1.

(** [Double_t -> Int_t]: the fractional part is discarded; [None] when the
    truncated value is not representable (undefined in C++). *)
Definition D2Int (d : float) : option Z :=
  match trunc_SF (Prim2SF d) with
  | Some z => if (Int_min <=? z) && (z <=? Int_max) then Some z else None
  | None => None
  end.

(** [(unsigned int) n] for an [Int_t] n. *)
Definition to_unsigned (n : Z) : Z := n mod 2 ^ 32.

Definition Short_min : Z := - 2 ^ 15.
Definition Short_max : Z := 2 ^ 15 - 1.

(** [Double_t -> Short_t]: the fractional part is discarded; [None] when
    the truncated value is not representable (undefined in C++). *)
Definition D2Short (d : float) : option Z :=
  match trunc_SF (Prim2SF d) with
  | Some z => if (Short_min <=? z) && (z <=? Short_max) then Some z else None
  | None => None
  end.

(** [Int_t -> Short_t]: the low 16 bits, read as a signed number. *)
Definition to_short (z : Z) : Z := (z + 2 ^ 15) mod 2 ^ 16 - 2 ^ 15.

(** [x != 0] and [x == 0] on doubles. *)
Definition is_zero (x : float) : bool := PrimFloat.eqb x 0%float.

End Numeric.

(** ** Counted loops *)

Fixpoint for_loop {St : Type} (n : nat) (i : Z) (body : Z -> St -> St) (st : St) : St :=
  match n with
  | O => st
  | S n' => for_loop n' (i + 1) body (body i st)
  end.

(** [for (int i = lo; i < hi; i++) body] *)
Definition for_range {St : Type} (lo hi : Z) (body : Z -> St -> St) (st : St) : St :=
  for_loop (Z.to_nat (hi - lo)) lo body st.

(** [TVector2], used for the bin ranges. *)
Record TVector2 := mkTVector2 { X : float; Y : float }.

(** ** The waveform class, [TRestRawSignal]

  The class is declared and implemented outside the two source files.  The
  event and the process only use it through the member functions below, so
  everything except the signal ID is kept behind an interface: [W] is the
  state of a waveform (samples, baseline, cached peak and threshold data)
  and the operations are exactly those the two files call. *)

Module TRestRawSignal.

Class Ops (W : Type) := {
  (** [TRestRawSignal()] and [TRestRawSignal(nBins)] *)
  create : W;
  create_n : Z -> W;
  (** the ID of a signal that was constructed and not given one *)
  create_id : Z;
  (** mutators *)
  CalculateBaseLine : float -> float -> W -> W;
  SetRange : TVector2 -> W -> W;
  InitializePointsOverThreshold : TVector2 -> Z -> W -> W;
  (** [IncreaseBinBy(bin, value)] with the [Short_t] it is handed, and
      [AddPoint(a)] with the [double] the process hands it: what the class
      makes of them is the class's *)
  IncreaseBinBy : Z -> Z -> W -> W;
  AddPoint : float -> W -> W;
  (** observers *)
  GetNumberOfPoints : W -> Z;
  GetData : W -> Z -> float;
  GetRawData : W -> Z -> float;
  GetBaseLine : W -> float;
  GetBaseLineSigma : W -> float;
  GetIntegral : W -> float;
  GetThresholdIntegral : W -> float;
  GetSlopeIntegral : W -> float;
  GetRiseTime : W -> float;
  GetTripleMaxIntegral : W -> float;
  GetMaxPeakBin : W -> Z;
  GetMaxPeakValue : W -> float;
  GetMaxPeakWidth : W -> Z;
  GetPointsOverThreshold : W -> list Z
}.

(** A signal: its identification number and its waveform state. *)
Record t (W : Type) := mk { fSignalID : Z; wave : W }.
Arguments mk {W} _ _.
Arguments fSignalID {W} _.
Arguments wave {W} _.

Definition GetSignalID {W} (s : t W) : Z := fSignalID s.
Definition GetID {W} (s : t W) : Z := fSignalID s.
Definition SetSignalID {W} (id : Z) (s : t W) : t W := mk id (wave s).

(** Lift a mutator of the waveform state to the signal. *)
Definition upd {W} (f : W -> W) (s : t W) : t W := mk (fSignalID s) (f (wave s)).

End TRestRawSignal.


(** ** The event, [TRestRawSignalEvent] *)

Module TRestRawSignalEvent.
Import Numeric.

(** What a [TRestRawSignal*] returned by the event can be: the null pointer,
    the address of [fSignal[i]], the address [&fSignal[sId]] formed from an
    index that was never assigned, or nothing the language defines (a
    conversion to [Int_t] of a value outside its range happened before). *)
Inductive SignalPtr :=
| nullptr
| element (i : Z)
| indeterminate
| undefined.

Section Event.
Context {W : Type} {ops : TRestRawSignal.Ops W}.

Record t := mk {
  fSignal : list (TRestRawSignal.t W);
  fBaseLineRange : TVector2;
  fRange : TVector2
}.

(** [Int_t GetNumberOfSignals()]: [fSignal.size()] (an event never holds
    2^31 signals, the count is not wrapped). *)
Definition GetNumberOfSignals (ev : t) : Z := Z.of_nat (length (fSignal ev)).

(** [GetSignal(n)] is [&fSignal[n]]. *)
Definition GetSignal (ev : t) (n : Z) : option (TRestRawSignal.t W) :=
  if n <? 0 then None else fSignal ev !! Z.to_nat n.

(** A loop body that reads [fSignal[i]]; every loop below runs [i] over
    [0 .. GetNumberOfSignals() - 1], where the element exists. *)
Definition with_signal {St : Type} (ev : t) (i : Z)
    (f : TRestRawSignal.t W -> St -> St) (st : St) : St :=
  match GetSignal ev i with
  | Some s => f s st
  | None => st
  end.

(** The member functions of the waveform, on a signal. *)
Definition sig {A : Type} (f : W -> A) (s : TRestRawSignal.t W) : A :=
  f (TRestRawSignal.wave s).

(** [GetSignalIndex]: the loop returns at the first match. *)
Fixpoint GetSignalIndex_from (l : list (TRestRawSignal.t W)) (i : Z) (signalID : Z) : Z :=
  match l with
  | [] => -1
  | s :: l' =>
      if TRestRawSignal.GetSignalID s =? signalID then i
      else GetSignalIndex_from l' (i + 1) signalID
  end.

Definition GetSignalIndex (ev : t) (signalID : Z) : Z :=
  GetSignalIndex_from (fSignal ev) 0 signalID.

(** Modelled from the spec: [signalIDExists] is defined in the header
    [TRestRawSignalEvent.h], which is not among the sources.  It tells whether
    a waveform with that ID is present in the event; it is written here with
    [GetSignalIndex], which is. *)
Definition signalIDExists (ev : t) (sID : Z) : bool :=
  negb (GetSignalIndex ev sID =? -1).

Definition warning_exists (sID : Z) : string :=
  "Warning. Signal ID : " +:+ pretty sID +:+
  " already exists. Signal will not be added to signal event".

Definition warning_missing (sID : Z) : string :=
  "Warning. Signal ID : " +:+ pretty sID +:+
  " does not exist. Signal will not be removed from signal event".

(** [AddSignal(TRestRawSignal& s)]: the event after the call, the caller's
    signal after the call (it is passed by reference and its baseline and
    range are set before it is copied in), and the lines written to [cout]. *)
Definition AddSignal (ev : t) (s : TRestRawSignal.t W)
    : t * TRestRawSignal.t W * list string :=
  if signalIDExists ev (TRestRawSignal.GetSignalID s) then
    (ev, s, [warning_exists (TRestRawSignal.GetSignalID s)])
  else
    let s1 := TRestRawSignal.upd
                (TRestRawSignal.CalculateBaseLine (X (fBaseLineRange ev)) (Y (fBaseLineRange ev))) s in
    let s2 := TRestRawSignal.upd (TRestRawSignal.SetRange (fRange ev)) s1 in
    (mk (fSignal ev ++ [s2]) (fBaseLineRange ev) (fRange ev), s2, []).

Definition RemoveSignalWithId (ev : t) (sId : Z) : t * list string :=
  let index := GetSignalIndex ev sId in
  if index =? -1 then (ev, [warning_missing sId])
  else (mk (delete (Z.to_nat index) (fSignal ev)) (fBaseLineRange ev) (fRange ev), []).

Definition GetIntegral (ev : t) : float :=
  for_range 0 (GetNumberOfSignals ev)
    (fun i => with_signal ev i (fun s sum => (sum + sig TRestRawSignal.GetIntegral s)%float))
    0%float.

Definition GetThresholdIntegral (ev : t) : float :=
  for_range 0 (GetNumberOfSignals ev)
    (fun i => with_signal ev i (fun s sum => (sum + sig TRestRawSignal.GetThresholdIntegral s)%float))
    0%float.

(** The state of the loop of [GetMaxSignal]: [max] and [sId], the latter
    declared without an initial value; [None] once an integral did not fit
    the [Int_t] it is assigned to. *)
Definition MaxSignalState : Type := option (float * option Z).

Definition GetMaxSignal_body (ev : t) (i : Z) (st : MaxSignalState) : MaxSignalState :=
  match st with
  | None => None
  | Some (max, sId) =>
      with_signal ev i (fun s _ =>
        match D2Int (sig TRestRawSignal.GetIntegral s) with
        | None => None
        | Some integ =>
            if (max <? Z2D integ)%float then Some (Z2D integ, Some i)
            else Some (max, sId)
        end) st
  end.

Definition GetMaxSignal (ev : t) : SignalPtr :=
  if GetNumberOfSignals ev <=? 0 then nullptr
  else
    match GetSignal ev 0 with
    | None => undefined
    | Some s0 =>
        let max := sig TRestRawSignal.GetIntegral s0 in
        match for_range 0 (GetNumberOfSignals ev) (GetMaxSignal_body ev) (Some (max, None)) with
        | None => undefined
        | Some (_, None) => indeterminate
        | Some (_, Some sId) => element sId
        end
    end.

(** [GetRiseSlope] and [GetRiseTime]: an average with its count tested. *)
Definition GetRiseSlope (ev : t) : float :=
  let '(sum, n) :=
    for_range 0 (GetNumberOfSignals ev)
      (fun i => with_signal ev i (fun s '(sum, n) =>
         if (0 <? sig TRestRawSignal.GetThresholdIntegral s)%float
         then ((sum + sig TRestRawSignal.GetSlopeIntegral s)%float, n + 1)
         else (sum, n)))
      (0%float, 0) in
  if n =? 0 then 0%float else (sum / Z2D n)%float.

Definition GetRiseTime (ev : t) : float :=
  let '(sum, n) :=
    for_range 0 (GetNumberOfSignals ev)
      (fun i => with_signal ev i (fun s '(sum, n) =>
         if (0 <? sig TRestRawSignal.GetThresholdIntegral s)%float
         then ((sum + sig TRestRawSignal.GetRiseTime s)%float, n + 1)
         else (sum, n)))
      (0%float, 0) in
  if n =? 0 then 0%float else (sum / Z2D n)%float.

Definition GetBaseLineAverage (ev : t) : float :=
  let baseLineMean :=
    for_range 0 (GetNumberOfSignals ev)
      (fun sgnl => with_signal ev sgnl (fun s baseLineMean =>
         (baseLineMean + sig TRestRawSignal.GetBaseLine s)%float))
      0%float in
  (baseLineMean / Z2D (GetNumberOfSignals ev))%float.

Definition GetBaseLineSigmaAverage (ev : t) : float :=
  let baseLineSigmaMean :=
    for_range 0 (GetNumberOfSignals ev)
      (fun sgnl => with_signal ev sgnl (fun s baseLineSigmaMean =>
         (baseLineSigmaMean + sig TRestRawSignal.GetBaseLineSigma s)%float))
      0%float in
  (baseLineSigmaMean / Z2D (GetNumberOfSignals ev))%float.

Definition GetLowestWidth (ev : t) (minPeakAmplitude : float) : Z :=
  for_range 0 (GetNumberOfSignals ev)
    (fun sgnl => with_signal ev sgnl (fun s low =>
       if (minPeakAmplitude <? sig TRestRawSignal.GetMaxPeakValue s)%float then
         let lW := sig TRestRawSignal.GetMaxPeakWidth s in
         if lW <? low then lW else low
       else low))
    10000000.

Definition GetAverageWidth (ev : t) (minPeakAmplitude : float) : float :=
  let '(avg, n) :=
    for_range 0 (GetNumberOfSignals ev)
      (fun sgnl => with_signal ev sgnl (fun s '(avg, n) =>
         if (minPeakAmplitude <? sig TRestRawSignal.GetMaxPeakValue s)%float
         then ((avg + Z2D (sig TRestRawSignal.GetMaxPeakWidth s))%float, n + 1)
         else (avg, n)))
      (0%float, 0) in
  if n =? 0 then 0%float else (avg / Z2D n)%float.

(** [std::sort] on the widths.  The vector holds [Double_t] copies of the
    [Int_t] widths; that conversion is exact and keeps the order, so the
    vector is kept as the integers it was filled with and an element is
    converted when it is read.  Ascending order determines the sorted vector,
    whatever algorithm [std::sort] runs. *)
Definition std_sort (widths : list Z) : list Z := merge_sort Z.le widths.

Definition GetLowAverageWidth (ev : t) (nSignals : Z) (minPeakAmplitude : float) : float :=
  let widths :=
    for_range 0 (GetNumberOfSignals ev)
      (fun sgnl => with_signal ev sgnl (fun s widths =>
         if (minPeakAmplitude <? sig TRestRawSignal.GetMaxPeakValue s)%float
         then widths ++ [sig TRestRawSignal.GetMaxPeakWidth s]
         else widths))
      [] in
  if Z.of_nat (length widths) =? 0 then 0%float
  else
    let widths := std_sort widths in
    let nMax :=
      if Z.of_nat (length widths) <? to_unsigned nSignals
      then Z.of_nat (length widths) else nSignals in
    let avg :=
      for_range 0 nMax
        (fun n avg => match widths !! Z.to_nat n with
                      | Some w => (avg + Z2D w)%float
                      | None => avg
                      end)
        0%float in
    (avg / Z2D nSignals)%float.

(** Modelled from the spec: [SetBaseLineRange] is defined in the header
    [TRestRawSignalEvent.h], which is not among the sources.  It records the
    range the baselines are computed over and has every waveform compute its
    baseline over it. *)
Definition SetBaseLineRange (ev : t) (blRange : TVector2) : t :=
  mk (map (TRestRawSignal.upd (TRestRawSignal.CalculateBaseLine (X blRange) (Y blRange)))
        (fSignal ev))
     blRange (fRange ev).

(** [AddChargeToSignal]: the signal is created with 512 bins when its ID is
    new. *)
Definition AddChargeToSignal (ev : t) (sgnlID bin value : Z) : t * list string :=
  let sgnlIndex := GetSignalIndex ev sgnlID in
  let '(ev1, sgnlIndex, out) :=
    if sgnlIndex =? -1 then
      let sgnl := TRestRawSignal.SetSignalID sgnlID
                    (TRestRawSignal.mk TRestRawSignal.create_id (TRestRawSignal.create_n 512)) in
      let '(ev1, _, out) := AddSignal ev sgnl in
      (ev1, GetNumberOfSignals ev, out)
    else (ev, sgnlIndex, []) in
  (mk (alter (TRestRawSignal.upd (TRestRawSignal.IncreaseBinBy bin value))
         (Z.to_nat sgnlIndex) (fSignal ev1))
      (fBaseLineRange ev1) (fRange ev1), out).

Definition GetSlopeIntegral (ev : t) : float :=
  for_range 0 (GetNumberOfSignals ev)
    (fun i => with_signal ev i (fun s sum => (sum + sig TRestRawSignal.GetSlopeIntegral s)%float))
    0%float.

Definition GetTripleMaxIntegral (ev : t) : float :=
  for_range 0 (GetNumberOfSignals ev)
    (fun i => with_signal ev i (fun s sum =>
       if (0 <? sig TRestRawSignal.GetThresholdIntegral s)%float
       then (sum + sig TRestRawSignal.GetTripleMaxIntegral s)%float
       else sum))
    0%float.

(** The cached extrema of the event.  [SetMaxAndMin] reads the lowest and
    the highest sample of each waveform through [TRestRawSignal::GetMinValue]
    and [TRestRawSignal::GetMaxValue]; the two are members of the waveform
    class, outside the sources, and are taken as they come. *)
Section Extrema.
Variable signal_min : W -> float.
Variable signal_max : W -> float.

Record Extrema := mkExtrema {
  fMinValue : float;
  fMaxValue : float;
  fMinTime : float;
  fMaxTime : float
}.

Definition SetMaxAndMin (ev : t) : Extrema :=
  let '(fMinValue, fMaxValue) :=
    for_range 0 (GetNumberOfSignals ev)
      (fun s => with_signal ev s (fun sg '(fMinValue, fMaxValue) =>
         ((if (sig signal_min sg <? fMinValue)%float then sig signal_min sg else fMinValue),
          (if (fMaxValue <? sig signal_max sg)%float then sig signal_max sg else fMaxValue))))
      (1e10%float, (-1e10)%float) in
  let fMaxTime :=
    if 0 <? GetNumberOfSignals ev then
      match GetSignal ev 0 with
      | Some sg => Z2D (sig TRestRawSignal.GetNumberOfPoints sg)
      | None => (-1e10)%float
      end
    else (-1e10)%float in
  mkExtrema fMinValue fMaxValue 0%float fMaxTime.

Definition GetMaxValue (ev : t) : float := fMaxValue (SetMaxAndMin ev).

Definition GetMinValue (ev : t) : float := fMinValue (SetMaxAndMin ev).

End Extrema.

Definition GetMinTime (ev : t) : float := 0%float.

Definition GetMaxTime (ev : t) : float :=
  if 0 <? GetNumberOfSignals ev then
    match GetSignal ev 0 with
    | Some sg => Z2D (sig TRestRawSignal.GetNumberOfPoints sg)
    | None => 512%float
    end
  else 512%float.

End Event.

Arguments t W : clear implicits.

End TRestRawSignalEvent.

(** ** ROOT, as far as the process uses it *)

Module Root.
Import Numeric.

(** A histogram built by [TH1D(name, title, nBins, 0, nBins)]: its axis is
    [[0, fXmax)] with [fXmax = nBins]; cell 0 is the underflow, the cells
    [1 .. fNcells - 2] are the bins, the last cell is the overflow. *)
Record TH1D := mkTH1D {
  fNcells : Z;
  fXmax : Z;
  fArray : list float;
  fBinError : list float
}.

(** The constructor.  A histogram asked with [nBins <= 0] is given one bin
    ([if (nbins <= 0) nbins = 1] in the constructor of [TH1]), so that a
    histogram never has fewer than 3 cells; with [nBins > 0] the bins are
    the [[k - 1, k)] for [k = 1 .. nBins]. *)
Definition new_TH1D (nBins : Z) : TH1D :=
  let nbins := if nBins <=? 0 then 1 else nBins in
  mkTH1D (nbins + 2) nBins
    (replicate (Z.to_nat (nbins + 2)) 0%float)
    (replicate (Z.to_nat (nbins + 2)) 0%float).

(** [FindBin(i)] for an integer abscissa [i]: the underflow cell below the
    axis, the overflow cell from its upper edge on, and inside the axis
    (which then has [fXmax] bins of width 1) the bin [[i, i + 1)]. *)
Definition FindBin (h : TH1D) (i : Z) : Z :=
  if i <? 0 then 0
  else if fXmax h <=? i then fNcells h - 1
  else i + 1.

(** [h->Fill(i, w)] *)
Definition Fill (i : Z) (w : float) (h : TH1D) : TH1D :=
  mkTH1D (fNcells h) (fXmax h)
    (alter (fun c => (c + w)%float) (Z.to_nat (FindBin h i)) (fArray h))
    (fBinError h).

(** [h->SetBinError(bin, e)]: the argument is a cell number. *)
Definition SetBinError (bin : Z) (e : float) (h : TH1D) : TH1D :=
  if (bin <? 0) || (fNcells h <=? bin) then h
  else mkTH1D (fNcells h) (fXmax h) (fArray h) (<[Z.to_nat bin := e]> (fBinError h)).

(** [h->GetBinContent(bin)]: the argument is a cell number, brought back
    into [0 .. fNcells - 1]. *)
Definition GetBinContent (h : TH1D) (bin : Z) : float :=
  let bin := if bin <? 0 then 0 else if fNcells h <=? bin then fNcells h - 1 else bin in
  default 0%float (fArray h !! Z.to_nat bin).

(** The two fit functions. *)
Inductive Formula :=
| Aget
| AgetConvolutedWithGauss.

(** A [TF1] before the fit: its parameters (set with [SetParameter] or
    [FixParameter]) and which of them are fixed. *)
Record TF1 := mkTF1 {
  formula : Formula;
  fParams : list float;
  fFixed : list bool
}.

Definition new_TF1 (f : Formula) (npar : nat) : TF1 :=
  mkTF1 f (replicate npar 0%float) (replicate npar false).

Definition SetParameter (k : nat) (v : float) (f : TF1) : TF1 :=
  mkTF1 (formula f) (<[k := v]> (fParams f)) (fFixed f).

Definition FixParameter (k : nat) (v : float) (f : TF1) : TF1 :=
  mkTF1 (formula f) (<[k := v]> (fParams f)) (<[k := true]> (fFixed f)).

(** One call [h->Fit(f, "RMNQWW", "", xmin, xmax)]. *)
Record FitCall := mkFitCall {
  fit_function : TF1;
  fit_histogram : TH1D;
  fit_xmin : Z;
  fit_xmax : Z
}.

(** The function after the fit. *)
Record Fitted := mkFitted {
  GetParameter : nat -> float;
  GetParError : nat -> float;
  GetChisquare : float;
  Eval : float -> float
}.

End Root.

(** ** The fitting process, [TRestRawSignalFitEventProcess] *)

Module TRestRawSignalFitEventProcess.
Import Numeric Root.

(** The members read from the configuration (their declarations are in the
    header of the process; [0] means the option was not given). *)
Record Config := mkConfig {
  fAgetFit : bool;
  fAddAllPulses : bool;
  fShapingFixed : float;
  fStartPositionFixed : float;
  fVarianceFixed : float;
  fAmplitudeFixed : float;
  fShapingInitialValue : float;
  fStartPositionInitialValue : float;
  fVarianceInitialValue : float;
  fAmplitudeInitialValue : float;
  fBaseLineRange : TVector2;
  fPointsOverThreshold : Z;
  fPointThreshold : float;
  fSignalThreshold : float
}.

(** What [SetObservableValue] is given: a number or a map from signal ID. *)
Inductive ObsValue :=
| Scalar (v : float)
| ByID (m : gmap Z float).

(** The calls of [SetObservableValue], in the order they are made. *)
Definition Observables : Type := list (string * ObsValue).

(** The value an observable was last set to. *)
Fixpoint GetObservable (name : string) (obs : Observables) : option ObsValue :=
  match obs with
  | [] => None
  | (n, v) :: rest =>
      match GetObservable name rest with
      | Some v' => Some v'
      | None => if String.eqb n name then Some v else None
      end
  end.

(** Parameter numbers of the convolution, as [SetParNames] names them. *)
Definition ShapingTime : nat := 0.
Definition StartPosition : nat := 1.
Definition VarianceGauss : nat := 2.
Definition Amplitude : nat := 3.
(** In the AGET function the amplitude is parameter 2. *)
Definition AgetAmplitude : nat := 2.

Definition MinBinRange : Z := 45.
Definition MaxBinRange : Z := 70.

(** The per-signal arrays and their running sums. *)
Record Stats := mkStats {
  SigmaMean : float;
  Sigma : list float;
  RatioSigmaMaxPeakMean : float;
  RatioSigmaMaxPeak : list float;
  ChiSquareMean : float;
  ChiSquare : list float
}.

Record Weighted := mkWeighted {
  VGmean : float;
  VGvariance : float;
  VGweights : float
}.

Record Maps := mkMaps {
  amplitudeFit : gmap Z float;
  shapingtimeFit : gmap Z float;
  StartPositionFit : gmap Z float;
  variancegaussFit : gmap Z float;
  ratiosigmaamplitudeFit : gmap Z float
}.

(** The local variables of [ProcessEvent], with the calls of [Fit] made so
    far. *)
Record Locals := mkLocals {
  stats : Stats;
  weighted : Weighted;
  maps : Maps;
  goodSig : Z;
  fits : list FitCall
}.

Definition init_Locals (nSignals : Z) : Locals :=
  let zeros := replicate (Z.to_nat nSignals) 0%float in
  mkLocals (mkStats 0 zeros 0 zeros 0 zeros) (mkWeighted 0 0 0)
    (mkMaps ∅ ∅ ∅ ∅ ∅) 0 [].

(** [m[k]] read from a [std::map]: a missing key reads as 0. *)
Definition map_at (m : gmap Z float) (k : Z) : float := default 0%float (m !! k).

Section Process.
Context {W : Type} {ops : TRestRawSignal.Ops W}.

(** The minimiser behind [TH1::Fit], the cut of the framework and the
    configuration. *)
Variable Fit : FitCall -> Fitted.
Variable ApplyCut : Observables -> bool.
Variable cfg : Config.

Abbreviation Event := (TRestRawSignalEvent.t W).

(** What [ProcessEvent] leaves behind: the pointer it returns ([None] is
    [NULL]), the event as the process left it, the observables set, the fits
    run, and the per-signal arrays it prints to the debug stream. *)
Record Outcome := mkOutcome {
  returned : option Event;
  event_after : Event;
  observables : Observables;
  fit_calls : list FitCall;
  reported : Stats
}.

Definition set_signal (ev : Event) (s : Z) (sg : TRestRawSignal.t W) : Event :=
  TRestRawSignalEvent.mk (<[Z.to_nat s := sg]> (TRestRawSignalEvent.fSignal ev))
    (TRestRawSignalEvent.fBaseLineRange ev) (TRestRawSignalEvent.fRange ev).

(** "Fit all signals": no selection parameter was given. *)
Definition no_selection : bool :=
  is_zero (fPointThreshold cfg) && is_zero (fSignalThreshold cfg) &&
  (fPointsOverThreshold cfg =? 0) &&
  is_zero (X (fBaseLineRange cfg)) && is_zero (Y (fBaseLineRange cfg)).

(** "Create histogram from signal". *)
Definition signal_histogram (w : W) : TH1D :=
  let nBins := TRestRawSignal.GetNumberOfPoints w in
  for_range 0 nBins
    (fun i h =>
       SetBinError i (TRestRawSignal.GetBaseLineSigma w)
         (Fill i (TRestRawSignal.GetRawData w i - TRestRawSignal.GetBaseLine w)%float h))
    (new_TH1D nBins).

(** "Read initial parameters" and "Read fixed parameters", convolution. *)
Definition convolution_function (w : W) (MaxPeakBin : Z) : TF1 :=
  let f := new_TF1 AgetConvolutedWithGauss 4 in
  let f := if negb (is_zero (fShapingInitialValue cfg))
           then SetParameter 0 (fShapingInitialValue cfg) f
           else SetParameter 0 32%float f in
  let f := if negb (is_zero (fStartPositionInitialValue cfg))
           then SetParameter 1 (Z2D MaxPeakBin - fStartPositionInitialValue cfg)%float f
           else SetParameter 1 (Z2D (MaxPeakBin - 25)) f in
  let f := if negb (is_zero (fVarianceInitialValue cfg))
           then SetParameter 2 (fVarianceInitialValue cfg) f
           else SetParameter 2 1%float f in
  let f := if negb (is_zero (fAmplitudeInitialValue cfg))
           then SetParameter 3 (TRestRawSignal.GetData w MaxPeakBin * fAmplitudeInitialValue cfg)%float f
           else SetParameter 3 (TRestRawSignal.GetData w MaxPeakBin * 10)%float f in
  let f := if negb (is_zero (fShapingFixed cfg))
           then FixParameter 0 (fShapingFixed cfg) f else f in
  let f := if negb (is_zero (fStartPositionFixed cfg))
           then FixParameter 1 (Z2D MaxPeakBin - fStartPositionFixed cfg)%float f else f in
  let f := if negb (is_zero (fVarianceFixed cfg))
           then FixParameter 2 (fVarianceFixed cfg) f else f in
  if negb (is_zero (fAmplitudeFixed cfg))
  then FixParameter 3 (TRestRawSignal.GetData w MaxPeakBin * fAmplitudeFixed cfg)%float f
  else f.

(** The same for the AGET function, which has no variance. *)
Definition aget_function (w : W) (MaxPeakBin : Z) : TF1 :=
  let f := new_TF1 Aget 3 in
  let f := if negb (is_zero (fShapingInitialValue cfg))
           then SetParameter 0 (fShapingInitialValue cfg) f
           else SetParameter 0 32%float f in
  let f := if negb (is_zero (fStartPositionInitialValue cfg))
           then SetParameter 1 (Z2D MaxPeakBin - fStartPositionInitialValue cfg)%float f
           else SetParameter 1 (Z2D (MaxPeakBin - 25)) f in
  let f := if negb (is_zero (fAmplitudeInitialValue cfg))
           then SetParameter 2 (TRestRawSignal.GetData w MaxPeakBin * fAmplitudeInitialValue cfg)%float f
           else SetParameter 2 (TRestRawSignal.GetData w MaxPeakBin) f in
  let f := if negb (is_zero (fShapingFixed cfg))
           then FixParameter 0 (fShapingFixed cfg) f else f in
  let f := if negb (is_zero (fStartPositionFixed cfg))
           then FixParameter 1 (Z2D MaxPeakBin - fStartPositionFixed cfg)%float f else f in
  if negb (is_zero (fAmplitudeFixed cfg))
  then FixParameter 2 (TRestRawSignal.GetData w MaxPeakBin * fAmplitudeFixed cfg)%float f
  else f.

(** The loop that follows every fit: the squared differences between the
    histogram and the fitted function, summed over the cells [lo .. hi - 1]. *)
Definition squared_residuals (h : TH1D) (f : Fitted) (lo hi : Z) : float :=
  for_range lo hi
    (fun j sigma =>
       (sigma + (GetBinContent h j - Eval f (Z2D j)) * (GetBinContent h j - Eval f (Z2D j)))%float)
    0%float.

(** [Sigma[s] = ...] and the four lines after it. *)
Definition record_stats (s : Z) (Sigma_s ratio chi : float) (st : Stats) : Stats :=
  mkStats
    (SigmaMean st + Sigma_s)%float
    (<[Z.to_nat s := Sigma_s]> (Sigma st))
    (RatioSigmaMaxPeakMean st + ratio)%float
    (<[Z.to_nat s := ratio]> (RatioSigmaMaxPeak st))
    (ChiSquareMean st + chi)%float
    (<[Z.to_nat s := chi]> (ChiSquare st)).

(** One signal fitted with the convolution: the text that the "fit all
    signals" branch and the "good signals" branch both contain, from the
    construction of the functions to [h->Delete()].  [s] is the index of
    the signal, [sg] the signal with its baseline computed. *)
Definition fit_convolution (s : Z) (sg : TRestRawSignal.t W) (L : Locals) : Locals :=
  let w := TRestRawSignal.wave sg in
  let MaxPeakBin := TRestRawSignal.GetMaxPeakBin w in
  let fit_conv := convolution_function w MaxPeakBin in
  let h := signal_histogram w in
  let call := mkFitCall fit_conv h (MaxPeakBin - MinBinRange) (MaxPeakBin + MaxBinRange) in
  let fitted := Fit call in
  let sigma := squared_residuals h fitted (MaxPeakBin - MinBinRange) (MaxPeakBin + MaxBinRange) in
  let Sigma_s := PrimFloat.sqrt (sigma / Z2D (MinBinRange + MaxBinRange)) in
  let ratio := (Sigma_s / GetBinContent h (MaxPeakBin + 1))%float in
  let id := TRestRawSignal.GetID sg in
  let m := maps L in
  let v := weighted L in
  mkLocals
    (record_stats s Sigma_s ratio (GetChisquare fitted) (stats L))
    (mkWeighted
       (VGmean v + GetParameter fitted VarianceGauss / GetParError fitted 2)%float
       (VGvariance v + GetParameter fitted VarianceGauss * GetParameter fitted 2 / GetParError fitted 2)%float
       (VGweights v + 1 / GetParError fitted 2)%float)
    (mkMaps
       (<[id := GetParameter fitted Amplitude]> (amplitudeFit m))
       (<[id := GetParameter fitted ShapingTime]> (shapingtimeFit m))
       (<[id := GetParameter fitted StartPosition]> (StartPositionFit m))
       (<[id := GetParameter fitted VarianceGauss]> (variancegaussFit m))
       (<[id := ratio]> (ratiosigmaamplitudeFit m)))
    (goodSig L)
    (fits L ++ [call]).

(** The [else] of the "good signals" branch: the signal is not fitted. *)
Definition skip_signal (sg : TRestRawSignal.t W) (L : Locals) : Locals :=
  let id := TRestRawSignal.GetID sg in
  let m := maps L in
  mkLocals (stats L) (weighted L)
    (mkMaps
       (<[id := (-1)%float]> (amplitudeFit m))
       (<[id := (-1)%float]> (shapingtimeFit m))
       (<[id := (-1)%float]> (StartPositionFit m))
       (<[id := (-1)%float]> (variancegaussFit m))
       (<[id := (-1)%float]> (ratiosigmaamplitudeFit m)))
    (goodSig L) (fits L).

(** One signal fitted with the AGET function. *)
Definition fit_aget (s : Z) (sg : TRestRawSignal.t W) (L : Locals) : Locals :=
  let w := TRestRawSignal.wave sg in
  let MaxPeakBin := TRestRawSignal.GetMaxPeakBin w in
  let f := aget_function w MaxPeakBin in
  let h := signal_histogram w in
  let call := mkFitCall f h (MaxPeakBin - MinBinRange) (MaxPeakBin + MaxBinRange) in
  let fitted := Fit call in
  let sigma := squared_residuals h fitted (MaxPeakBin - 145) (MaxPeakBin + 165) in
  let Sigma_s := PrimFloat.sqrt (sigma / Z2D (145 + 165)) in
  let ratio := (Sigma_s / GetBinContent h (MaxPeakBin + 1))%float in
  let id := TRestRawSignal.GetID sg in
  let m := maps L in
  mkLocals
    (record_stats s Sigma_s ratio (GetChisquare fitted) (stats L))
    (weighted L)
    (mkMaps
       (<[id := GetParameter fitted AgetAmplitude]> (amplitudeFit m))
       (<[id := GetParameter fitted 0%nat]> (shapingtimeFit m))
       (<[id := GetParameter fitted 1%nat]> (StartPositionFit m))
       (variancegaussFit m)
       (<[id := ratio]> (ratiosigmaamplitudeFit m)))
    (goodSig L)
    (fits L ++ [call]).

(** The three loops over the signals have one shape: the signal [s] is
    updated in place ([prepare]: baseline, points over threshold), then
    fitted or skipped ([step]). *)
Definition each_signal (prepare : TRestRawSignal.t W -> TRestRawSignal.t W)
    (step : Z -> TRestRawSignal.t W -> Locals -> Locals)
    (s : Z) (st : Event * Locals) : Event * Locals :=
  match TRestRawSignalEvent.GetSignal (fst st) s with
  | None => st
  | Some sg0 =>
      let sg := prepare sg0 in
      (set_signal (fst st) s sg, step s sg (snd st))
  end.

(** [singleSignal->CalculateBaseLine(20, 150)] *)
Definition default_baseline (sg0 : TRestRawSignal.t W) : TRestRawSignal.t W :=
  TRestRawSignal.upd (TRestRawSignal.CalculateBaseLine 20 150) sg0.

Definition fit_all_body : Z -> Event * Locals -> Event * Locals :=
  each_signal default_baseline fit_convolution.

(** The baseline over the configured range, then the points over threshold. *)
Definition selection_prepare (sg0 : TRestRawSignal.t W) : TRestRawSignal.t W :=
  TRestRawSignal.upd
    (TRestRawSignal.InitializePointsOverThreshold
       (mkTVector2 (fPointThreshold cfg) (fSignalThreshold cfg)) (fPointsOverThreshold cfg))
    (TRestRawSignal.upd
       (TRestRawSignal.CalculateBaseLine (X (fBaseLineRange cfg)) (Y (fBaseLineRange cfg))) sg0).

(** [singleSignal->GetPointsOverThreshold().size() >= 2] *)
Definition good_signal (sg : TRestRawSignal.t W) : bool :=
  2 <=? Z.of_nat (length (TRestRawSignal.GetPointsOverThreshold (TRestRawSignal.wave sg))).

Definition fit_or_skip (s : Z) (sg : TRestRawSignal.t W) (L : Locals) : Locals :=
  if good_signal sg then
    fit_convolution s sg (mkLocals (stats L) (weighted L) (maps L) (goodSig L + 1) (fits L))
  else skip_signal sg L.

Definition fit_good_body : Z -> Event * Locals -> Event * Locals :=
  each_signal selection_prepare fit_or_skip.

Definition fit_aget_body : Z -> Event * Locals -> Event * Locals :=
  each_signal default_baseline fit_aget.

(** [maxVarianceGauss]: the largest entry of [variancegaussFit] over the
    signals of the event, and at least 0. *)
Definition max_variance (ev : Event) (m : gmap Z float) : float :=
  for_range 0 (TRestRawSignalEvent.GetNumberOfSignals ev)
    (fun k => TRestRawSignalEvent.with_signal ev k (fun sg maxVarianceGauss =>
       if (maxVarianceGauss <? map_at m (TRestRawSignal.GetID sg))%float
       then map_at m (TRestRawSignal.GetID sg) else maxVarianceGauss))
    0%float.

(** The sum of [(Sigma[k] - SigmaMean)^2] over the signals; in the "good
    signals" branch the entries that are 0 are left out. *)
Definition sum_squared_deviations (only_nonzero : bool) (n : Z) (Sigma : list float)
    (SigmaMean : float) : float :=
  for_range 0 n
    (fun k acc =>
       let x := default 0%float (Sigma !! Z.to_nat k) in
       if only_nonzero && is_zero x then acc
       else (acc + (x - SigmaMean) * (x - SigmaMean))%float)
    0%float.

Definition finish (ev : Event) (obs : Observables) (L : Locals) (st : Stats) : Outcome :=
  mkOutcome (if ApplyCut obs then None else Some ev) ev obs (fits L) st.

(** [fAddAllPulses == false], [fAgetFit == false]: the loop over the
    signals, "fit all signals" or "fit good signal's selection". *)
Definition convolution_loop (ev0 : Event) : Event * Locals :=
  let N0 := TRestRawSignalEvent.GetNumberOfSignals ev0 in
  let L0 := init_Locals N0 in
  if no_selection then for_range 0 N0 fit_all_body (ev0, L0)
  else
    let ev1 := TRestRawSignalEvent.SetBaseLineRange ev0 (fBaseLineRange cfg) in
    for_range 0 (TRestRawSignalEvent.GetNumberOfSignals ev1) fit_good_body (ev1, L0).

(** The same branch, with the observables set after the loop. *)
Definition ProcessEvent_convolution (ev0 : Event) : Outcome :=
  let ev := fst (convolution_loop ev0) in
  let L := snd (convolution_loop ev0) in
  let N := TRestRawSignalEvent.GetNumberOfSignals ev in
  let m := maps L in
  let st := stats L in
  let v := weighted L in
  let obs :=
    [ ("FitAmplitude_map", ByID (amplitudeFit m));
      ("FitShapingTime_map", ByID (shapingtimeFit m));
      ("FitStartPosition_map", ByID (StartPositionFit m));
      ("FitVarianceGauss_map", ByID (variancegaussFit m));
      ("FitRatioSigmaMaxPeak_map", ByID (ratiosigmaamplitudeFit m));
      ("FitMaxVarianceGauss", Scalar (max_variance ev (variancegaussFit m))) ] in
  let count := if no_selection then N else goodSig L in
  let SigmaMean' := (SigmaMean st / Z2D count)%float in
  let sigmaMeanStdDev := sum_squared_deviations (negb no_selection) N (Sigma st) SigmaMean' in
  let SigmaMeanStdDev := PrimFloat.sqrt (sigmaMeanStdDev / Z2D count) in
  let ChiSquareMean' := (ChiSquareMean st / Z2D count)%float in
  let RatioSigmaMaxPeakMean' := (RatioSigmaMaxPeakMean st / Z2D count)%float in
  let obs := obs ++
    [ ("FitSigmaMean", Scalar SigmaMean');
      ("FitSigmaStdDev", Scalar SigmaMeanStdDev);
      ("FitChiSquareMean", Scalar ChiSquareMean');
      ("FitRatioSigmaMaxPeakMean", Scalar RatioSigmaMaxPeakMean');
      ("FitVarianceGaussWMean", Scalar (VGmean v / VGweights v)%float);
      ("FitVarianceGaussWStdDev",
        Scalar (PrimFloat.sqrt (VGvariance v / VGweights v
                                - (VGmean v / VGweights v) * (VGmean v / VGweights v)))) ] in
  finish ev obs L
    (mkStats SigmaMean' (Sigma st) RatioSigmaMaxPeakMean' (RatioSigmaMaxPeak st)
       ChiSquareMean' (ChiSquare st)).

(** [fAddAllPulses == false], [fAgetFit == true]. *)
Definition aget_loop (ev0 : Event) : Event * Locals :=
  let N0 := TRestRawSignalEvent.GetNumberOfSignals ev0 in
  for_range 0 N0 fit_aget_body (ev0, init_Locals N0).

Definition ProcessEvent_aget (ev0 : Event) : Outcome :=
  let ev := fst (aget_loop ev0) in
  let L := snd (aget_loop ev0) in
  let N := TRestRawSignalEvent.GetNumberOfSignals ev in
  let m := maps L in
  let st := stats L in
  let SigmaMean' := (SigmaMean st / Z2D N)%float in
  let sigmaMeanStdDev := sum_squared_deviations false N (Sigma st) SigmaMean' in
  let SigmaMeanStdDev := PrimFloat.sqrt (sigmaMeanStdDev / Z2D N) in
  let ChiSquareMean' := (ChiSquareMean st / Z2D N)%float in
  let RatioSigmaMaxPeakMean' := (RatioSigmaMaxPeakMean st / Z2D N)%float in
  let obs :=
    [ ("FitAmplitude_map", ByID (amplitudeFit m));
      ("FitShapingTime_map", ByID (shapingtimeFit m));
      ("FitStartPosition_map", ByID (StartPositionFit m));
      ("FitRatioSigmaMaxPeak_map", ByID (ratiosigmaamplitudeFit m));
      ("FitSigmaMean", Scalar SigmaMean');
      ("FitSigmaStdDev", Scalar SigmaMeanStdDev);
      ("FitChiSquareMean", Scalar ChiSquareMean');
      ("FitRatioSigmaMaxPeakMean", Scalar RatioSigmaMaxPeakMean') ] in
  finish ev obs L
    (mkStats SigmaMean' (Sigma st) RatioSigmaMaxPeakMean' (RatioSigmaMaxPeak st)
       ChiSquareMean' (ChiSquare st)).

(** "All pulses": the bins of all the signals are added into the new signal
    [allSig], 512 bins whatever the length of the signals. *)
Definition bin_sum (ev : Event) (i : Z) : float :=
  for_range 0 (TRestRawSignalEvent.GetNumberOfSignals ev)
    (fun j => TRestRawSignalEvent.with_signal ev j (fun sg a =>
       (a + TRestRawSignal.GetData (TRestRawSignal.wave sg) i)%float))
    0%float.

Definition add_all_pulses (ev : Event) : TRestRawSignal.t W :=
  for_range 0 512
    (fun i allSig => TRestRawSignal.upd (TRestRawSignal.AddPoint (bin_sum ev i)) allSig)
    (TRestRawSignal.mk TRestRawSignal.create_id TRestRawSignal.create).

(** [fAddAllPulses == true]: [allSig] is fitted with the convolution; the
    event itself is not modified. *)
Definition ProcessEvent_all (ev : Event) : Outcome :=
  let N := TRestRawSignalEvent.GetNumberOfSignals ev in
  let L0 := init_Locals N in
  let allSig :=
    TRestRawSignal.upd
      (TRestRawSignal.CalculateBaseLine (X (fBaseLineRange cfg)) (Y (fBaseLineRange cfg)))
      (add_all_pulses ev) in
  let w := TRestRawSignal.wave allSig in
  let MaxPeakBin := TRestRawSignal.GetMaxPeakBin w in
  let fit_conv := convolution_function w MaxPeakBin in
  let h := signal_histogram w in
  let call := mkFitCall fit_conv h (MaxPeakBin - MinBinRange) (MaxPeakBin + MaxBinRange) in
  let fitted := Fit call in
  let sigma := squared_residuals h fitted (MaxPeakBin - MinBinRange) (MaxPeakBin + MaxBinRange) in
  let id := TRestRawSignal.GetID allSig in
  let m :=
    mkMaps
      (<[id := GetParameter fitted Amplitude]> (amplitudeFit (maps L0)))
      (<[id := GetParameter fitted ShapingTime]> (shapingtimeFit (maps L0)))
      (<[id := GetParameter fitted StartPosition]> (StartPositionFit (maps L0)))
      (<[id := GetParameter fitted VarianceGauss]> (variancegaussFit (maps L0)))
      (ratiosigmaamplitudeFit (maps L0)) in
  let st := stats L0 in
  let rms := PrimFloat.sqrt (sigma / Z2D (MinBinRange + MaxBinRange)) in
  let obs :=
    [ ("FitAmplitude_map", ByID (amplitudeFit m));
      ("FitShapingTime_map", ByID (shapingtimeFit m));
      ("FitStartPosition_map", ByID (StartPositionFit m));
      ("FitVarianceGauss_map", ByID (variancegaussFit m));
      ("FitRatioSigmaMaxPeak_map", ByID (ratiosigmaamplitudeFit m));
      ("FitMaxVarianceGauss", Scalar (map_at (variancegaussFit m) id));
      ("FitSigmaMean", Scalar rms);
      ("FitChiSquareMean", Scalar (GetChisquare fitted));
      ("FitRatioSigmaMaxPeakMean", Scalar (rms / GetBinContent h (MaxPeakBin + 1))%float);
      ("FitVarianceGaussWMean", Scalar (GetParameter fitted VarianceGauss));
      ("FitVarianceGaussWStdDev", Scalar (GetParError fitted 2)) ] in
  mkOutcome (if ApplyCut obs then None else Some ev) ev obs [call]
    (mkStats (SigmaMean st) (Sigma st)
       (RatioSigmaMaxPeakMean st / Z2D N)%float (RatioSigmaMaxPeak st)
       (ChiSquareMean st / Z2D N)%float (ChiSquare st)).

(** [ProcessEvent]: the branch is chosen by the two flags. *)
Definition ProcessEvent (ev : Event) : Outcome :=
  if negb (fAddAllPulses cfg) then
    if negb (fAgetFit cfg) then ProcessEvent_convolution ev
    else ProcessEvent_aget ev
  else ProcessEvent_all ev.

End Process.

End TRestRawSignalFitEventProcess.

(** ** A tabulated waveform

    An implementation of the waveform interface whose derived quantities are
    stored values, to run the event and the process on concrete events.
    The samples are 16-bit integers, the [Short_t] that [AddChargeToSignal]
    hands to [IncreaseBinBy]: [AddPoint] narrows the double it is handed to
    a sample and appends it, [IncreaseBinBy] adds in 16 bits.  Baseline,
    range and threshold initialisation leave the table as it is. *)

Module Tabulated.
Import Numeric.

Record Wave := mkWave {
  samples : list Z;
  base_line : float;
  base_line_sigma : float;
  integral : float;
  peak_bin : Z;
  peak_value : float;
  peak_width : Z;
  over_threshold : list Z
}.

Definition sample (w : Wave) (i : Z) : float :=
  if i <? 0 then 0%float else Z2D (default 0 (samples w !! Z.to_nat i)).

(** [(Short_t) a] where it is defined; the table stores 0 where it is not. *)
Definition narrow (a : float) : Z := default 0 (D2Short a).

Definition with_samples (l : list Z) (w : Wave) : Wave :=
  mkWave l (base_line w) (base_line_sigma w) (integral w) (peak_bin w)
    (peak_value w) (peak_width w) (over_threshold w).

Definition blank (n : Z) : Wave :=
  mkWave (replicate (Z.to_nat n) 0) 0 0 0 0 0 0 [].

#[export] Instance ops : TRestRawSignal.Ops Wave := {|
  TRestRawSignal.create := blank 0;
  TRestRawSignal.create_n := blank;
  TRestRawSignal.create_id := -1;
  TRestRawSignal.CalculateBaseLine := fun _ _ w => w;
  TRestRawSignal.SetRange := fun _ w => w;
  TRestRawSignal.InitializePointsOverThreshold := fun _ _ w => w;
  TRestRawSignal.IncreaseBinBy := fun bin v w =>
    with_samples (alter (fun x => to_short (x + v)) (Z.to_nat bin) (samples w)) w;
  TRestRawSignal.AddPoint := fun a w => with_samples (samples w ++ [narrow a]) w;
  TRestRawSignal.GetNumberOfPoints := fun w => Z.of_nat (length (samples w));
  TRestRawSignal.GetData := fun w i => (sample w i - base_line w)%float;
  TRestRawSignal.GetRawData := sample;
  TRestRawSignal.GetBaseLine := base_line;
  TRestRawSignal.GetBaseLineSigma := base_line_sigma;
  TRestRawSignal.GetIntegral := integral;
  TRestRawSignal.GetThresholdIntegral := integral;
  TRestRawSignal.GetSlopeIntegral := fun _ => 0%float;
  TRestRawSignal.GetRiseTime := fun _ => 0%float;
  TRestRawSignal.GetTripleMaxIntegral := fun _ => 0%float;
  TRestRawSignal.GetMaxPeakBin := peak_bin;
  TRestRawSignal.GetMaxPeakValue := peak_value;
  TRestRawSignal.GetMaxPeakWidth := peak_width;
  TRestRawSignal.GetPointsOverThreshold := over_threshold
|}.

(** A signal known by its ID and its integral. *)
Definition with_integral (id : Z) (x : float) : TRestRawSignal.t Wave :=
  TRestRawSignal.mk id (mkWave [] 0 0 x 0 0 0 []).

(** A signal known by its ID, the value of its peak and the width of it. *)
Definition with_peak (id : Z) (value : float) (width : Z) : TRestRawSignal.t Wave :=
  TRestRawSignal.mk id (mkWave [] 0 0 0 0 value width []).

(** An event with no range set. *)
Definition event (l : list (TRestRawSignal.t Wave)) : TRestRawSignalEvent.t Wave :=
  TRestRawSignalEvent.mk l (mkTVector2 0 0) (mkTVector2 0 0).

(** A signal of [n] samples, all equal to [raw], with the given baseline and
    the given points over threshold; its peak is at bin [peak]. *)
Definition level (id n raw : Z) (base : float) (peak : Z) (over : list Z)
    : TRestRawSignal.t Wave :=
  TRestRawSignal.mk id
    (mkWave (replicate (Z.to_nat n) raw) base 0 0 peak (Z2D raw - base)%float 0 over).

(** A signal of 512 samples over a flat baseline at 0: a peak of 100 at
    bin 200, a second bump of 31 at bin 300, 0 elsewhere. *)
Definition two_bumps (id : Z) : TRestRawSignal.t Wave :=
  TRestRawSignal.mk id
    (mkWave (<[300%nat := 31]> (<[200%nat := 100]> (replicate 512 0)))
       0 0 131 200 100 1 [200]).

(** A signal of 512 samples: 1 at bin 4, 0 elsewhere; its baseline is the
    mean 0.2 of the bins 0 to 4 (the double nearest to 0.2), its peak is at
    bin 4. *)
Definition small_pulse (id : Z) : TRestRawSignal.t Wave :=
  TRestRawSignal.mk id
    (mkWave (<[4%nat := 1]> (replicate 512 0))
       0x1.999999999999ap-3 0 1 4 (1 - 0x1.999999999999ap-3)%float 1 []).

(** A signal of 512 samples: 1 at bin 1, 0 elsewhere; its baseline is the
    mean 0.5 of the bins 0 and 1, with deviation 0.5, and its peak is at
    bin 1, 0.5 above the baseline. *)
Definition half_pulse (id : Z) : TRestRawSignal.t Wave :=
  TRestRawSignal.mk id
    (mkWave (<[1%nat := 1]> (replicate 512 0)) 0.5 0.5 1 1 0.5 1 []).

(** A minimiser that ends on the function that is 0 everywhere, and a cut
    that keeps every event. *)
Definition flat_fit (call : Root.FitCall) : Root.Fitted :=
  Root.mkFitted (fun _ => 0%float) (fun _ => 1%float) 0%float (fun _ => 0%float).

Definition no_cut (obs : TRestRawSignalFitEventProcess.Observables) : bool := false.

(** The three configurations: nothing set but the mode. *)
Definition config (aget all : bool) (blRange : TVector2) (points : Z) (pointTh signalTh : float)
    : TRestRawSignalFitEventProcess.Config :=
  TRestRawSignalFitEventProcess.mkConfig aget all 0 0 0 0 0 0 0 0 blRange points pointTh signalTh.

(** [baseLineRange="(20,150)" pointsOverThreshold="40" pointThreshold="6"
    signalThreshold="3"], the example of the documentation. *)
Definition selection_config : TRestRawSignalFitEventProcess.Config :=
  config false false (mkTVector2 20 150) 40 6 3.

(** No selection: every signal is fitted with the convolution. *)
Definition fit_all_config : TRestRawSignalFitEventProcess.Config :=
  config false false (mkTVector2 0 0) 0 0 0.

Definition aget_config : TRestRawSignalFitEventProcess.Config :=
  config true false (mkTVector2 0 0) 0 0 0.

Definition all_pulses_config : TRestRawSignalFitEventProcess.Config :=
  config false true (mkTVector2 0 0) 0 0 0.

(** Three signals with the same samples, those of [half_pulse]; the
    baselines are over the bins 0 and 1. *)
Definition three_alike : TRestRawSignalEvent.t Wave :=
  TRestRawSignalEvent.mk (map half_pulse (seqZ 1 3)) (mkTVector2 0 2) (mkTVector2 0 0).

(** Six signals with the same samples, those of [small_pulse]. *)
Definition six_alike : TRestRawSignalEvent.t Wave :=
  TRestRawSignalEvent.mk (map small_pulse (seqZ 1 6)) (mkTVector2 0 5) (mkTVector2 0 0).

(** Two signals, the first with three points over threshold, the second
    with none. *)
Definition one_good_one_not : TRestRawSignalEvent.t Wave :=
  event [level 1 16 5 0 8 [7; 8; 9]; level 2 16 1 0 8 []].

(** An event without a signal. *)
Definition no_signal : TRestRawSignalEvent.t Wave := event [].

(** Two signals without a point over threshold. *)
Definition none_good : TRestRawSignalEvent.t Wave :=
  event [level 1 16 1 0 8 []; level 2 16 1 0 8 [4]].

End Tabulated.

(** ** Vocabulary of the statements *)

(** The sum of a sequence of doubles, accumulated from 0 in the order of the
    sequence, as every [sum += x] loop of the source accumulates. *)
Definition sum_doubles (l : list float) : float :=
  foldl PrimFloat.add 0%float l.

(** The IDs of the signals of an event, in insertion order. *)
Definition signal_ids {W : Type} (ev : TRestRawSignalEvent.t W) : list Z :=
  map TRestRawSignal.GetSignalID (TRestRawSignalEvent.fSignal ev).

(** The widths of the peaks of the signals whose peak value exceeds the
    amplitude, in insertion order. *)
Definition qualifying_widths {W : Type} {ops : TRestRawSignal.Ops W}
    (ev : TRestRawSignalEvent.t W) (minPeakAmplitude : float) : list Z :=
  map (TRestRawSignalEvent.sig TRestRawSignal.GetMaxPeakWidth)
    (List.filter
       (fun s => (minPeakAmplitude <? TRestRawSignalEvent.sig TRestRawSignal.GetMaxPeakValue s)%float)
       (TRestRawSignalEvent.fSignal ev)).

(** The signals of a vector taken in order with their index, as the loops
    of the process take them. *)
Fixpoint fold_signals {W L : Type} (step : Z -> TRestRawSignal.t W -> L -> L)
    (i : Z) (l : list (TRestRawSignal.t W)) (acc : L) : L :=
  match l with
  | [] => acc
  | sg :: l' => fold_signals step (i + 1) l' (step i sg acc)
  end.

(** The five maps of a fit, in the order they are published, and the names
    they are published under. *)
Definition all_maps (m : TRestRawSignalFitEventProcess.Maps) : list (gmap Z float) :=
  [ TRestRawSignalFitEventProcess.amplitudeFit m;
    TRestRawSignalFitEventProcess.shapingtimeFit m;
    TRestRawSignalFitEventProcess.StartPositionFit m;
    TRestRawSignalFitEventProcess.variancegaussFit m;
    TRestRawSignalFitEventProcess.ratiosigmaamplitudeFit m ].

Definition fit_map_names : list string :=
  [ "FitAmplitude_map"; "FitShapingTime_map"; "FitStartPosition_map";
    "FitVarianceGauss_map"; "FitRatioSigmaMaxPeak_map" ].

(** The four per-event means of the residuals and of the chi-square. *)
Definition event_mean_names : list string :=
  [ "FitSigmaMean"; "FitSigmaStdDev"; "FitChiSquareMean"; "FitRatioSigmaMaxPeakMean" ].

(** The difference between the histogram and the fitted function at the
    cell [j], squared. *)
Definition squared_difference (h : Root.TH1D) (f : Root.Fitted) (j : Z) : float :=
  ((Root.GetBinContent h j - Root.Eval f (Numeric.Z2D j))
   * (Root.GetBinContent h j - Root.Eval f (Numeric.Z2D j)))%float.

(** The root mean square of (histogram - fitted function) over the window
    [[lo, hi)]: the squared differences at the cells [lo .. hi - 1] summed,
    divided by the width [hi - lo] of the window, and the square root
    taken. *)
Definition window_rms (h : Root.TH1D) (f : Root.Fitted) (lo hi : Z) : float :=
  PrimFloat.sqrt
    (sum_doubles (map (squared_difference h f) (seqZ lo (hi - lo))) / Numeric.Z2D (hi - lo)).

(** [x] added [K] times to 0. *)
Definition add_times (K : nat) (x : float) : float :=
  Nat.iter K (fun a => (a + x)%float) 0%float.

(** The call of [Fit] made for a signal, with the convolution and with the
    AGET function: the function set up from the configuration and the peak
    of the signal, the histogram of the signal, the window around its peak. *)
Definition convolution_call {W : Type} {ops : TRestRawSignal.Ops W}
    (cfg : TRestRawSignalFitEventProcess.Config) (sg : TRestRawSignal.t W) : Root.FitCall :=
  Root.mkFitCall
    (TRestRawSignalFitEventProcess.convolution_function cfg (TRestRawSignal.wave sg)
       (TRestRawSignal.GetMaxPeakBin (TRestRawSignal.wave sg)))
    (TRestRawSignalFitEventProcess.signal_histogram (TRestRawSignal.wave sg))
    (TRestRawSignal.GetMaxPeakBin (TRestRawSignal.wave sg) - 45)
    (TRestRawSignal.GetMaxPeakBin (TRestRawSignal.wave sg) + 70).

Definition aget_call {W : Type} {ops : TRestRawSignal.Ops W}
    (cfg : TRestRawSignalFitEventProcess.Config) (sg : TRestRawSignal.t W) : Root.FitCall :=
  Root.mkFitCall
    (TRestRawSignalFitEventProcess.aget_function cfg (TRestRawSignal.wave sg)
       (TRestRawSignal.GetMaxPeakBin (TRestRawSignal.wave sg)))
    (TRestRawSignalFitEventProcess.signal_histogram (TRestRawSignal.wave sg))
    (TRestRawSignal.GetMaxPeakBin (TRestRawSignal.wave sg) - 45)
    (TRestRawSignal.GetMaxPeakBin (TRestRawSignal.wave sg) + 70).

(** The residual stored for a signal: the root mean square of (histogram -
    fitted function) over the cells [lo] before the peak to [hi] after it. *)
Definition residual_around_peak {W : Type} {ops : TRestRawSignal.Ops W}
    (fitted : Root.Fitted) (lo hi : Z) (sg : TRestRawSignal.t W) : float :=
  window_rms (TRestRawSignalFitEventProcess.signal_histogram (TRestRawSignal.wave sg)) fitted
    (TRestRawSignal.GetMaxPeakBin (TRestRawSignal.wave sg) - lo)
    (TRestRawSignal.GetMaxPeakBin (TRestRawSignal.wave sg) + hi).

(** The residual divided by the content of the cell after the peak bin. *)
Definition residual_ratio {W : Type} {ops : TRestRawSignal.Ops W}
    (residual : float) (sg : TRestRawSignal.t W) : float :=
  (residual
   / Root.GetBinContent (TRestRawSignalFitEventProcess.signal_histogram (TRestRawSignal.wave sg))
       (TRestRawSignal.GetMaxPeakBin (TRestRawSignal.wave sg) + 1))%float.

(** What [Fill] leaves in the cell of bin [i]: the sample minus the
    baseline, added to the 0 the cell held. *)
Definition filled {W : Type} {ops : TRestRawSignal.Ops W} (w : W) (i : Z) : float :=
  (0 + (TRestRawSignal.GetRawData w i - TRestRawSignal.GetBaseLine w))%float.

(** The value a parameter of the fit starts from, and whether it is fixed:
    the fixed value when the "fixed" option is not 0, else the initial value
    when that option is not 0, else the default. *)
Definition start_value (fixed_option fixed_value initial_option initial_value default_value : float)
    : float :=
  if negb (Numeric.is_zero fixed_option) then fixed_value
  else if negb (Numeric.is_zero initial_option) then initial_value
  else default_value.

(** The squared deviation of [x] from [mean]. *)
Definition squared_deviation (mean x : float) : float :=
  ((x - mean) * (x - mean))%float.

(** What the map published under [name] holds at [id]; [None] when no map
    is published under that name or the map has no entry there. *)
Definition published_at (obs : TRestRawSignalFitEventProcess.Observables) (name : string)
    (id : Z) : option float :=
  match TRestRawSignalFitEventProcess.GetObservable name obs with
  | Some (TRestRawSignalFitEventProcess.ByID m) => m !! id
  | _ => None
  end.

(** The largest value met so far, from [start] on: a value replaces the one
    kept when it compares greater. *)
Definition running_maximum (start : float) (l : list float) : float :=
  foldl (fun kept x => if (kept <? x)%float then x else kept) start l.

(** The observables of the variance of the Gaussian, which only the
    convolution has. *)
Definition variance_names : list string :=
  [ "FitVarianceGauss_map"; "FitMaxVarianceGauss"; "FitVarianceGaussWMean";
    "FitVarianceGaussWStdDev" ].

(** * Properties *)

(** ** Counted loops and vectors *)

Section Loops.
Context {St : Type}.

Lemma for_loop_app (n m : nat) (i : Z) (body : Z -> St -> St) (st : St) :
  for_loop (n + m) i body st = for_loop m (i + Z.of_nat n) body (for_loop n i body st).
Proof.
  revert i st. induction n as [|n IH]; intros i st; simpl.
  - f_equal. lia.
  - rewrite IH. f_equal. lia.
Qed.

Lemma for_loop_ext (n : nat) (i : Z) (f g : Z -> St -> St) (st : St) :
  (forall j st', i <= j < i + Z.of_nat n -> f j st' = g j st') ->
  for_loop n i f st = for_loop n i g st.
Proof.
  revert i st. induction n as [|n IH]; intros i st Hfg; simpl; [reflexivity|].
  rewrite Hfg by lia. apply IH. intros j st' Hj. apply Hfg. lia.
Qed.

Lemma for_range_empty (lo hi : Z) (body : Z -> St -> St) (st : St) :
  hi <= lo -> for_range lo hi body st = st.
Proof.
  intros H. unfold for_range.
  replace (Z.to_nat (hi - lo)) with O by lia. reflexivity.
Qed.

(** A loop that reads [l[i]] for [i] from the length of a prefix to the end
    of the vector is a left fold over the rest of the vector. *)
Lemma for_loop_vector {A : Type} (pre l : list A) (f : A -> St -> St) (st : St) :
  for_loop (length l) (Z.of_nat (length pre))
    (fun i st' => match (if i <? 0 then None else (pre ++ l) !! Z.to_nat i) with
                  | Some x => f x st'
                  | None => st'
                  end) st
  = foldl (fun st' x => f x st') st l.
Proof.
  revert pre st. induction l as [|x l IH]; intros pre st; simpl; [reflexivity|].
  destruct (Z.ltb_spec (Z.of_nat (length pre)) 0) as [Hneg|_]; [lia|].
  rewrite Nat2Z.id, list_lookup_middle by reflexivity.
  specialize (IH (pre ++ [x]) (f x st)).
  rewrite length_app in IH. simpl in IH.
  replace (Z.of_nat (length pre + 1)) with (Z.of_nat (length pre) + 1) in IH by lia.
  rewrite <- IH. apply for_loop_ext. intros j st' _.
  rewrite <- app_assoc. reflexivity.
Qed.

Lemma for_range_vector {A : Type} (l : list A) (f : A -> St -> St) (st : St) :
  for_range 0 (Z.of_nat (length l))
    (fun i st' => match (if i <? 0 then None else l !! Z.to_nat i) with
                  | Some x => f x st'
                  | None => st'
                  end) st
  = foldl (fun st' x => f x st') st l.
Proof.
  unfold for_range. rewrite Z.sub_0_r, Nat2Z.id.
  exact (for_loop_vector [] l f st).
Qed.

Lemma for_loop_invariant (P : St -> Prop) (n : nat) (i : Z) (body : Z -> St -> St) (st : St) :
  P st ->
  (forall j st', i <= j < i + Z.of_nat n -> P st' -> P (body j st')) ->
  P (for_loop n i body st).
Proof.
  revert i st. induction n as [|n IH]; intros i st HP Hstep; simpl; [exact HP|].
  apply IH.
  - apply Hstep; [lia|exact HP].
  - intros j st' Hj. apply Hstep. lia.
Qed.

Lemma foldl_fixed {A : Type} (f : St -> A -> St) (st : St) (l : list A) :
  Forall (fun x => f st x = st) l -> foldl f st l = st.
Proof.
  induction 1 as [|x l Hx _ IH]; simpl; [reflexivity|].
  rewrite Hx. exact IH.
Qed.

(** A loop that reads the first [k] elements of a vector. *)
Lemma for_range_take {A : Type} (l : list A) (k : Z) (f : A -> St -> St) (st : St) :
  0 <= k <= Z.of_nat (length l) ->
  for_range 0 k
    (fun n st' => match l !! Z.to_nat n with
                  | Some x => f x st'
                  | None => st'
                  end) st
  = foldl (fun st' x => f x st') st (take (Z.to_nat k) l).
Proof.
  intros Hk.
  rewrite <- (for_range_vector (take (Z.to_nat k) l) f st).
  rewrite length_take_le by lia. rewrite Z2Nat.id by lia.
  unfold for_range. apply for_loop_ext. intros j st' Hj.
  destruct (Z.ltb_spec j 0) as [Hneg|_]; [lia|].
  rewrite lookup_take_lt by lia. reflexivity.
Qed.

End Loops.

Section EventProperties.
Context {W : Type} {ops : TRestRawSignal.Ops W}.
Import TRestRawSignalEvent.

Implicit Types (ev : TRestRawSignalEvent.t W) (s : TRestRawSignal.t W).

(** Every loop over the signals of an event is a fold over [fSignal]. *)
Lemma for_signals {St : Type} ev (f : TRestRawSignal.t W -> St -> St) (st : St) :
  for_range 0 (GetNumberOfSignals ev) (fun i => with_signal ev i f) st
  = foldl (fun st' x => f x st') st (fSignal ev).
Proof. exact (for_range_vector (fSignal ev) f st). Qed.

Lemma sum_doubles_snoc (l : list float) (x : float) :
  sum_doubles (l ++ [x]) = (sum_doubles l + x)%float.
Proof. unfold sum_doubles. rewrite foldl_app. reflexivity. Qed.

Lemma foldl_add_map {A : Type} (g : A -> float) (l : list A) (a : float) :
  foldl (fun acc x => (acc + g x)%float) a l = foldl PrimFloat.add a (map g l).
Proof. revert a. induction l as [|x l IH]; intros a; simpl; [reflexivity|apply IH]. Qed.

(** C7. For every event, [GetIntegral] (the total integral) is the sum, over
    all the waveforms of the event in insertion order, of the integral of
    each waveform; the sum runs over exactly the [GetNumberOfSignals]
    waveforms. *)
Theorem GetIntegral_is_sum_of_integrals ev :
  GetIntegral ev = sum_doubles (map (sig TRestRawSignal.GetIntegral) (fSignal ev))
  /\ Z.of_nat (length (map (sig TRestRawSignal.GetIntegral) (fSignal ev))) = GetNumberOfSignals ev.
Proof.
  split.
  - unfold GetIntegral. rewrite for_signals. apply foldl_add_map.
  - rewrite length_map. reflexivity.
Qed.

(** *** Adding a signal *)

Lemma GetSignalIndex_from_found (l : list (TRestRawSignal.t W)) (i id : Z) :
  id ∈ map TRestRawSignal.GetSignalID l -> i <= GetSignalIndex_from l i id.
Proof.
  revert i. induction l as [|s l IH]; intros i Hin; simpl in *.
  - inversion Hin.
  - destruct (Z.eqb_spec (TRestRawSignal.GetSignalID s) id) as [_|Hne]; [lia|].
    apply elem_of_cons in Hin as [Heq|Hin]; [congruence|].
    specialize (IH (i + 1) Hin). lia.
Qed.

Lemma GetSignalIndex_from_missing (l : list (TRestRawSignal.t W)) (i id : Z) :
  id ∉ map TRestRawSignal.GetSignalID l -> GetSignalIndex_from l i id = -1.
Proof.
  revert i. induction l as [|s l IH]; intros i Hin; simpl in *; [reflexivity|].
  apply not_elem_of_cons in Hin as [Hne Hin].
  destruct (Z.eqb_spec (TRestRawSignal.GetSignalID s) id) as [Heq|_]; [congruence|].
  apply IH, Hin.
Qed.

Lemma signalIDExists_spec ev (id : Z) :
  signalIDExists ev id = true <-> id ∈ signal_ids ev.
Proof.
  unfold signalIDExists, GetSignalIndex, signal_ids. split.
  - intros H. destruct (decide (id ∈ map TRestRawSignal.GetSignalID (fSignal ev))) as [Hin|Hout];
      [exact Hin|].
    rewrite (GetSignalIndex_from_missing _ 0 id Hout) in H. discriminate H.
  - intros Hin. pose proof (GetSignalIndex_from_found _ 0 id Hin) as Hle.
    apply negb_true_iff, Z.eqb_neq. lia.
Qed.

Lemma AddSignal_duplicate_is_noop_aux ev s :
  TRestRawSignal.GetSignalID s ∈ signal_ids ev ->
  AddSignal ev s = (ev, s, [warning_exists (TRestRawSignal.GetSignalID s)])
  /\ GetNumberOfSignals (AddSignal ev s).1.1 = GetNumberOfSignals ev.
Proof.
  intros Hin. apply signalIDExists_spec in Hin.
  unfold AddSignal. rewrite Hin. split; reflexivity.
Qed.

(** C6. For every event and every waveform [s], when a waveform with the ID
    of [s] is already in the event, [AddSignal] changes nothing: the event
    after the call is the event before it (same signals, in the same order,
    hence the same count), the signal passed in is left as it was, and the
    only effect is the warning line on the output. *)
Theorem AddSignal_duplicate_is_noop ev s :
  TRestRawSignal.GetSignalID s ∈ signal_ids ev ->
  AddSignal ev s = (ev, s, [warning_exists (TRestRawSignal.GetSignalID s)])
  /\ GetNumberOfSignals (AddSignal ev s).1.1 = GetNumberOfSignals ev.
Proof. exact (AddSignal_duplicate_is_noop_aux ev s). Qed.

(** A signal with a new ID is appended, after its baseline and range are
    set; its ID is kept. *)
Lemma AddSignal_new ev s :
  TRestRawSignal.GetSignalID s ∉ signal_ids ev ->
  exists s', AddSignal ev s = (mk (fSignal ev ++ [s']) (fBaseLineRange ev) (fRange ev), s', [])
             /\ TRestRawSignal.GetSignalID s' = TRestRawSignal.GetSignalID s.
Proof.
  intros Hout. unfold AddSignal.
  destruct (signalIDExists ev (TRestRawSignal.GetSignalID s)) eqn:E.
  - apply signalIDExists_spec in E. contradiction.
  - eexists. split; reflexivity.
Qed.

(** Adding the same signal a second time is the duplicate case, whatever
    the first call did. *)
Lemma AddSignal_twice ev s :
  let '(ev1, s1, _) := AddSignal ev s in
  AddSignal ev1 s1 = (ev1, s1, [warning_exists (TRestRawSignal.GetSignalID s1)]).
Proof.
  destruct (decide (TRestRawSignal.GetSignalID s ∈ signal_ids ev)) as [Hin|Hout].
  - destruct (AddSignal_duplicate_is_noop_aux ev s Hin) as [-> _].
    apply AddSignal_duplicate_is_noop_aux, Hin.
  - destruct (AddSignal_new ev s Hout) as (s' & -> & Hid).
    apply AddSignal_duplicate_is_noop_aux.
    unfold signal_ids. simpl. rewrite map_app. apply elem_of_app. right.
    simpl. apply list_elem_of_singleton. reflexivity.
Qed.

(** [AddSignal] keeps the IDs of the event distinct. *)
Lemma AddSignal_NoDup ev s :
  NoDup (signal_ids ev) -> NoDup (signal_ids (AddSignal ev s).1.1).
Proof.
  intros Hnd. destruct (decide (TRestRawSignal.GetSignalID s ∈ signal_ids ev)) as [Hin|Hout].
  - destruct (AddSignal_duplicate_is_noop_aux ev s Hin) as [-> _]. exact Hnd.
  - destruct (AddSignal_new ev s Hout) as (s' & -> & Hid).
    unfold signal_ids in *. simpl. rewrite map_app. simpl.
    apply NoDup_app. split; [exact Hnd|]. split.
    + intros x Hx Hx'. apply list_elem_of_singleton in Hx'. subst x.
      rewrite Hid in Hx. contradiction.
    + apply NoDup_singleton.
Qed.

(** *** Averages over an event without signals *)

(** C2. On an event with no waveform, [GetBaseLineAverage] and
    [GetBaseLineSigmaAverage] divide the empty sum 0 by the count 0: the
    value returned is NaN, not 0. *)
Theorem baseline_averages_of_empty_event (blRange range : TVector2) :
  GetBaseLineAverage (mk [] blRange range) = nan
  /\ GetBaseLineSigmaAverage (mk [] blRange range) = nan
  /\ PrimFloat.eqb (GetBaseLineAverage (mk [] blRange range)) 0 = false
  /\ PrimFloat.eqb (GetBaseLineSigmaAverage (mk [] blRange range)) 0 = false.
Proof. repeat split. Qed.

(** The averages that count the signals they sum test the count first. *)
Lemma guarded_averages_of_empty_event (blRange range : TVector2) (minPeakAmplitude : float) :
  GetRiseSlope (mk [] blRange range) = 0%float
  /\ GetRiseTime (mk [] blRange range) = 0%float
  /\ GetAverageWidth (mk [] blRange range) minPeakAmplitude = 0%float
  /\ GetLowAverageWidth (mk [] blRange range) 3 minPeakAmplitude = 0%float.
Proof. repeat split. Qed.

(** *** Widths when no signal passes the amplitude filter *)

(** C3. What the two getters return when no signal qualifies: for every
    event and every amplitude such that no waveform has a peak value above
    it, [GetAverageWidth] returns 0, through its test of the count, and
    [GetLowestWidth], which has no such test, returns the 10000000 its
    minimum starts from, where the claim says 0. *)
Theorem widths_when_no_signal_qualifies ev (minPeakAmplitude : float) :
  Forall (fun s => (minPeakAmplitude <? sig TRestRawSignal.GetMaxPeakValue s)%float = false)
    (fSignal ev) ->
  GetAverageWidth ev minPeakAmplitude = 0%float
  /\ GetLowestWidth ev minPeakAmplitude = 10000000.
Proof.
  intros Hnone. split.
  - unfold GetAverageWidth. rewrite for_signals.
    rewrite foldl_fixed; [reflexivity|].
    eapply Forall_impl; [exact Hnone|]. intros s Hs. simpl. rewrite Hs. reflexivity.
  - unfold GetLowestWidth. rewrite for_signals.
    rewrite foldl_fixed; [reflexivity|].
    eapply Forall_impl; [exact Hnone|]. intros s Hs. simpl. rewrite Hs. reflexivity.
Qed.

(** *** The signal with the largest integral *)

Lemma GetMaxSignal_empty (blRange range : TVector2) :
  GetMaxSignal (mk [] blRange range) = nullptr.
Proof. reflexivity. Qed.

(** Whenever no integral, once truncated to [Int_t], is above the integral
    of the first signal, the index [sId] is never assigned and the pointer
    returned is built from it all the same. *)
Lemma GetMaxSignal_first_not_exceeded ev s0 :
  fSignal ev !! 0%nat = Some s0 ->
  Forall (fun s => exists integ,
            Numeric.D2Int (sig TRestRawSignal.GetIntegral s) = Some integ
            /\ (sig TRestRawSignal.GetIntegral s0 <? Numeric.Z2D integ)%float = false)
    (fSignal ev) ->
  GetMaxSignal ev = indeterminate.
Proof.
  intros H0 Hall. unfold GetMaxSignal.
  assert (Hlen : 0 < GetNumberOfSignals ev).
  { unfold GetNumberOfSignals. apply lookup_lt_Some in H0. lia. }
  destruct (Z.leb_spec (GetNumberOfSignals ev) 0) as [Hle|_]; [lia|].
  unfold GetSignal. change (0 <? 0) with false. cbv iota.
  change (Z.to_nat 0) with 0%nat. rewrite H0.
  assert (Hloop : for_range 0 (GetNumberOfSignals ev) (GetMaxSignal_body ev)
                    (Some (sig TRestRawSignal.GetIntegral s0, None))
                  = Some (sig TRestRawSignal.GetIntegral s0, None)).
  { unfold for_range. apply for_loop_invariant; [reflexivity|].
    intros j st' Hj ->. unfold GetMaxSignal_body, with_signal, GetSignal.
    destruct (Z.ltb_spec j 0) as [Hneg|_]; [lia|].
    destruct (fSignal ev !! Z.to_nat j) as [s|] eqn:Es; [|reflexivity].
    apply list_elem_of_lookup_2 in Es.
    rewrite Forall_forall in Hall. destruct (Hall s Es) as (integ & -> & ->).
    reflexivity. }
  rewrite Hloop. reflexivity.
Qed.

(** *** The average of the lowest widths *)

Lemma widths_fold (minPeakAmplitude : float) (l : list (TRestRawSignal.t W)) (acc : list Z) :
  foldl (fun widths s =>
           if (minPeakAmplitude <? sig TRestRawSignal.GetMaxPeakValue s)%float
           then widths ++ [sig TRestRawSignal.GetMaxPeakWidth s]
           else widths) acc l
  = acc ++ map (sig TRestRawSignal.GetMaxPeakWidth)
             (List.filter (fun s => (minPeakAmplitude <? sig TRestRawSignal.GetMaxPeakValue s)%float) l).
Proof.
  revert acc. induction l as [|s l IH]; intros acc; simpl.
  - rewrite app_nil_r. reflexivity.
  - destruct (minPeakAmplitude <? sig TRestRawSignal.GetMaxPeakValue s)%float.
    + rewrite IH. simpl. rewrite <- app_assoc. reflexivity.
    + apply IH.
Qed.

Lemma widths_loop ev (minPeakAmplitude : float) :
  for_range 0 (GetNumberOfSignals ev)
    (fun sgnl => with_signal ev sgnl (fun s widths =>
       if (minPeakAmplitude <? sig TRestRawSignal.GetMaxPeakValue s)%float
       then widths ++ [sig TRestRawSignal.GetMaxPeakWidth s]
       else widths))
    []
  = qualifying_widths ev minPeakAmplitude.
Proof. rewrite for_signals. apply widths_fold. Qed.

Lemma to_unsigned_nonneg (n : Z) :
  0 <= n <= Numeric.Int_max -> Numeric.to_unsigned n = n.
Proof.
  unfold Numeric.to_unsigned, Numeric.Int_max. intros Hn.
  apply Z.mod_small. lia.
Qed.

(** C10. For every event, a count [nSignals >= 0] and an amplitude, with
    [ws] the widths of the [q] waveforms whose peak value exceeds the
    amplitude: when [q = 0] [GetLowAverageWidth] returns 0; otherwise [ws]
    splits into [lo], of length [min nSignals q], in ascending order, and
    [hi], no element of which is below an element of [lo], and the value
    returned is the sum of [lo] divided by [nSignals], the count asked for,
    not by the length of [lo]. *)
Theorem GetLowAverageWidth_lowest_over_requested ev (nSignals : Z) (minPeakAmplitude : float) :
  0 <= nSignals <= Numeric.Int_max ->
  (qualifying_widths ev minPeakAmplitude = [] ->
     GetLowAverageWidth ev nSignals minPeakAmplitude = 0%float)
  /\ (qualifying_widths ev minPeakAmplitude <> [] ->
       exists lo hi : list Z,
         lo ++ hi ≡ₚ qualifying_widths ev minPeakAmplitude
         /\ Z.of_nat (length lo)
            = Z.min nSignals (Z.of_nat (length (qualifying_widths ev minPeakAmplitude)))
         /\ StronglySorted Z.le lo
         /\ (forall a b, a ∈ lo -> b ∈ hi -> a <= b)
         /\ GetLowAverageWidth ev nSignals minPeakAmplitude
            = (sum_doubles (map Numeric.Z2D lo) / Numeric.Z2D nSignals)%float).
Proof.
  intros Hn. unfold GetLowAverageWidth. rewrite widths_loop.
  set (ws := qualifying_widths ev minPeakAmplitude). split.
  - intros ->. reflexivity.
  - intros Hne.
    destruct (Z.eqb_spec (Z.of_nat (length ws)) 0) as [Hz|_].
    { destruct ws; [congruence|simpl in Hz; lia]. }
    assert (Hperm : std_sort ws ≡ₚ ws) by apply merge_sort_Permutation.
    assert (Hlen : length (std_sort ws) = length ws) by (rewrite Hperm; reflexivity).
    assert (Hsorted : StronglySorted Z.le (std_sort ws))
      by apply (StronglySorted_merge_sort Z.le).
    rewrite Hlen, to_unsigned_nonneg by exact Hn.
    set (nMax := if Z.of_nat (length ws) <? nSignals then Z.of_nat (length ws) else nSignals).
    assert (HnMax : nMax = Z.min nSignals (Z.of_nat (length ws))).
    { unfold nMax. destruct (Z.ltb_spec (Z.of_nat (length ws)) nSignals); lia. }
    exists (take (Z.to_nat nMax) (std_sort ws)), (drop (Z.to_nat nMax) (std_sort ws)).
    rewrite <- (take_drop (Z.to_nat nMax) (std_sort ws)) in Hsorted.
    split; [rewrite take_drop; exact Hperm|].
    split; [rewrite length_take_le by lia; lia|].
    split; [exact (StronglySorted_app_1_l _ _ _ Hsorted)|].
    split; [intros a b Ha Hb; exact (StronglySorted_app_1_elem_of _ _ _ a b Hsorted Ha Hb)|].
    rewrite (for_range_take (std_sort ws) nMax (fun w avg => (avg + Numeric.Z2D w)%float)) by lia.
    rewrite foldl_add_map. reflexivity.
Qed.

(** With a negative count the cast to [unsigned] makes the loop run over
    every width: all of them are summed, and the sum is divided by the
    negative count. *)
Lemma to_unsigned_negative (n : Z) :
  Numeric.Int_min <= n < 0 -> Numeric.to_unsigned n = n + 2 ^ 32.
Proof.
  unfold Numeric.to_unsigned, Numeric.Int_min. intros Hn.
  symmetry. apply (Z.mod_unique_pos n (2 ^ 32) (-1) (n + 2 ^ 32)); lia.
Qed.

(** X30. [GetLowAverageWidth] asked for a negative number of signals, on an
    event where some signal qualifies: the count compared as [unsigned] is
    above any number of widths, so the widths of all the qualifying signals
    are summed, in ascending order, and the sum is divided by the negative
    count. *)
Lemma GetLowAverageWidth_negative_count ev (nSignals : Z) (minPeakAmplitude : float) :
  Numeric.Int_min <= nSignals < 0 ->
  qualifying_widths ev minPeakAmplitude <> [] ->
  Z.of_nat (length (qualifying_widths ev minPeakAmplitude)) <= Numeric.Int_max ->
  GetLowAverageWidth ev nSignals minPeakAmplitude
  = (sum_doubles (map Numeric.Z2D (std_sort (qualifying_widths ev minPeakAmplitude)))
     / Numeric.Z2D nSignals)%float.
Proof.
  intros Hn Hne Hq. unfold GetLowAverageWidth. rewrite widths_loop.
  set (ws := qualifying_widths ev minPeakAmplitude) in *.
  destruct (Z.eqb_spec (Z.of_nat (length ws)) 0) as [Hz|_].
  { destruct ws; [congruence|simpl in Hz; lia]. }
  assert (Hlen : length (std_sort ws) = length ws).
  { unfold std_sort. rewrite merge_sort_Permutation. reflexivity. }
  rewrite Hlen, to_unsigned_negative by exact Hn.
  unfold Numeric.Int_min, Numeric.Int_max in *.
  destruct (Z.ltb_spec (Z.of_nat (length ws)) (nSignals + 2 ^ 32)) as [_|Hge]; [|lia].
  rewrite (for_range_take (std_sort ws) (Z.of_nat (length ws))
             (fun w avg => (avg + Numeric.Z2D w)%float)) by lia.
  rewrite Nat2Z.id, <- Hlen, firstn_all, foldl_add_map. reflexivity.
Qed.

End EventProperties.

(** ** The loops of the process *)

Section ProcessProperties.
Context {W : Type} {ops : TRestRawSignal.Ops W}.
Import TRestRawSignalFitEventProcess.
Variable Fit : Root.FitCall -> Root.Fitted.
Variable ApplyCut : Observables -> bool.
Variable cfg : Config.

Implicit Types (ev : TRestRawSignalEvent.t W) (sg : TRestRawSignal.t W) (L : Locals).

Lemma for_range_seqZ {St : Type} (lo hi : Z) (body : Z -> St -> St) (st : St) :
  for_range lo hi body st = foldl (fun st' i => body i st') st (seqZ lo (hi - lo)).
Proof.
  unfold for_range, seqZ.
  generalize (Z.to_nat (hi - lo)) as k. intros k.
  assert (Hgen : forall (b : nat) (st0 : St),
             for_loop k (lo + Z.of_nat b) body st0
             = foldl (fun st' i => body i st') st0
                 ((fun i : nat => Z.of_nat i + lo) <$> seq b k)).
  { induction k as [|k IH]; intros b st0; simpl; [reflexivity|].
    replace (lo + Z.of_nat b + 1) with (lo + Z.of_nat (S b)) by lia.
    rewrite IH. replace (Z.of_nat b + lo) with (lo + Z.of_nat b) by lia. reflexivity. }
  specialize (Hgen 0%nat st). rewrite Z.add_0_r in Hgen. exact Hgen.
Qed.

(** The residual loop sums the squared differences over its cells. *)
Lemma squared_residuals_sum (h : Root.TH1D) (f : Root.Fitted) (lo hi : Z) :
  squared_residuals h f lo hi
  = sum_doubles (map (squared_difference h f) (seqZ lo (hi - lo))).
Proof.
  unfold squared_residuals. rewrite for_range_seqZ.
  exact (foldl_add_map (squared_difference h f) _ _).
Qed.

(** A loop that updates the signal [s] in place and then steps on it leaves
    every signal prepared, and has stepped on the prepared signals in order. *)
Lemma each_signal_from (prepare : TRestRawSignal.t W -> TRestRawSignal.t W)
    (step : Z -> TRestRawSignal.t W -> Locals -> Locals)
    (pre rest : list (TRestRawSignal.t W)) (r1 r2 : TVector2) L :
  for_loop (length rest) (Z.of_nat (length pre)) (each_signal prepare step)
    (TRestRawSignalEvent.mk (pre ++ rest) r1 r2, L)
  = (TRestRawSignalEvent.mk (pre ++ map prepare rest) r1 r2,
     fold_signals step (Z.of_nat (length pre)) (map prepare rest) L).
Proof.
  revert pre L. induction rest as [|x rest IH]; intros pre L; simpl; [reflexivity|].
  unfold each_signal at 2. unfold TRestRawSignalEvent.GetSignal. simpl.
  destruct (Z.ltb_spec (Z.of_nat (length pre)) 0) as [Hneg|_]; [lia|].
  rewrite Nat2Z.id, list_lookup_middle by reflexivity.
  unfold set_signal. simpl. rewrite Nat2Z.id.
  replace (<[length pre := prepare x]> (pre ++ x :: rest)) with ((pre ++ [prepare x]) ++ rest).
  2:{ rewrite <- (Nat.add_0_r (length pre)), insert_app_r. simpl.
      rewrite <- app_assoc. reflexivity. }
  specialize (IH (pre ++ [prepare x]) (step (Z.of_nat (length pre)) (prepare x) L)).
  rewrite length_app in IH. simpl in IH.
  replace (Z.of_nat (length pre + 1)) with (Z.of_nat (length pre) + 1) in IH by lia.
  rewrite IH, <- app_assoc. reflexivity.
Qed.

Lemma each_signal_loop (prepare : TRestRawSignal.t W -> TRestRawSignal.t W)
    (step : Z -> TRestRawSignal.t W -> Locals -> Locals) ev L :
  for_range 0 (TRestRawSignalEvent.GetNumberOfSignals ev) (each_signal prepare step) (ev, L)
  = (TRestRawSignalEvent.mk (map prepare (TRestRawSignalEvent.fSignal ev))
       (TRestRawSignalEvent.fBaseLineRange ev) (TRestRawSignalEvent.fRange ev),
     fold_signals step 0 (map prepare (TRestRawSignalEvent.fSignal ev)) L).
Proof.
  unfold for_range, TRestRawSignalEvent.GetNumberOfSignals.
  rewrite Z.sub_0_r, Nat2Z.id. destruct ev as [l r1 r2]. simpl.
  exact (each_signal_from prepare step [] l r1 r2 L).
Qed.

(** The "good signals" loop, as a fold. *)
Lemma selection_loop ev :
  no_selection cfg = false ->
  convolution_loop Fit cfg ev
  = (TRestRawSignalEvent.mk
       (map (selection_prepare cfg)
          (TRestRawSignalEvent.fSignal (TRestRawSignalEvent.SetBaseLineRange ev (fBaseLineRange cfg))))
       (fBaseLineRange cfg) (TRestRawSignalEvent.fRange ev),
     fold_signals (fit_or_skip Fit cfg) 0
       (map (selection_prepare cfg)
          (TRestRawSignalEvent.fSignal (TRestRawSignalEvent.SetBaseLineRange ev (fBaseLineRange cfg))))
       (init_Locals (TRestRawSignalEvent.GetNumberOfSignals ev))).
Proof.
  intros Hsel. unfold convolution_loop. rewrite Hsel.
  unfold fit_good_body. rewrite each_signal_loop. reflexivity.
Qed.

Lemma prepare_keeps_ids (prepare : TRestRawSignal.t W -> TRestRawSignal.t W)
    (l : list (TRestRawSignal.t W)) :
  (forall sg, TRestRawSignal.GetSignalID (prepare sg) = TRestRawSignal.GetSignalID sg) ->
  map TRestRawSignal.GetSignalID (map prepare l) = map TRestRawSignal.GetSignalID l.
Proof.
  intros Hid. rewrite map_map. apply map_ext. exact Hid.
Qed.

Lemma selection_keeps_ids ev :
  no_selection cfg = false ->
  signal_ids (convolution_loop Fit cfg ev).1 = signal_ids ev.
Proof.
  intros Hsel. rewrite selection_loop by exact Hsel. unfold signal_ids. simpl.
  rewrite !prepare_keeps_ids; reflexivity.
Qed.

Lemma fold_signals_app {A : Type} (step : Z -> TRestRawSignal.t W -> A -> A)
    (l1 l2 : list (TRestRawSignal.t W)) (i : Z) (acc : A) :
  fold_signals step i (l1 ++ l2) acc
  = fold_signals step (i + Z.of_nat (length l1)) l2 (fold_signals step i l1 acc).
Proof.
  revert i acc. induction l1 as [|x l1 IH]; intros i acc; simpl.
  - f_equal. lia.
  - rewrite IH. f_equal. lia.
Qed.

Lemma fold_signals_cons {A : Type} (step : Z -> TRestRawSignal.t W -> A -> A)
    (x : TRestRawSignal.t W) (l : list (TRestRawSignal.t W)) (i : Z) (acc : A) :
  fold_signals step i (x :: l) acc = fold_signals step (i + 1) l (step i x acc).
Proof. reflexivity. Qed.

(** *** The maps of the "good signals" branch *)

(** What the five maps hold at an ID. *)
Abbreviation entries L id := (map (fun g : gmap Z float => g !! id) (all_maps (maps L))).

Lemma fit_or_skip_other (s id : Z) sg L :
  TRestRawSignal.GetID sg <> id ->
  entries (fit_or_skip Fit cfg s sg L) id = entries L id.
Proof.
  intros Hne. unfold fit_or_skip.
  destruct (good_signal sg); simpl; rewrite !lookup_insert_ne by exact Hne; reflexivity.
Qed.

Lemma fit_or_skip_sentinel (s : Z) sg L :
  good_signal sg = false ->
  entries (fit_or_skip Fit cfg s sg L) (TRestRawSignal.GetID sg)
  = replicate 5 (Some (-1)%float).
Proof.
  intros Hbad. unfold fit_or_skip. rewrite Hbad. simpl.
  rewrite !lookup_insert_eq. reflexivity.
Qed.

Lemma fit_or_skip_has_entries (s : Z) sg L :
  Forall is_Some (entries (fit_or_skip Fit cfg s sg L) (TRestRawSignal.GetID sg)).
Proof.
  unfold fit_or_skip. destruct (good_signal sg); simpl;
    rewrite !lookup_insert_eq; repeat constructor; eexists; reflexivity.
Qed.

Lemma fit_or_skip_keeps_entries (s id : Z) sg L :
  Forall is_Some (entries L id) ->
  Forall is_Some (entries (fit_or_skip Fit cfg s sg L) id).
Proof.
  intros Hhas. destruct (decide (TRestRawSignal.GetID sg = id)) as [<-|Hne].
  - apply fit_or_skip_has_entries.
  - rewrite fit_or_skip_other by exact Hne. exact Hhas.
Qed.

Lemma selection_fold_other (l : list (TRestRawSignal.t W)) (i id : Z) L :
  id ∉ map TRestRawSignal.GetSignalID l ->
  entries (fold_signals (fit_or_skip Fit cfg) i l L) id = entries L id.
Proof.
  revert i L. induction l as [|sg l IH]; intros i L Hout; simpl in *; [reflexivity|].
  apply not_elem_of_cons in Hout as [Hne Hout].
  rewrite IH by exact Hout. apply fit_or_skip_other. intros Heq. apply Hne. symmetry. exact Heq.
Qed.

Lemma selection_fold_keeps_entries (l : list (TRestRawSignal.t W)) (i id : Z) L :
  Forall is_Some (entries L id) ->
  Forall is_Some (entries (fold_signals (fit_or_skip Fit cfg) i l L) id).
Proof.
  revert i L. induction l as [|sg l IH]; intros i L Hhas; simpl; [exact Hhas|].
  apply IH, fit_or_skip_keeps_entries, Hhas.
Qed.

Lemma selection_fold_has_entries (l : list (TRestRawSignal.t W)) (i : Z) L sg :
  sg ∈ l ->
  Forall is_Some (entries (fold_signals (fit_or_skip Fit cfg) i l L) (TRestRawSignal.GetID sg)).
Proof.
  intros Hin. apply list_elem_of_split in Hin as (l1 & l2 & ->).
  rewrite fold_signals_app, fold_signals_cons.
  apply selection_fold_keeps_entries, fit_or_skip_has_entries.
Qed.

Lemma selection_fold_sentinel (l : list (TRestRawSignal.t W)) (i : Z) L sg :
  NoDup (map TRestRawSignal.GetSignalID l) ->
  sg ∈ l ->
  good_signal sg = false ->
  entries (fold_signals (fit_or_skip Fit cfg) i l L) (TRestRawSignal.GetID sg)
  = replicate 5 (Some (-1)%float).
Proof.
  intros Hnd Hin Hbad. apply list_elem_of_split in Hin as (l1 & l2 & ->).
  rewrite map_app in Hnd. simpl in Hnd.
  apply NoDup_app in Hnd as (_ & _ & Hnd2). apply NoDup_cons in Hnd2 as [Hout _].
  rewrite fold_signals_app, fold_signals_cons.
  rewrite selection_fold_other by exact Hout.
  apply fit_or_skip_sentinel, Hbad.
Qed.

(** When no signal is good, the loop fits nothing and leaves every sum and
    the count of good signals at 0. *)
Lemma selection_fold_all_skipped (l : list (TRestRawSignal.t W)) (i : Z) L :
  Forall (fun sg => good_signal sg = false) l ->
  stats (fold_signals (fit_or_skip Fit cfg) i l L) = stats L
  /\ weighted (fold_signals (fit_or_skip Fit cfg) i l L) = weighted L
  /\ goodSig (fold_signals (fit_or_skip Fit cfg) i l L) = goodSig L
  /\ fits (fold_signals (fit_or_skip Fit cfg) i l L) = fits L.
Proof.
  intros Hall. revert i L. induction Hall as [|sg l Hbad _ IH]; intros i L.
  - repeat split.
  - rewrite fold_signals_cons.
    assert (Hskip : fit_or_skip Fit cfg i sg L = skip_signal sg L)
      by (unfold fit_or_skip; rewrite Hbad; reflexivity).
    rewrite Hskip.
    destruct (IH (i + 1) (skip_signal sg L)) as (-> & -> & -> & ->). repeat split.
Qed.

(** The maps are published under their five names. *)
Lemma published_maps ev :
  map (fun name => GetObservable name (observables (ProcessEvent_convolution Fit ApplyCut cfg ev)))
    fit_map_names
  = map (fun g => Some (ByID g)) (all_maps (maps (convolution_loop Fit cfg ev).2)).
Proof. reflexivity. Qed.

Lemma ProcessEvent_selection ev :
  fAddAllPulses cfg = false -> fAgetFit cfg = false ->
  ProcessEvent Fit ApplyCut cfg ev = ProcessEvent_convolution Fit ApplyCut cfg ev.
Proof. intros Hadd Haget. unfold ProcessEvent. rewrite Hadd, Haget. reflexivity. Qed.

(** C5. In the "good signals" mode (no pulse addition, convolution fit, a
    selection configured), for every event whose signal IDs are distinct:
    the signals keep their IDs; each of the five per-signal maps is
    published, holds an entry at the ID of every signal of the event, and
    holds -1 there when the signal has fewer than 2 points over threshold;
    and the pointer returned is the event unless the cut of the framework
    rejects it, whether or not any signal was good. *)
Theorem selection_publishes_sentinels ev :
  fAddAllPulses cfg = false -> fAgetFit cfg = false -> no_selection cfg = false ->
  NoDup (signal_ids ev) ->
  signal_ids (event_after (ProcessEvent Fit ApplyCut cfg ev)) = signal_ids ev
  /\ (forall name, name ∈ fit_map_names ->
        exists m, GetObservable name (observables (ProcessEvent Fit ApplyCut cfg ev)) = Some (ByID m)
          /\ forall sg, sg ∈ TRestRawSignalEvent.fSignal (event_after (ProcessEvent Fit ApplyCut cfg ev)) ->
               is_Some (m !! TRestRawSignal.GetID sg)
               /\ (good_signal sg = false -> m !! TRestRawSignal.GetID sg = Some (-1)%float))
  /\ returned (ProcessEvent Fit ApplyCut cfg ev)
     = (if ApplyCut (observables (ProcessEvent Fit ApplyCut cfg ev)) then None
        else Some (event_after (ProcessEvent Fit ApplyCut cfg ev))).
Proof.
  intros Hadd Haget Hsel Hnd. rewrite ProcessEvent_selection by assumption.
  split; [exact (selection_keeps_ids ev Hsel)|]. split; [|reflexivity].
  assert (Hids : NoDup (map TRestRawSignal.GetSignalID
                          (TRestRawSignalEvent.fSignal (convolution_loop Fit cfg ev).1))).
  { pose proof (selection_keeps_ids ev Hsel) as Hk. unfold signal_ids in Hk, Hnd.
    rewrite Hk. exact Hnd. }
  assert (Hentries : forall sg,
             sg ∈ TRestRawSignalEvent.fSignal (convolution_loop Fit cfg ev).1 ->
             Forall is_Some (entries (convolution_loop Fit cfg ev).2 (TRestRawSignal.GetID sg))
             /\ (good_signal sg = false ->
                 entries (convolution_loop Fit cfg ev).2 (TRestRawSignal.GetID sg)
                 = replicate 5 (Some (-1)%float))).
  { rewrite (selection_loop ev Hsel) in Hids |- *. simpl fst in *. simpl snd.
    intros sg Hin. split.
    - apply selection_fold_has_entries, Hin.
    - apply selection_fold_sentinel; assumption. }
  change (event_after (ProcessEvent_convolution Fit ApplyCut cfg ev))
    with (convolution_loop Fit cfg ev).1.
  intros name Hname. unfold fit_map_names in Hname.
  repeat (apply elem_of_cons in Hname as [->|Hname]); [| | | | |inversion Hname].
  all: eexists; split; [reflexivity|].
  all: intros sg Hin; destruct (Hentries sg Hin) as [Hsome Hbad].
  all: unfold all_maps in Hsome, Hbad; simpl in Hsome, Hbad.
  all: repeat (apply Forall_cons in Hsome as [? Hsome]).
  all: split; [assumption|].
  all: intros Hb; specialize (Hbad Hb); injection Hbad; intros; assumption.
Qed.

(** *** The means of the "good signals" branch *)

(** The four means are published as sums divided by the count: the number
    of signals when every signal is fitted, [goodSig] under a selection. *)
Lemma published_means ev :
  let obs := observables (ProcessEvent_convolution Fit ApplyCut cfg ev) in
  let L := (convolution_loop Fit cfg ev).2 in
  let N := TRestRawSignalEvent.GetNumberOfSignals (convolution_loop Fit cfg ev).1 in
  let count := if no_selection cfg then N else goodSig L in
  let mean := (SigmaMean (stats L) / Numeric.Z2D count)%float in
  GetObservable "FitSigmaMean" obs = Some (Scalar mean)
  /\ GetObservable "FitSigmaStdDev" obs
     = Some (Scalar (PrimFloat.sqrt
                       (sum_squared_deviations (negb (no_selection cfg)) N (Sigma (stats L)) mean
                        / Numeric.Z2D count)))
  /\ GetObservable "FitChiSquareMean" obs
     = Some (Scalar (ChiSquareMean (stats L) / Numeric.Z2D count)%float)
  /\ GetObservable "FitRatioSigmaMaxPeakMean" obs
     = Some (Scalar (RatioSigmaMaxPeakMean (stats L) / Numeric.Z2D count)%float).
Proof. repeat split. Qed.

Lemma sum_squared_deviations_zeros (n : Z) (k : nat) (mean : float) :
  sum_squared_deviations true n (replicate k 0%float) mean = 0%float.
Proof.
  unfold sum_squared_deviations, for_range.
  apply for_loop_invariant; [reflexivity|].
  intros j acc _ ->.
  assert (Hx : default 0%float (replicate k 0%float !! Z.to_nat j) = 0%float).
  { destruct (replicate k 0%float !! Z.to_nat j) as [x|] eqn:E; [|reflexivity].
    apply lookup_replicate in E as [-> _]. reflexivity. }
  rewrite Hx. reflexivity.
Qed.

(** C9. In the "good signals" mode, for every event in which no signal has
    at least 2 points over threshold: no fit is run, the count of good
    signals is 0, the four per-event means are the sums divided by that
    count, and the values published for them are NaN. *)
Theorem selection_without_good_signal ev :
  fAddAllPulses cfg = false -> fAgetFit cfg = false -> no_selection cfg = false ->
  Forall (fun sg => good_signal sg = false)
    (TRestRawSignalEvent.fSignal (event_after (ProcessEvent Fit ApplyCut cfg ev))) ->
  let L := (convolution_loop Fit cfg ev).2 in
  goodSig L = 0
  /\ fit_calls (ProcessEvent Fit ApplyCut cfg ev) = []
  /\ GetObservable "FitSigmaMean" (observables (ProcessEvent Fit ApplyCut cfg ev))
     = Some (Scalar (SigmaMean (stats L) / Numeric.Z2D (goodSig L))%float)
  /\ GetObservable "FitChiSquareMean" (observables (ProcessEvent Fit ApplyCut cfg ev))
     = Some (Scalar (ChiSquareMean (stats L) / Numeric.Z2D (goodSig L))%float)
  /\ GetObservable "FitRatioSigmaMaxPeakMean" (observables (ProcessEvent Fit ApplyCut cfg ev))
     = Some (Scalar (RatioSigmaMaxPeakMean (stats L) / Numeric.Z2D (goodSig L))%float)
  /\ (forall name, name ∈ event_mean_names ->
        GetObservable name (observables (ProcessEvent Fit ApplyCut cfg ev)) = Some (Scalar nan)).
Proof.
  intros Hadd Haget Hsel. rewrite ProcessEvent_selection by assumption.
  change (event_after (ProcessEvent_convolution Fit ApplyCut cfg ev))
    with (convolution_loop Fit cfg ev).1.
  change (fit_calls (ProcessEvent_convolution Fit ApplyCut cfg ev))
    with (fits (convolution_loop Fit cfg ev).2).
  intros Hnone L.
  destruct (published_means ev) as (Hmean & Hdev & Hchi & Hratio).
  rewrite Hsel in Hmean, Hdev, Hchi, Hratio. fold L in Hmean, Hdev, Hchi, Hratio.
  change (negb false) with true in Hdev.
  assert (HL : stats L = stats (init_Locals (TRestRawSignalEvent.GetNumberOfSignals ev))
               /\ goodSig L = 0 /\ fits L = []).
  { subst L. pose proof (selection_loop ev Hsel) as Hloop.
    set (l := map (selection_prepare cfg) _) in Hloop.
    rewrite Hloop in Hnone |- *.
    change (Forall (fun sg => good_signal sg = false) l) in Hnone.
    change (_, ?a).2 with a.
    destruct (selection_fold_all_skipped l 0
                (init_Locals (TRestRawSignalEvent.GetNumberOfSignals ev)) Hnone)
      as (-> & _ & -> & ->).
    repeat split. }
  destruct HL as (Hstats & Hgood & Hfits).
  split; [exact Hgood|]. split; [exact Hfits|].
  split; [exact Hmean|]. split; [exact Hchi|]. split; [exact Hratio|].
  rewrite Hstats, Hgood in Hmean, Hdev, Hchi, Hratio.
  unfold init_Locals in Hmean, Hdev, Hchi, Hratio.
  cbv beta iota zeta delta [SigmaMean Sigma ChiSquareMean RatioSigmaMaxPeakMean stats]
    in Hmean, Hdev, Hchi, Hratio.
  rewrite sum_squared_deviations_zeros in Hdev.
  intros name Hname. unfold event_mean_names in Hname.
  repeat (apply elem_of_cons in Hname as [->|Hname]); [| | | |inversion Hname].
  - exact Hmean.
  - exact Hdev.
  - exact Hchi.
  - exact Hratio.
Qed.

(** *** The residual of one fit *)

(** With the convolution, the residual stored for the signal is the root
    mean square over the window the fit was given. *)
Lemma fit_convolution_residual (s : Z) sg L :
  (Z.to_nat s < length (Sigma (stats L)))%nat ->
  exists call,
    fits (fit_convolution Fit cfg s sg L) = fits L ++ [call]
    /\ Root.fit_xmin call = TRestRawSignal.GetMaxPeakBin (TRestRawSignal.wave sg) - 45
    /\ Root.fit_xmax call = TRestRawSignal.GetMaxPeakBin (TRestRawSignal.wave sg) + 70
    /\ Sigma (stats (fit_convolution Fit cfg s sg L)) !! Z.to_nat s
       = Some (window_rms (Root.fit_histogram call) (Fit call)
                 (Root.fit_xmin call) (Root.fit_xmax call)).
Proof.
  intros Hs. eexists. split; [reflexivity|]. split; [reflexivity|]. split; [reflexivity|].
  cbn [fit_convolution stats record_stats Sigma Root.fit_histogram Root.fit_xmin Root.fit_xmax].
  rewrite list_lookup_insert_eq by exact Hs.
  rewrite squared_residuals_sum. unfold window_rms, MinBinRange, MaxBinRange.
  replace (TRestRawSignal.GetMaxPeakBin (TRestRawSignal.wave sg) + 70
           - (TRestRawSignal.GetMaxPeakBin (TRestRawSignal.wave sg) - 45)) with (45 + 70) by lia.
  reflexivity.
Qed.

(** With the AGET function, the fit is given the same window, and the
    residual is summed over 145 cells before the peak and 165 after it,
    and divided by 310. *)
Lemma fit_aget_residual (s : Z) sg L :
  (Z.to_nat s < length (Sigma (stats L)))%nat ->
  exists call,
    fits (fit_aget Fit cfg s sg L) = fits L ++ [call]
    /\ Root.fit_xmin call = TRestRawSignal.GetMaxPeakBin (TRestRawSignal.wave sg) - 45
    /\ Root.fit_xmax call = TRestRawSignal.GetMaxPeakBin (TRestRawSignal.wave sg) + 70
    /\ Sigma (stats (fit_aget Fit cfg s sg L)) !! Z.to_nat s
       = Some (window_rms (Root.fit_histogram call) (Fit call)
                 (Root.fit_xmin call - 100) (Root.fit_xmax call + 95)).
Proof.
  intros Hs. eexists. split; [reflexivity|]. split; [reflexivity|]. split; [reflexivity|].
  cbn [fit_aget stats record_stats Sigma Root.fit_histogram Root.fit_xmin Root.fit_xmax].
  rewrite list_lookup_insert_eq by exact Hs.
  rewrite squared_residuals_sum. unfold window_rms, MinBinRange, MaxBinRange.
  replace (TRestRawSignal.GetMaxPeakBin (TRestRawSignal.wave sg) + 70 + 95
           - (TRestRawSignal.GetMaxPeakBin (TRestRawSignal.wave sg) - 45 - 100))
    with (145 + 165) by lia.
  replace (TRestRawSignal.GetMaxPeakBin (TRestRawSignal.wave sg) - 45 - 100)
    with (TRestRawSignal.GetMaxPeakBin (TRestRawSignal.wave sg) - 145) by lia.
  replace (TRestRawSignal.GetMaxPeakBin (TRestRawSignal.wave sg) + 165
           - (TRestRawSignal.GetMaxPeakBin (TRestRawSignal.wave sg) - 145))
    with (145 + 165) by lia.
  reflexivity.
Qed.

(** *** All pulses added *)

Lemma bin_sum_is_sum ev (i : Z) :
  bin_sum ev i
  = sum_doubles (map (fun sg => TRestRawSignal.GetData (TRestRawSignal.wave sg) i)
                   (TRestRawSignalEvent.fSignal ev)).
Proof.
  unfold bin_sum. rewrite for_signals.
  exact (foldl_add_map (fun sg => TRestRawSignal.GetData (TRestRawSignal.wave sg) i) _ _).
Qed.

Lemma foldl_constant_step {A : Type} (g : float -> float) (l : list A) (a : float) :
  foldl (fun acc _ => g acc) a l = Nat.iter (length l) g a.
Proof.
  revert a. induction l as [|x l IH]; intros a; simpl; [reflexivity|].
  rewrite IH. symmetry. exact (Nat.iter_succ_r (length l) g a).
Qed.

Lemma bin_sum_identical ev (w : W) (i : Z) :
  Forall (fun sg => TRestRawSignal.GetData (TRestRawSignal.wave sg) i = TRestRawSignal.GetData w i)
    (TRestRawSignalEvent.fSignal ev) ->
  bin_sum ev i = add_times (length (TRestRawSignalEvent.fSignal ev)) (TRestRawSignal.GetData w i).
Proof.
  intros Hsame. unfold bin_sum, add_times. rewrite for_signals.
  rewrite <- (foldl_constant_step (fun a => (a + TRestRawSignal.GetData w i)%float)
                (TRestRawSignalEvent.fSignal ev)).
  generalize 0%float as a.
  induction Hsame as [|sg l Hsg _ IH]; intros a; simpl; [reflexivity|].
  rewrite Hsg. apply IH.
Qed.

Lemma add_all_pulses_points ev :
  TRestRawSignal.wave (add_all_pulses ev)
  = foldl (fun w a => TRestRawSignal.AddPoint a w) TRestRawSignal.create
      (map (bin_sum ev) (seqZ 0 512)).
Proof.
  unfold add_all_pulses. rewrite for_range_seqZ. change (512 - 0) with 512.
  generalize (seqZ 0 512) as bins.
  generalize (@TRestRawSignal.create W ops) as w0.
  generalize (@TRestRawSignal.create_id W ops) as id.
  intros id w0 bins. revert w0. induction bins as [|i bins IH]; intros w0; simpl; [reflexivity|].
  exact (IH (TRestRawSignal.AddPoint (bin_sum ev i) w0)).
Qed.

(** What the process hands to [AddPoint].  With [fAddAllPulses] set, for
    every event and whatever the waveform class stores: the new signal is
    built by [AddPoint], bin by bin for the 512 bins, from the sums of the
    values of all the waveforms at that bin, accumulated from 0 in insertion
    order; when the waveforms all have the value [x] at a bin, that sum is
    [x] added to 0 as many times as there are waveforms; and [Fit] is called
    exactly once, on the histogram of the new signal. *)
Theorem all_pulses_binwise_sum_and_one_fit ev :
  fAddAllPulses cfg = true ->
  TRestRawSignal.wave (add_all_pulses ev)
  = foldl (fun w a => TRestRawSignal.AddPoint a w) TRestRawSignal.create
      (map (fun i => sum_doubles (map (fun sg => TRestRawSignal.GetData (TRestRawSignal.wave sg) i)
                                    (TRestRawSignalEvent.fSignal ev)))
         (seqZ 0 512))
  /\ (forall (w : W) (i : Z),
        Forall (fun sg => TRestRawSignal.GetData (TRestRawSignal.wave sg) i
                          = TRestRawSignal.GetData w i)
          (TRestRawSignalEvent.fSignal ev) ->
        bin_sum ev i
        = add_times (length (TRestRawSignalEvent.fSignal ev)) (TRestRawSignal.GetData w i))
  /\ exists call,
       fit_calls (ProcessEvent Fit ApplyCut cfg ev) = [call]
       /\ Root.fit_histogram call
          = signal_histogram
              (TRestRawSignal.CalculateBaseLine (X (fBaseLineRange cfg)) (Y (fBaseLineRange cfg))
                 (TRestRawSignal.wave (add_all_pulses ev))).
Proof.
  intros Hall. split; [|split].
  - rewrite add_all_pulses_points. f_equal. apply map_ext. intros i. apply bin_sum_is_sum.
  - intros w i. apply bin_sum_identical.
  - unfold ProcessEvent. rewrite Hall. eexists. split; reflexivity.
Qed.

End ProcessProperties.

(** ** The event and the process on concrete events *)

Section Concrete.
Import Tabulated TRestRawSignalEvent TRestRawSignalFitEventProcess.

(** C1. [GetMaxSignal] on three events whose largest integral is known.
    One signal, integral 5: the loop never assigns [sId] and the pointer
    returned is built from the unassigned index.  Integrals 7 and 3: the
    first signal is the largest, and again [sId] is never assigned.
    Integrals 0, 5.25 and 5.75: the integrals are compared after truncation
    to [Int_t], and the second signal is returned although the third has the
    largest integral. *)
Theorem GetMaxSignal_misses_the_largest :
  GetMaxSignal (event [with_integral 1 5]) = indeterminate
  /\ GetMaxSignal (event [with_integral 1 7; with_integral 2 3]) = indeterminate
  /\ GetMaxSignal (event [with_integral 1 0; with_integral 2 5.25; with_integral 3 5.75])
     = element 1.
Proof. repeat split. Qed.

(** When a later signal is strictly larger after truncation, it is found. *)
Example GetMaxSignal_later_signal :
  GetMaxSignal (event [with_integral 1 3; with_integral 2 7; with_integral 3 7]) = element 1.
Proof. reflexivity. Qed.

Lemma GetMaxSignal_first_not_exceeded_witness :
  GetMaxSignal (event [with_integral 1 7; with_integral 2 3]) = indeterminate.
Proof.
  apply (GetMaxSignal_first_not_exceeded _ (with_integral 1 7)); [reflexivity|].
  repeat constructor.
  - exists 7. split; reflexivity.
  - exists 3. split; reflexivity.
Defined.

(** At the failing input of C3: the only signal has a peak of 10, the
    filter is 20, and [GetLowestWidth] returns 10000000, not 0. *)
Lemma GetLowestWidth_without_qualifying_signal :
  Forall (fun s => (20 <? sig TRestRawSignal.GetMaxPeakValue s)%float = false)
    (fSignal (event [with_peak 1 10 4]))
  /\ GetLowestWidth (event [with_peak 1 10 4]) 20 = 10000000
  /\ ~ (GetLowestWidth (event [with_peak 1 10 4]) 20 = 0
        /\ GetAverageWidth (event [with_peak 1 10 4]) 20 = 0%float).
Proof.
  split; [repeat constructor|]. split; [reflexivity|].
  intros [H _]. discriminate H.
Qed.

Lemma widths_when_no_signal_qualifies_witness :
  Forall (fun s => (20 <? sig TRestRawSignal.GetMaxPeakValue s)%float = false)
    (fSignal (event [with_peak 1 10 4; with_peak 2 15 6]))
  /\ GetAverageWidth (event [with_peak 1 10 4; with_peak 2 15 6]) 20 = 0%float
  /\ GetLowestWidth (event [with_peak 1 10 4; with_peak 2 15 6]) 20 = 10000000.
Proof.
  split; [repeat constructor|].
  apply (widths_when_no_signal_qualifies (event [with_peak 1 10 4; with_peak 2 15 6]) 20).
  repeat constructor.
Defined.

Lemma AddSignal_duplicate_is_noop_witness :
  1 ∈ signal_ids (event [with_peak 1 10 4; with_peak 2 15 6])
  /\ AddSignal (event [with_peak 1 10 4; with_peak 2 15 6]) (with_peak 1 3 3)
     = (event [with_peak 1 10 4; with_peak 2 15 6], with_peak 1 3 3, [warning_exists 1]).
Proof.
  split; [left|].
  apply (AddSignal_duplicate_is_noop (event [with_peak 1 10 4; with_peak 2 15 6]) (with_peak 1 3 3)).
  left.
Defined.

Lemma GetLowAverageWidth_lowest_over_requested_witness :
  0 <= 2 <= Numeric.Int_max
  /\ exists lo hi : list Z,
       lo ++ hi ≡ₚ [4; 2; 9]
       /\ Z.of_nat (length lo) = 2
       /\ StronglySorted Z.le lo
       /\ (forall a b, a ∈ lo -> b ∈ hi -> a <= b)
       /\ GetLowAverageWidth (event [with_peak 1 10 4; with_peak 2 10 2; with_peak 3 10 9]) 2 5
          = (sum_doubles (map Numeric.Z2D lo) / 2)%float.
Proof.
  assert (Hn : 0 <= 2 <= Numeric.Int_max) by (unfold Numeric.Int_max; lia).
  split; [exact Hn|].
  refine (proj2 (GetLowAverageWidth_lowest_over_requested
                   (event [with_peak 1 10 4; with_peak 2 10 2; with_peak 3 10 9]) 2 5 Hn) _).
  discriminate.
Defined.

(** The example computed: the two lowest of 4, 2 and 9 are 2 and 4; three
    widths asked of two that qualify gives (2 + 4) / 3. *)
Example GetLowAverageWidth_values :
  GetLowAverageWidth (event [with_peak 1 10 4; with_peak 2 10 2; with_peak 3 10 9]) 2 5 = 3%float
  /\ GetLowAverageWidth (event [with_peak 1 10 4; with_peak 2 10 2; with_peak 3 1 9]) 3 5 = 2%float
  /\ GetLowAverageWidth (event [with_peak 1 10 4; with_peak 2 10 2; with_peak 3 10 9]) (-1) 5
     = (-15)%float.
Proof. repeat split. Qed.

(** C4. The AGET fit of an event of one signal: 512 samples over a
    baseline of 0, a peak of 100 at bin 200 and a bump of 31 at bin 300, and
    a minimiser that ends on the zero function.  The fit is given the window
    [155, 270), which holds the peak and not the bump.  The residual stored
    for the signal is summed over the cells 55 to 364, which hold both, and
    divided by 310: it is the square root of 10961 / 310, and not the root
    mean square over the window of the fit, the square root of
    10000 / 115. *)
Theorem aget_residual_is_not_over_the_fit_window :
  exists call,
    fit_calls (ProcessEvent flat_fit no_cut aget_config (event [two_bumps 7])) = [call]
    /\ Root.fit_xmin call = 155
    /\ Root.fit_xmax call = 270
    /\ window_rms (Root.fit_histogram call) (flat_fit call) 155 270
       = PrimFloat.sqrt (10000 / 115)
    /\ Sigma (reported (ProcessEvent flat_fit no_cut aget_config (event [two_bumps 7])))
       = [window_rms (Root.fit_histogram call) (flat_fit call) 55 365]
    /\ Sigma (reported (ProcessEvent flat_fit no_cut aget_config (event [two_bumps 7])))
       = [PrimFloat.sqrt (10961 / 310)]
    /\ PrimFloat.eqb (PrimFloat.sqrt (10961 / 310)) (PrimFloat.sqrt (10000 / 115)) = false.
Proof.
  eexists. split; [reflexivity|].
  repeat split; vm_compute; reflexivity.
Qed.

(** The same signal fitted with the convolution: the residual stored is the
    root mean square over the window of the fit. *)
Example convolution_residual_is_over_the_fit_window :
  exists call,
    fit_calls (ProcessEvent flat_fit no_cut (config false false (mkTVector2 0 0) 0 0 0)
                 (event [two_bumps 7])) = [call]
    /\ (Root.fit_xmin call, Root.fit_xmax call) = (155, 270)
    /\ Sigma (reported (ProcessEvent flat_fit no_cut (config false false (mkTVector2 0 0) 0 0 0)
                          (event [two_bumps 7])))
       = [window_rms (Root.fit_histogram call) (flat_fit call) 155 270].
Proof.
  eexists. split; [reflexivity|].
  repeat split; vm_compute; reflexivity.
Qed.

Lemma fit_aget_residual_witness :
  exists call,
    fits (fit_aget flat_fit aget_config 0 (two_bumps 7) (init_Locals 1)) = [call]
    /\ Sigma (stats (fit_aget flat_fit aget_config 0 (two_bumps 7) (init_Locals 1))) !! 0%nat
       = Some (window_rms (Root.fit_histogram call) (flat_fit call)
                 (Root.fit_xmin call - 100) (Root.fit_xmax call + 95)).
Proof.
  assert (Hs : (Z.to_nat 0 < length (Sigma (stats (init_Locals 1))))%nat) by (simpl; lia).
  destruct (fit_aget_residual flat_fit aget_config 0 (two_bumps 7) (init_Locals 1) Hs)
    as (call & Hcall & _ & _ & Hsigma).
  exists call. split; [exact Hcall|exact Hsigma].
Defined.

Lemma fit_convolution_residual_witness :
  exists call,
    fits (fit_convolution flat_fit aget_config 0 (two_bumps 7) (init_Locals 1)) = [call]
    /\ Sigma (stats (fit_convolution flat_fit aget_config 0 (two_bumps 7) (init_Locals 1))) !! 0%nat
       = Some (window_rms (Root.fit_histogram call) (flat_fit call)
                 (Root.fit_xmin call) (Root.fit_xmax call)).
Proof.
  assert (Hs : (Z.to_nat 0 < length (Sigma (stats (init_Locals 1))))%nat) by (simpl; lia).
  destruct (fit_convolution_residual flat_fit aget_config 0 (two_bumps 7) (init_Locals 1) Hs)
    as (call & Hcall & _ & _ & Hsigma).
  exists call. split; [exact Hcall|exact Hsigma].
Defined.

(** C8. [fAddAllPulses] on three signals with the same samples, 1 at bin 1
    over a baseline of 0.5.  Each has the value 0.5 at bin 1 and -0.5 at
    bin 0; the sums of the three values, 1.5 and -1.5, are three times
    those values and are the doubles handed to [AddPoint].  The summed
    signal holds 1 and -1 at these bins, the sums narrowed to 16-bit
    samples, and its value at bin 1, which the claim says is 1.5, is 1.
    One fit is run. *)
Theorem all_pulses_sum_is_narrowed :
  Forall (fun sg => TRestRawSignal.wave sg = TRestRawSignal.wave (half_pulse 1))
    (fSignal three_alike)
  /\ TRestRawSignal.GetData (TRestRawSignal.wave (half_pulse 1)) 1 = 0.5%float
  /\ TRestRawSignal.GetData (TRestRawSignal.wave (half_pulse 1)) 0 = (-0.5)%float
  /\ bin_sum three_alike 1 = 1.5%float
  /\ bin_sum three_alike 0 = (-1.5)%float
  /\ (3 * 0.5 = 1.5)%float
  /\ TRestRawSignal.GetRawData (TRestRawSignal.wave (add_all_pulses three_alike)) 1 = 1%float
  /\ TRestRawSignal.GetRawData (TRestRawSignal.wave (add_all_pulses three_alike)) 0 = (-1)%float
  /\ TRestRawSignal.GetData
       (TRestRawSignal.CalculateBaseLine 0 2 (TRestRawSignal.wave (add_all_pulses three_alike))) 1
     = 1%float
  /\ length (fit_calls (ProcessEvent flat_fit no_cut all_pulses_config three_alike)) = 1%nat.
Proof.
  split; [repeat constructor|].
  repeat split; vm_compute; reflexivity.
Qed.

(** The sum itself is rounded at every addition: six signals with the
    samples of [small_pulse], whose peak, at bin 4, has the amplitude
    1 - 0.2.  The double handed to [AddPoint] at bin 4 is that amplitude
    added six times to 0, which is not six times the amplitude, and the
    summed signal holds 4 there. *)
Lemma all_pulses_sum_is_not_six_times_the_peak :
  Forall (fun sg => TRestRawSignal.wave sg = TRestRawSignal.wave (small_pulse 1))
    (fSignal six_alike)
  /\ TRestRawSignal.GetData (TRestRawSignal.wave (small_pulse 1)) 4
     = (1 - 0x1.999999999999ap-3)%float
  /\ bin_sum six_alike 4 = add_times 6 (1 - 0x1.999999999999ap-3)
  /\ PrimFloat.eqb (bin_sum six_alike 4) (6 * (1 - 0x1.999999999999ap-3)) = false
  /\ bin_sum six_alike 4 <> (6 * (1 - 0x1.999999999999ap-3))%float
  /\ TRestRawSignal.GetRawData (TRestRawSignal.wave (add_all_pulses six_alike)) 4 = 4%float.
Proof.
  split; [repeat constructor|].
  split; [reflexivity|].
  split; [vm_compute; reflexivity|].
  split; [vm_compute; reflexivity|].
  split; [|vm_compute; reflexivity].
  intros H.
  assert (E : PrimFloat.eqb (bin_sum six_alike 4) (6 * (1 - 0x1.999999999999ap-3)) = false)
    by (vm_compute; reflexivity).
  rewrite H in E. vm_compute in E. discriminate E.
Qed.

Lemma all_pulses_binwise_sum_and_one_fit_witness :
  fAddAllPulses all_pulses_config = true
  /\ bin_sum six_alike 4 = add_times 6 (TRestRawSignal.GetData (TRestRawSignal.wave (small_pulse 1)) 4)
  /\ exists call,
       fit_calls (ProcessEvent flat_fit no_cut all_pulses_config six_alike) = [call].
Proof.
  assert (Hall : fAddAllPulses all_pulses_config = true) by reflexivity.
  split; [exact Hall|].
  destruct (all_pulses_binwise_sum_and_one_fit flat_fit no_cut all_pulses_config six_alike Hall)
    as (_ & Hsame & call & Hcall & _).
  split.
  - apply (Hsame (TRestRawSignal.wave (small_pulse 1)) 4).
    repeat constructor.
  - exists call. exact Hcall.
Defined.

Lemma selection_publishes_sentinels_witness :
  NoDup (signal_ids one_good_one_not)
  /\ exists m,
       GetObservable "FitAmplitude_map"
         (observables (ProcessEvent flat_fit no_cut selection_config one_good_one_not))
       = Some (ByID m)
       /\ is_Some (m !! 1) /\ m !! 2 = Some (-1)%float.
Proof.
  assert (Hnd : NoDup (signal_ids one_good_one_not)).
  { apply NoDup_cons. split; [|apply NoDup_singleton].
    intros H. apply list_elem_of_singleton in H. discriminate H. }
  split; [exact Hnd|].
  destruct (selection_publishes_sentinels flat_fit no_cut selection_config one_good_one_not
              eq_refl eq_refl eq_refl Hnd) as (_ & Hmaps & _).
  destruct (Hmaps "FitAmplitude_map" (list_elem_of_here _ _)) as (m & Hm & Hsg).
  exists m. split; [exact Hm|]. split.
  - apply (Hsg (level 1 16 5 0 8 [7; 8; 9])). left.
  - apply (Hsg (level 2 16 1 0 8 [])); [right; left|reflexivity].
Defined.

Lemma selection_without_good_signal_witness :
  Forall (fun sg => good_signal sg = false)
    (fSignal (event_after (ProcessEvent flat_fit no_cut selection_config none_good)))
  /\ fit_calls (ProcessEvent flat_fit no_cut selection_config none_good) = []
  /\ GetObservable "FitSigmaMean"
       (observables (ProcessEvent flat_fit no_cut selection_config none_good))
     = Some (Scalar nan).
Proof.
  assert (Hnone : Forall (fun sg => good_signal sg = false)
            (fSignal (event_after (ProcessEvent flat_fit no_cut selection_config none_good))))
    by (repeat constructor).
  split; [exact Hnone|].
  destruct (selection_without_good_signal flat_fit no_cut selection_config none_good
              eq_refl eq_refl eq_refl Hnone) as (_ & Hfits & _ & _ & _ & Hnan).
  split; [exact Hfits|].
  apply Hnan. left.
Defined.

End Concrete.

(** ** The mutators of the event *)

Section EventMutators.
Context {W : Type} {ops : TRestRawSignal.Ops W}.
Import TRestRawSignalEvent.

Implicit Types (ev : TRestRawSignalEvent.t W) (s : TRestRawSignal.t W).
Implicit Types (l : list (TRestRawSignal.t W)).

(** A vector that holds an ID splits at the first signal that carries it. *)
Lemma first_with_id l (id : Z) :
  id ∈ map TRestRawSignal.GetSignalID l ->
  exists l1 s l2,
    l = l1 ++ s :: l2
    /\ TRestRawSignal.GetSignalID s = id
    /\ id ∉ map TRestRawSignal.GetSignalID l1.
Proof.
  induction l as [|x l IH]; intros Hin; simpl in Hin; [inversion Hin|].
  destruct (decide (TRestRawSignal.GetSignalID x = id)) as [Heq|Hne].
  - exists [], x, l. repeat split; [exact Heq|]. simpl. apply not_elem_of_nil.
  - apply elem_of_cons in Hin as [Heq|Hin]; [congruence|].
    destruct (IH Hin) as (l1 & s & l2 & -> & Hs & Hout).
    exists (x :: l1), s, l2. repeat split; [exact Hs|].
    simpl. apply not_elem_of_cons. split; [congruence|exact Hout].
Qed.

Lemma GetSignalIndex_from_split l1 s l2 (i id : Z) :
  TRestRawSignal.GetSignalID s = id ->
  id ∉ map TRestRawSignal.GetSignalID l1 ->
  GetSignalIndex_from (l1 ++ s :: l2) i id = i + Z.of_nat (length l1).
Proof.
  intros Hs. revert i. induction l1 as [|x l1 IH]; intros i Hout; simpl in *.
  - rewrite Hs, Z.eqb_refl. lia.
  - apply not_elem_of_cons in Hout as [Hne Hout].
    destruct (Z.eqb_spec (TRestRawSignal.GetSignalID x) id) as [Heq|_]; [congruence|].
    rewrite IH by exact Hout. lia.
Qed.

(** X1. When a signal of the event carries the ID, [GetSignalIndex] returns
    the index of the first such signal: an index of the vector, the signal
    there carries the ID, and no signal before it does. *)
Theorem GetSignalIndex_first_match ev (id : Z) :
  id ∈ signal_ids ev ->
  exists (k : nat) s,
    GetSignalIndex ev id = Z.of_nat k
    /\ GetSignal ev (GetSignalIndex ev id) = Some s
    /\ TRestRawSignal.GetSignalID s = id
    /\ id ∉ map TRestRawSignal.GetSignalID (take k (fSignal ev)).
Proof.
  intros Hin. destruct (first_with_id _ id Hin) as (l1 & s & l2 & Hl & Hs & Hout).
  exists (length l1), s. unfold GetSignalIndex, GetSignal. rewrite Hl.
  rewrite (GetSignalIndex_from_split l1 s l2 0 id Hs Hout), Z.add_0_l.
  split; [reflexivity|].
  destruct (Z.ltb_spec (Z.of_nat (length l1)) 0) as [Hneg|_]; [lia|].
  rewrite Nat2Z.id, list_lookup_middle by reflexivity.
  split; [reflexivity|]. split; [exact Hs|].
  rewrite take_app_length. exact Hout.
Qed.

(** X2. Removing an ID that no signal carries leaves the event as it is and
    writes the warning. *)
Theorem RemoveSignalWithId_missing ev (sId : Z) :
  sId ∉ signal_ids ev ->
  RemoveSignalWithId ev sId = (ev, [warning_missing sId]).
Proof.
  intros Hout. unfold RemoveSignalWithId, GetSignalIndex.
  rewrite (GetSignalIndex_from_missing _ 0 sId Hout). reflexivity.
Qed.

Lemma RemoveSignalWithId_split ev l1 s l2 (sId : Z) :
  fSignal ev = l1 ++ s :: l2 ->
  TRestRawSignal.GetSignalID s = sId ->
  sId ∉ map TRestRawSignal.GetSignalID l1 ->
  RemoveSignalWithId ev sId = (mk (l1 ++ l2) (fBaseLineRange ev) (fRange ev), []).
Proof.
  intros Hl Hs Hout. unfold RemoveSignalWithId, GetSignalIndex. rewrite Hl.
  rewrite (GetSignalIndex_from_split l1 s l2 0 sId Hs Hout), Z.add_0_l.
  destruct (Z.eqb_spec (Z.of_nat (length l1)) (-1)) as [Hneg|_]; [lia|].
  rewrite Nat2Z.id, delete_middle. reflexivity.
Qed.

(** X3. Removing an ID that is in the event erases the first signal that
    carries it and nothing else: the signals before and after it stay, in
    their order, the count drops by one, and nothing is written. *)
Theorem RemoveSignalWithId_present ev (sId : Z) :
  sId ∈ signal_ids ev ->
  exists l1 s l2,
    fSignal ev = l1 ++ s :: l2
    /\ TRestRawSignal.GetSignalID s = sId
    /\ (sId ∉ map TRestRawSignal.GetSignalID l1)
    /\ RemoveSignalWithId ev sId = (mk (l1 ++ l2) (fBaseLineRange ev) (fRange ev), [])
    /\ GetNumberOfSignals (fst (RemoveSignalWithId ev sId)) = GetNumberOfSignals ev - 1.
Proof.
  intros Hin. destruct (first_with_id _ sId Hin) as (l1 & s & l2 & Hl & Hs & Hout).
  exists l1, s, l2. split; [exact Hl|]. split; [exact Hs|]. split; [exact Hout|].
  rewrite (RemoveSignalWithId_split ev l1 s l2 sId Hl Hs Hout).
  split; [reflexivity|].
  unfold GetNumberOfSignals. simpl. rewrite Hl, !length_app. simpl. lia.
Qed.

(** X4. A signal with a new ID is stored at the end of the vector: the
    count grows by one, [GetSignalIndex] finds the ID at the old count, the
    signal stored there is the one handed back to the caller, with its
    baseline computed over the range of the event and its range set, and
    every signal already there stays where it was. *)
Theorem AddSignal_new_is_found_last ev s :
  TRestRawSignal.GetSignalID s ∉ signal_ids ev ->
  let ev' := (AddSignal ev s).1.1 in
  let s' := (AddSignal ev s).1.2 in
  s' = TRestRawSignal.mk (TRestRawSignal.GetSignalID s)
         (TRestRawSignal.SetRange (fRange ev)
            (TRestRawSignal.CalculateBaseLine (X (fBaseLineRange ev)) (Y (fBaseLineRange ev))
               (TRestRawSignal.wave s)))
  /\ GetNumberOfSignals ev' = GetNumberOfSignals ev + 1
  /\ GetSignalIndex ev' (TRestRawSignal.GetSignalID s) = GetNumberOfSignals ev
  /\ GetSignal ev' (GetNumberOfSignals ev) = Some s'
  /\ (forall n, n < GetNumberOfSignals ev -> GetSignal ev' n = GetSignal ev n)
  /\ (AddSignal ev s).2 = [].
Proof.
  intros Hout. destruct (AddSignal_new ev s Hout) as (s2 & Hadd & Hid).
  assert (Hs2 : s2 = TRestRawSignal.mk (TRestRawSignal.GetSignalID s)
                  (TRestRawSignal.SetRange (fRange ev)
                     (TRestRawSignal.CalculateBaseLine (X (fBaseLineRange ev))
                        (Y (fBaseLineRange ev)) (TRestRawSignal.wave s)))).
  { unfold AddSignal in Hadd.
    destruct (signalIDExists ev (TRestRawSignal.GetSignalID s)) eqn:E.
    - apply signalIDExists_spec in E. contradiction.
    - injection Hadd as _ <-. reflexivity. }
  rewrite Hadd. cbn [fst snd]. split; [exact Hs2|].
  unfold GetNumberOfSignals, GetSignalIndex, GetSignal. cbn [fSignal].
  split; [rewrite length_app; simpl; lia|].
  split.
  { rewrite (GetSignalIndex_from_split (fSignal ev) s2 [] 0 _ Hid Hout). lia. }
  split.
  { destruct (Z.ltb_spec (Z.of_nat (length (fSignal ev))) 0) as [Hneg|_]; [lia|].
    rewrite Nat2Z.id, list_lookup_middle by reflexivity. reflexivity. }
  split; [|reflexivity].
  intros n Hn. destruct (Z.ltb_spec n 0) as [_|Hpos]; [reflexivity|].
  apply lookup_app_l. lia.
Qed.

(** X5. Adding a signal with a new ID and then removing that ID gives the
    event back as it was, with nothing written. *)
Theorem AddSignal_then_RemoveSignalWithId ev s :
  TRestRawSignal.GetSignalID s ∉ signal_ids ev ->
  RemoveSignalWithId (AddSignal ev s).1.1 (TRestRawSignal.GetSignalID s) = (ev, []).
Proof.
  intros Hout. destruct (AddSignal_new ev s Hout) as (s2 & -> & Hid). cbn [fst].
  rewrite (RemoveSignalWithId_split
             (mk (fSignal ev ++ [s2]) (fBaseLineRange ev) (fRange ev))
             (fSignal ev) s2 [] _ eq_refl Hid Hout).
  rewrite app_nil_r. destruct ev. reflexivity.
Qed.

(** *** Charge added to a bin *)

Lemma AddChargeToSignal_split ev l1 s l2 (sgnlID bin value : Z) :
  fSignal ev = l1 ++ s :: l2 ->
  TRestRawSignal.GetSignalID s = sgnlID ->
  sgnlID ∉ map TRestRawSignal.GetSignalID l1 ->
  AddChargeToSignal ev sgnlID bin value
  = (mk (l1 ++ TRestRawSignal.upd (TRestRawSignal.IncreaseBinBy bin value) s :: l2)
       (fBaseLineRange ev) (fRange ev), []).
Proof.
  intros Hl Hs Hout. unfold AddChargeToSignal, GetSignalIndex. rewrite Hl.
  rewrite (GetSignalIndex_from_split l1 s l2 0 sgnlID Hs Hout), Z.add_0_l.
  destruct (Z.eqb_spec (Z.of_nat (length l1)) (-1)) as [Hneg|_]; [lia|].
  cbn [fSignal fBaseLineRange fRange]. rewrite Hl, Nat2Z.id.
  rewrite <- (Nat.add_0_r (length l1)), alter_app_r. reflexivity.
Qed.

Lemma AddChargeToSignal_fresh ev (sgnlID bin value : Z) :
  sgnlID ∉ signal_ids ev ->
  AddChargeToSignal ev sgnlID bin value
  = (mk (fSignal ev
         ++ [TRestRawSignal.mk sgnlID
               (TRestRawSignal.IncreaseBinBy bin value
                  (TRestRawSignal.SetRange (fRange ev)
                     (TRestRawSignal.CalculateBaseLine
                        (X (fBaseLineRange ev)) (Y (fBaseLineRange ev))
                        (TRestRawSignal.create_n 512))))])
       (fBaseLineRange ev) (fRange ev), []).
Proof.
  intros Hout. unfold AddChargeToSignal, GetSignalIndex.
  rewrite (GetSignalIndex_from_missing _ 0 sgnlID Hout).
  change (-1 =? -1) with true. cbv iota.
  set (sgnl := TRestRawSignal.SetSignalID sgnlID
                 (TRestRawSignal.mk TRestRawSignal.create_id (TRestRawSignal.create_n 512))).
  assert (Hnew : TRestRawSignal.GetSignalID sgnl ∉ signal_ids ev) by exact Hout.
  unfold AddSignal.
  destruct (signalIDExists ev (TRestRawSignal.GetSignalID sgnl)) eqn:E.
  { apply signalIDExists_spec in E. contradiction. }
  cbn [fSignal fBaseLineRange fRange]. unfold GetNumberOfSignals. rewrite Nat2Z.id.
  rewrite <- (Nat.add_0_r (length (fSignal ev))), alter_app_r. reflexivity.
Qed.

(** X6. When the ID is in the event, [AddChargeToSignal] increases the bin
    of the first signal that carries it and changes nothing else: no signal
    is created, the other signals and the order stay, nothing is written. *)
Theorem AddChargeToSignal_existing ev (sgnlID bin value : Z) :
  sgnlID ∈ signal_ids ev ->
  exists l1 s l2,
    fSignal ev = l1 ++ s :: l2
    /\ TRestRawSignal.GetSignalID s = sgnlID
    /\ (sgnlID ∉ map TRestRawSignal.GetSignalID l1)
    /\ AddChargeToSignal ev sgnlID bin value
       = (mk (l1 ++ TRestRawSignal.upd (TRestRawSignal.IncreaseBinBy bin value) s :: l2)
            (fBaseLineRange ev) (fRange ev), []).
Proof.
  intros Hin. destruct (first_with_id _ sgnlID Hin) as (l1 & s & l2 & Hl & Hs & Hout).
  exists l1, s, l2. split; [exact Hl|]. split; [exact Hs|]. split; [exact Hout|].
  exact (AddChargeToSignal_split ev l1 s l2 sgnlID bin value Hl Hs Hout).
Qed.

(** X7. When the ID is new, [AddChargeToSignal] appends one signal with
    that ID: a waveform of 512 bins whose baseline and range were set by
    [AddSignal] before the bin is increased.  The signals already there are
    untouched and nothing is written. *)
Theorem AddChargeToSignal_new ev (sgnlID bin value : Z) :
  sgnlID ∉ signal_ids ev ->
  AddChargeToSignal ev sgnlID bin value
  = (mk (fSignal ev
         ++ [TRestRawSignal.mk sgnlID
               (TRestRawSignal.IncreaseBinBy bin value
                  (TRestRawSignal.SetRange (fRange ev)
                     (TRestRawSignal.CalculateBaseLine
                        (X (fBaseLineRange ev)) (Y (fBaseLineRange ev))
                        (TRestRawSignal.create_n 512))))])
       (fBaseLineRange ev) (fRange ev), []).
Proof. exact (AddChargeToSignal_fresh ev sgnlID bin value). Qed.

(** X8. After [AddChargeToSignal] the ID is in the event, so a further
    charge to the same ID never creates a second signal: the count stays and
    nothing is written. *)
Theorem AddChargeToSignal_again ev (sgnlID bin value bin' value' : Z) :
  sgnlID ∈ signal_ids (fst (AddChargeToSignal ev sgnlID bin value))
  /\ GetNumberOfSignals
       (fst (AddChargeToSignal (fst (AddChargeToSignal ev sgnlID bin value)) sgnlID bin' value'))
     = GetNumberOfSignals (fst (AddChargeToSignal ev sgnlID bin value))
  /\ snd (AddChargeToSignal (fst (AddChargeToSignal ev sgnlID bin value)) sgnlID bin' value') = [].
Proof.
  assert (Hin : sgnlID ∈ signal_ids (fst (AddChargeToSignal ev sgnlID bin value))).
  { destruct (decide (sgnlID ∈ signal_ids ev)) as [Hin|Hout].
    - destruct (first_with_id _ sgnlID Hin) as (l1 & s & l2 & Hl & Hs & Hnot).
      rewrite (AddChargeToSignal_split ev l1 s l2 sgnlID bin value Hl Hs Hnot).
      unfold signal_ids. cbn [fst fSignal]. rewrite map_app. apply elem_of_app. right.
      simpl. apply elem_of_cons. left. symmetry. exact Hs.
    - rewrite (AddChargeToSignal_fresh ev sgnlID bin value Hout).
      unfold signal_ids. cbn [fst fSignal]. rewrite map_app. apply elem_of_app. right.
      simpl. left. }
  split; [exact Hin|].
  destruct (first_with_id _ sgnlID Hin) as (l1 & s & l2 & Hl & Hs & Hnot).
  rewrite (AddChargeToSignal_split _ l1 s l2 sgnlID bin' value' Hl Hs Hnot).
  cbn [fst snd]. split; [|reflexivity].
  unfold GetNumberOfSignals. cbn [fSignal]. rewrite Hl, !length_app. reflexivity.
Qed.

(** *** The IDs stay distinct *)

Lemma upd_keeps_id (f : W -> W) s :
  TRestRawSignal.GetSignalID (TRestRawSignal.upd f s) = TRestRawSignal.GetSignalID s.
Proof. reflexivity. Qed.

(** X9. An event whose signals carry distinct IDs keeps them distinct under
    [AddSignal], [RemoveSignalWithId] and [AddChargeToSignal]. *)
Theorem mutators_keep_ids_distinct ev :
  NoDup (signal_ids ev) ->
  (forall s, NoDup (signal_ids (fst (fst (AddSignal ev s)))))
  /\ (forall sId, NoDup (signal_ids (fst (RemoveSignalWithId ev sId))))
  /\ (forall sgnlID bin value, NoDup (signal_ids (fst (AddChargeToSignal ev sgnlID bin value)))).
Proof.
  intros Hnd. split; [|split].
  - intros s. exact (AddSignal_NoDup ev s Hnd).
  - intros sId. destruct (decide (sId ∈ signal_ids ev)) as [Hin|Hout].
    + destruct (first_with_id _ sId Hin) as (l1 & s & l2 & Hl & Hs & Hnot).
      rewrite (RemoveSignalWithId_split ev l1 s l2 sId Hl Hs Hnot).
      unfold signal_ids in *. cbn [fst fSignal]. rewrite Hl in Hnd.
      rewrite map_app in Hnd |- *. simpl in Hnd.
      apply NoDup_app in Hnd as (H1 & H12 & H2). apply NoDup_cons in H2 as [_ H2].
      apply NoDup_app. split; [exact H1|]. split; [|exact H2].
      intros x Hx Hx'. apply (H12 x Hx). right. exact Hx'.
    + unfold RemoveSignalWithId, GetSignalIndex.
      rewrite (GetSignalIndex_from_missing _ 0 sId Hout). exact Hnd.
  - intros sgnlID bin value. destruct (decide (sgnlID ∈ signal_ids ev)) as [Hin|Hout].
    + destruct (first_with_id _ sgnlID Hin) as (l1 & s & l2 & Hl & Hs & Hnot).
      rewrite (AddChargeToSignal_split ev l1 s l2 sgnlID bin value Hl Hs Hnot).
      unfold signal_ids in *. cbn [fst fSignal]. rewrite Hl in Hnd.
      rewrite map_app in Hnd |- *. exact Hnd.
    + rewrite (AddChargeToSignal_fresh ev sgnlID bin value Hout).
      unfold signal_ids in *. cbn [fst fSignal]. rewrite map_app. simpl.
      apply NoDup_app. split; [exact Hnd|]. split; [|apply NoDup_singleton].
      intros x Hx Hx'. apply list_elem_of_singleton in Hx'. subst x. contradiction.
Qed.

End EventMutators.

(** ** The other aggregate getters of the event *)

Section EventAggregates.
Context {W : Type} {ops : TRestRawSignal.Ops W}.
Import TRestRawSignalEvent.

Implicit Types (ev : TRestRawSignalEvent.t W) (s : TRestRawSignal.t W).

(** A sum kept with the count of the elements that entered it. *)
Lemma foldl_counted_sum {A : Type} (p : A -> bool) (g : A -> float) (l : list A)
    (a : float) (k : Z) :
  foldl (fun (st : float * Z) x =>
           let '(sum, n) := st in
           if p x then ((sum + g x)%float, n + 1) else (sum, n)) (a, k) l
  = (foldl PrimFloat.add a (map g (List.filter p l)),
     k + Z.of_nat (length (List.filter p l))).
Proof.
  revert a k. induction l as [|x l IH]; intros a k; simpl.
  - f_equal. lia.
  - destruct (p x); simpl; rewrite IH; f_equal; lia.
Qed.

Lemma foldl_invariant {A St : Type} (P : St -> Prop) (f : St -> A -> St) (l : list A) (st : St) :
  P st ->
  (forall st' x, x ∈ l -> P st' -> P (f st' x)) ->
  P (foldl f st l).
Proof.
  revert st. induction l as [|x l IH]; intros st HP Hstep; simpl; [exact HP|].
  apply IH.
  - apply Hstep; [left|exact HP].
  - intros st' y Hy. apply Hstep. right. exact Hy.
Qed.

(** X10. [GetRiseSlope] and [GetRiseTime] average over the signals whose
    threshold integral is positive: the sum of their slope integrals (of
    their rise times), in insertion order, divided by their number; 0 when
    there is no such signal. *)
Theorem rise_averages ev :
  GetRiseSlope ev
  = match List.filter (fun s => (0 <? sig TRestRawSignal.GetThresholdIntegral s)%float) (fSignal ev) with
    | [] => 0%float
    | rising =>
        (sum_doubles (map (sig TRestRawSignal.GetSlopeIntegral) rising)
         / Numeric.Z2D (Z.of_nat (length rising)))%float
    end
  /\ GetRiseTime ev
     = match List.filter (fun s => (0 <? sig TRestRawSignal.GetThresholdIntegral s)%float) (fSignal ev) with
       | [] => 0%float
       | rising =>
           (sum_doubles (map (sig TRestRawSignal.GetRiseTime) rising)
            / Numeric.Z2D (Z.of_nat (length rising)))%float
       end.
Proof.
  unfold GetRiseSlope, GetRiseTime. rewrite !for_signals.
  pose proof (foldl_counted_sum
                (fun s => (0 <? sig TRestRawSignal.GetThresholdIntegral s)%float)
                (sig TRestRawSignal.GetSlopeIntegral) (fSignal ev) 0%float 0) as Hslope.
  pose proof (foldl_counted_sum
                (fun s => (0 <? sig TRestRawSignal.GetThresholdIntegral s)%float)
                (sig TRestRawSignal.GetRiseTime) (fSignal ev) 0%float 0) as Htime.
  cbv beta in Hslope, Htime |- *. rewrite Hslope, Htime.
  destruct (List.filter _ (fSignal ev)) as [|x rising]; [split; reflexivity|].
  rewrite Z.add_0_l.
  destruct (Z.eqb_spec (Z.of_nat (length (x :: rising))) 0) as [Hz|_]; [simpl in Hz; lia|].
  split; reflexivity.
Qed.

Lemma foldl_filtered_sum {A : Type} (p : A -> bool) (g : A -> float) (l : list A) (a : float) :
  foldl (fun sum x => if p x then (sum + g x)%float else sum) a l
  = foldl PrimFloat.add a (map g (List.filter p l)).
Proof.
  revert a. induction l as [|x l IH]; intros a; simpl; [reflexivity|].
  destruct (p x); simpl; apply IH.
Qed.

(** X11. [GetThresholdIntegral] and [GetSlopeIntegral] are the sums, over
    all the signals in insertion order, of the threshold integrals and of
    the slope integrals; [GetTripleMaxIntegral] sums the triple-max
    integrals of the signals whose threshold integral is positive, and of
    those only. *)
Theorem integral_sums ev :
  GetThresholdIntegral ev
  = sum_doubles (map (sig TRestRawSignal.GetThresholdIntegral) (fSignal ev))
  /\ GetSlopeIntegral ev
     = sum_doubles (map (sig TRestRawSignal.GetSlopeIntegral) (fSignal ev))
  /\ GetTripleMaxIntegral ev
     = sum_doubles
         (map (sig TRestRawSignal.GetTripleMaxIntegral)
            (List.filter (fun s => (0 <? sig TRestRawSignal.GetThresholdIntegral s)%float)
               (fSignal ev))).
Proof.
  unfold GetThresholdIntegral, GetSlopeIntegral, GetTripleMaxIntegral.
  rewrite !for_signals. split; [apply foldl_add_map|]. split; [apply foldl_add_map|].
  exact (foldl_filtered_sum
           (fun s => (0 <? sig TRestRawSignal.GetThresholdIntegral s)%float)
           (sig TRestRawSignal.GetTripleMaxIntegral) (fSignal ev) 0%float).
Qed.

(** X12. [GetAverageWidth] is the sum of the widths of the signals whose
    peak value exceeds the amplitude, divided by their number; 0 when there
    is none. *)
Theorem GetAverageWidth_is_mean ev (minPeakAmplitude : float) :
  GetAverageWidth ev minPeakAmplitude
  = match qualifying_widths ev minPeakAmplitude with
    | [] => 0%float
    | ws => (sum_doubles (map Numeric.Z2D ws) / Numeric.Z2D (Z.of_nat (length ws)))%float
    end.
Proof.
  unfold GetAverageWidth. rewrite for_signals.
  pose proof (foldl_counted_sum
                (fun s => (minPeakAmplitude <? sig TRestRawSignal.GetMaxPeakValue s)%float)
                (fun s => Numeric.Z2D (sig TRestRawSignal.GetMaxPeakWidth s))
                (fSignal ev) 0%float 0) as Hsum.
  cbv beta in Hsum |- *. rewrite Hsum. unfold qualifying_widths.
  rewrite <- (map_map (sig TRestRawSignal.GetMaxPeakWidth) Numeric.Z2D).
  rewrite <- (length_map (sig TRestRawSignal.GetMaxPeakWidth)
                (List.filter _ (fSignal ev))).
  destruct (map (sig TRestRawSignal.GetMaxPeakWidth) (List.filter _ (fSignal ev)))
    as [|x ws]; [reflexivity|].
  rewrite Z.add_0_l.
  destruct (Z.eqb_spec (Z.of_nat (length (x :: ws))) 0) as [Hz|_]; [simpl in Hz; lia|].
  reflexivity.
Qed.

(** X13. [GetLowestWidth] is at most 10000000 and at most the width of every
    signal whose peak value exceeds the amplitude, and it is one of these
    numbers. *)
Theorem GetLowestWidth_is_lowest ev (minPeakAmplitude : float) :
  GetLowestWidth ev minPeakAmplitude <= 10000000
  /\ (forall w, w ∈ qualifying_widths ev minPeakAmplitude ->
        GetLowestWidth ev minPeakAmplitude <= w)
  /\ (GetLowestWidth ev minPeakAmplitude = 10000000
      \/ GetLowestWidth ev minPeakAmplitude ∈ qualifying_widths ev minPeakAmplitude).
Proof.
  unfold GetLowestWidth, qualifying_widths. rewrite for_signals.
  generalize 10000000 as a. induction (fSignal ev) as [|s l IH]; intros a; simpl.
  - split; [lia|]. split; [intros w Hw; inversion Hw|left; reflexivity].
  - destruct (minPeakAmplitude <? sig TRestRawSignal.GetMaxPeakValue s)%float; simpl.
    + destruct (Z.ltb_spec (sig TRestRawSignal.GetMaxPeakWidth s) a) as [Hlt|Hge].
      * destruct (IH (sig TRestRawSignal.GetMaxPeakWidth s)) as (Hle & Hall & Hin).
        split; [lia|]. split.
        -- intros w Hw. apply elem_of_cons in Hw as [->|Hw]; [exact Hle|exact (Hall w Hw)].
        -- right. destruct Hin as [->|Hin]; [left|right; exact Hin].
      * destruct (IH a) as (Hle & Hall & Hin).
        split; [exact Hle|]. split.
        -- intros w Hw. apply elem_of_cons in Hw as [->|Hw]; [lia|exact (Hall w Hw)].
        -- destruct Hin as [Hin|Hin]; [left; exact Hin|right; right; exact Hin].
    + apply IH.
Qed.

(** X14. The extrema of the event.  [GetMinValue] is 1e10 or the lowest
    value of one of the signals, [GetMaxValue] is -1e10 or the highest
    value of one of them; on an event without signals they are 1e10 and
    -1e10, the maximum time cached by [SetMaxAndMin] is -1e10 and
    [GetMaxTime] is 512.  [GetMinTime] and the cached minimum time are 0. *)
Theorem extrema_are_picked (signal_min signal_max : W -> float) ev :
  (GetMinValue signal_min signal_max ev = 1e10%float
   \/ exists s, s ∈ fSignal ev /\ GetMinValue signal_min signal_max ev = sig signal_min s)
  /\ (GetMaxValue signal_min signal_max ev = (-1e10)%float
      \/ exists s, s ∈ fSignal ev /\ GetMaxValue signal_min signal_max ev = sig signal_max s)
  /\ fMinTime (SetMaxAndMin signal_min signal_max ev) = GetMinTime ev
  /\ (fSignal ev = [] ->
      GetMinValue signal_min signal_max ev = 1e10%float
      /\ GetMaxValue signal_min signal_max ev = (-1e10)%float
      /\ fMaxTime (SetMaxAndMin signal_min signal_max ev) = (-1e10)%float
      /\ GetMaxTime ev = 512%float)
  /\ (forall s, fSignal ev !! 0%nat = Some s ->
      fMaxTime (SetMaxAndMin signal_min signal_max ev)
      = Numeric.Z2D (sig TRestRawSignal.GetNumberOfPoints s)
      /\ GetMaxTime ev = Numeric.Z2D (sig TRestRawSignal.GetNumberOfPoints s)).
Proof.
  unfold GetMinValue, GetMaxValue, GetMinTime, GetMaxTime, SetMaxAndMin.
  rewrite for_signals.
  set (step := fun (st' : float * float) (x : TRestRawSignal.t W) => _).
  assert (Hpick : (fst (foldl step (1e10%float, (-1e10)%float) (fSignal ev)) = 1e10%float
                   \/ exists s, s ∈ fSignal ev
                        /\ fst (foldl step (1e10%float, (-1e10)%float) (fSignal ev))
                           = sig signal_min s)
                  /\ (snd (foldl step (1e10%float, (-1e10)%float) (fSignal ev)) = (-1e10)%float
                      \/ exists s, s ∈ fSignal ev
                           /\ snd (foldl step (1e10%float, (-1e10)%float) (fSignal ev))
                              = sig signal_max s)).
  { apply (foldl_invariant
             (fun st => (fst st = 1e10%float \/ exists s, s ∈ fSignal ev /\ fst st = sig signal_min s)
                        /\ (snd st = (-1e10)%float
                            \/ exists s, s ∈ fSignal ev /\ snd st = sig signal_max s))).
    - split; left; reflexivity.
    - intros [lo hi] x Hx [Hlo Hhi]. unfold step. cbn [fst snd] in *. split.
      + destruct (sig signal_min x <? lo)%float; [right; exists x; split; [exact Hx|reflexivity]|exact Hlo].
      + destruct (hi <? sig signal_max x)%float; [right; exists x; split; [exact Hx|reflexivity]|exact Hhi]. }
  destruct (foldl step (1e10%float, (-1e10)%float) (fSignal ev)) as [lo hi] eqn:Efold.
  cbn [fst snd fMinValue fMaxValue fMinTime fMaxTime] in *.
  destruct Hpick as [Hlo Hhi].
  split; [exact Hlo|]. split; [exact Hhi|]. split; [reflexivity|]. split.
  - intros Hnil. rewrite Hnil in Efold. simpl in Efold. injection Efold as <- <-.
    unfold GetNumberOfSignals, GetSignal. rewrite Hnil. repeat split.
  - intros s Hs. unfold GetNumberOfSignals, GetSignal.
    assert (Hlen : 0 < Z.of_nat (length (fSignal ev))) by (apply lookup_lt_Some in Hs; lia).
    destruct (Z.ltb_spec 0 (Z.of_nat (length (fSignal ev)))) as [_|Hle]; [|lia].
    change (0 <? 0) with false. cbv iota. change (Z.to_nat 0) with 0%nat. rewrite Hs.
    split; reflexivity.
Qed.

End EventAggregates.

(** ** The histogram and the fit function of a signal *)

Section FitSetup.
Context {W : Type} {ops : TRestRawSignal.Ops W}.
Import TRestRawSignalFitEventProcess.

Lemma histogram_after (w : W) (n : Z) (k : nat) :
  Z.of_nat k <= Z.max 0 n ->
  let h := for_loop k 0
             (fun i h =>
                Root.SetBinError i (TRestRawSignal.GetBaseLineSigma w)
                  (Root.Fill i (TRestRawSignal.GetRawData w i - TRestRawSignal.GetBaseLine w)%float h))
             (Root.new_TH1D n) in
  Root.fNcells h = Z.max 1 n + 2
  /\ Root.fXmax h = n
  /\ forall j : nat,
       Root.fArray h !! j
       = if (1 <=? j)%nat && (j <=? k)%nat then Some (filled w (Z.of_nat j - 1))
         else if (Z.of_nat j <? Z.max 1 n + 2) then Some 0%float else None.
Proof.
  induction k as [|k IH]; intros Hk; cbv zeta in *.
  - cbn [for_loop]. unfold Root.new_TH1D. cbn [Root.fNcells Root.fXmax Root.fArray].
    assert (Hcells : (if n <=? 0 then 1 else n) + 2 = Z.max 1 n + 2)
      by (destruct (Z.leb_spec n 0); lia).
    rewrite Hcells. split; [reflexivity|]. split; [reflexivity|]. intros j.
    replace ((1 <=? j)%nat && (j <=? 0)%nat) with false
      by (symmetry; apply andb_false_iff;
          destruct (Nat.leb_spec 1 j); [right; apply Nat.leb_gt; lia|left; reflexivity]).
    destruct (Z.ltb_spec (Z.of_nat j) (Z.max 1 n + 2)) as [Hlt|Hge].
    + apply lookup_replicate_2. lia.
    + apply lookup_replicate_None. lia.
  - replace (S k) with (k + 1)%nat by lia. rewrite for_loop_app.
    destruct (IH ltac:(lia)) as (Hcells & Hxmax & Harr). clear IH.
    set (h := for_loop k 0 _ (Root.new_TH1D n)) in *.
    cbn [for_loop]. rewrite Z.add_0_l.
    assert (Hbin : Root.FindBin h (Z.of_nat k) = Z.of_nat k + 1).
    { unfold Root.FindBin. rewrite Hxmax.
      destruct (Z.ltb_spec (Z.of_nat k) 0) as [Hneg|_]; [lia|].
      destruct (Z.leb_spec n (Z.of_nat k)) as [Hle|_]; [lia|]. reflexivity. }
    assert (Hkeep : forall e g,
               Root.fNcells (Root.SetBinError (Z.of_nat k) e g) = Root.fNcells g
               /\ Root.fXmax (Root.SetBinError (Z.of_nat k) e g) = Root.fXmax g
               /\ Root.fArray (Root.SetBinError (Z.of_nat k) e g) = Root.fArray g).
    { intros e g. unfold Root.SetBinError.
      destruct ((Z.of_nat k <? 0) || (Root.fNcells g <=? Z.of_nat k)); repeat split. }
    destruct (Hkeep (TRestRawSignal.GetBaseLineSigma w)
                (Root.Fill (Z.of_nat k)
                   (TRestRawSignal.GetRawData w (Z.of_nat k) - TRestRawSignal.GetBaseLine w)%float h))
      as (-> & -> & ->).
    unfold Root.Fill. cbn [Root.fNcells Root.fXmax Root.fArray]. rewrite Hbin.
    split; [exact Hcells|]. split; [exact Hxmax|]. intros j.
    replace (Z.to_nat (Z.of_nat k + 1)) with (S k) by lia.
    destruct (decide (j = S k)) as [->|Hne].
    + rewrite list_lookup_alter_eq, Harr.
      replace ((1 <=? S k)%nat && (S k <=? k)%nat) with false
        by (symmetry; apply andb_false_iff; right; apply Nat.leb_gt; lia).
      replace ((1 <=? S k)%nat && (S k <=? k + 1)%nat) with true
        by (symmetry; apply andb_true_iff; split; apply Nat.leb_le; lia).
      destruct (Z.ltb_spec (Z.of_nat (S k)) (Z.max 1 n + 2)) as [_|Hge]; [|lia].
      simpl. unfold filled. do 4 f_equal; lia.
    + rewrite list_lookup_alter_ne by (intros E; apply Hne; symmetry; exact E).
      rewrite Harr.
      replace ((j <=? k + 1)%nat) with ((j <=? k)%nat); [reflexivity|].
      destruct (Nat.leb_spec j k), (Nat.leb_spec j (k + 1)); try reflexivity; lia.
Qed.

(** X15. The histogram built from a signal of [n] points has [n + 2] cells,
    and 3 cells when the signal has no point, since a histogram asked with
    no bin is given one; the cell [j], for [1 <= j <= n], holds the sample
    of bin [j - 1] minus the baseline (added to the 0 the cell started
    from), and [GetBinContent] reads 0 at every other cell number, the
    underflow and overflow cells and the numbers outside the histogram
    included. *)
Theorem signal_histogram_cells (w : W) :
  Root.fNcells (signal_histogram w) = Z.max 1 (TRestRawSignal.GetNumberOfPoints w) + 2
  /\ forall j : Z,
       Root.GetBinContent (signal_histogram w) j
       = if (1 <=? j) && (j <=? TRestRawSignal.GetNumberOfPoints w)
         then (0 + (TRestRawSignal.GetRawData w (j - 1) - TRestRawSignal.GetBaseLine w))%float
         else 0%float.
Proof.
  unfold signal_histogram, for_range. rewrite Z.sub_0_r.
  set (n := TRestRawSignal.GetNumberOfPoints w) in *.
  destruct (histogram_after w n (Z.to_nat n) ltac:(lia)) as (Hcells & _ & Harr).
  set (h := for_loop (Z.to_nat n) 0 _ (Root.new_TH1D n)) in *.
  split; [exact Hcells|]. intros j. unfold Root.GetBinContent. rewrite Hcells.
  set (cells := Z.max 1 n + 2) in *.
  assert (Hread : forall c : nat,
             default 0%float (Root.fArray h !! c)
             = if (1 <=? Z.of_nat c) && (Z.of_nat c <=? n)
               then filled w (Z.of_nat c - 1) else 0%float).
  { intros c. rewrite Harr.
    destruct (Z.leb_spec 1 (Z.of_nat c)) as [H1|H1], (Z.leb_spec (Z.of_nat c) n) as [H2|H2];
      cbn [andb].
    - replace ((1 <=? c)%nat && (c <=? Z.to_nat n)%nat) with true
        by (symmetry; apply andb_true_iff; split; apply Nat.leb_le; lia).
      reflexivity.
    - replace ((1 <=? c)%nat && (c <=? Z.to_nat n)%nat) with false
        by (symmetry; apply andb_false_iff; right; apply Nat.leb_gt; lia).
      destruct (Z.of_nat c <? cells); reflexivity.
    - replace ((1 <=? c)%nat && (c <=? Z.to_nat n)%nat) with false
        by (symmetry; apply andb_false_iff; left; apply Nat.leb_gt; lia).
      destruct (Z.of_nat c <? cells); reflexivity.
    - replace ((1 <=? c)%nat && (c <=? Z.to_nat n)%nat) with false
        by (symmetry; apply andb_false_iff; left; apply Nat.leb_gt; lia).
      destruct (Z.of_nat c <? cells); reflexivity. }
  rewrite Hread. unfold filled.
  destruct (Z.ltb_spec j 0) as [Hneg|Hpos].
  - change (Z.of_nat (Z.to_nat 0)) with 0. change (1 <=? 0) with false. cbn [andb].
    destruct (Z.leb_spec 1 j) as [H1|_]; [lia|]. reflexivity.
  - destruct (Z.leb_spec cells j) as [Hover|Hin].
    + replace (Z.of_nat (Z.to_nat (cells - 1))) with (cells - 1) by lia.
      destruct (Z.leb_spec (cells - 1) n) as [Hle|_]; [lia|]. rewrite andb_false_r.
      destruct (Z.leb_spec j n) as [Hjn|_]; [lia|]. rewrite andb_false_r. reflexivity.
    + replace (Z.of_nat (Z.to_nat j)) with j by lia. reflexivity.
Qed.

(** X16. How the options set the parameters of the fit.  A parameter is
    fixed exactly when its "fixed" option is not 0, and then starts from the
    fixed value; otherwise it starts from the initial option when that is
    not 0, and from the default (32, peak bin - 25, 1, ten times the peak
    amplitude; the peak amplitude itself for the AGET function) when it is.
    Start position options count back from the peak bin, amplitude options
    multiply the peak amplitude.  The AGET function has no variance and the
    variance options do not reach it. *)
Theorem fit_function_parameters (cfg : Config) (w : W) (MaxPeakBin : Z) :
  convolution_function cfg w MaxPeakBin
  = Root.mkTF1 Root.AgetConvolutedWithGauss
      [ start_value (fShapingFixed cfg) (fShapingFixed cfg)
          (fShapingInitialValue cfg) (fShapingInitialValue cfg) 32;
        start_value (fStartPositionFixed cfg)
          (Numeric.Z2D MaxPeakBin - fStartPositionFixed cfg)
          (fStartPositionInitialValue cfg)
          (Numeric.Z2D MaxPeakBin - fStartPositionInitialValue cfg)
          (Numeric.Z2D (MaxPeakBin - 25));
        start_value (fVarianceFixed cfg) (fVarianceFixed cfg)
          (fVarianceInitialValue cfg) (fVarianceInitialValue cfg) 1;
        start_value (fAmplitudeFixed cfg)
          (TRestRawSignal.GetData w MaxPeakBin * fAmplitudeFixed cfg)
          (fAmplitudeInitialValue cfg)
          (TRestRawSignal.GetData w MaxPeakBin * fAmplitudeInitialValue cfg)
          (TRestRawSignal.GetData w MaxPeakBin * 10) ]%float
      [ negb (Numeric.is_zero (fShapingFixed cfg));
        negb (Numeric.is_zero (fStartPositionFixed cfg));
        negb (Numeric.is_zero (fVarianceFixed cfg));
        negb (Numeric.is_zero (fAmplitudeFixed cfg)) ]
  /\ aget_function cfg w MaxPeakBin
     = Root.mkTF1 Root.Aget
         [ start_value (fShapingFixed cfg) (fShapingFixed cfg)
             (fShapingInitialValue cfg) (fShapingInitialValue cfg) 32;
           start_value (fStartPositionFixed cfg)
             (Numeric.Z2D MaxPeakBin - fStartPositionFixed cfg)
             (fStartPositionInitialValue cfg)
             (Numeric.Z2D MaxPeakBin - fStartPositionInitialValue cfg)
             (Numeric.Z2D (MaxPeakBin - 25));
           start_value (fAmplitudeFixed cfg)
             (TRestRawSignal.GetData w MaxPeakBin * fAmplitudeFixed cfg)
             (fAmplitudeInitialValue cfg)
             (TRestRawSignal.GetData w MaxPeakBin * fAmplitudeInitialValue cfg)
             (TRestRawSignal.GetData w MaxPeakBin) ]%float
         [ negb (Numeric.is_zero (fShapingFixed cfg));
           negb (Numeric.is_zero (fStartPositionFixed cfg));
           negb (Numeric.is_zero (fAmplitudeFixed cfg)) ].
Proof.
  unfold convolution_function, aget_function, start_value.
  destruct (Numeric.is_zero (fShapingFixed cfg)),
           (Numeric.is_zero (fStartPositionFixed cfg)),
           (Numeric.is_zero (fVarianceFixed cfg)),
           (Numeric.is_zero (fAmplitudeFixed cfg)),
           (Numeric.is_zero (fShapingInitialValue cfg)),
           (Numeric.is_zero (fStartPositionInitialValue cfg)),
           (Numeric.is_zero (fVarianceInitialValue cfg)),
           (Numeric.is_zero (fAmplitudeInitialValue cfg));
    split; reflexivity.
Qed.

End FitSetup.

(** ** The loops of the process, signal by signal *)

Section FitLoops.
Context {W : Type} {ops : TRestRawSignal.Ops W}.
Import TRestRawSignalFitEventProcess.
Variable Fit : Root.FitCall -> Root.Fitted.
Variable ApplyCut : Observables -> bool.
Variable cfg : Config.

Implicit Types (ev : TRestRawSignalEvent.t W) (sg : TRestRawSignal.t W) (L : Locals).
Implicit Types (l : list (TRestRawSignal.t W)).

Abbreviation entries L id := (map (fun g : gmap Z float => g !! id) (all_maps (maps L))).

(** *** A loop whose step fits the signals a test accepts *)

Section Recorded.
Variable step : Z -> TRestRawSignal.t W -> Locals -> Locals.
Variable accepted : TRestRawSignal.t W -> bool.
Variable sigma : TRestRawSignal.t W -> float.
Variable ratio : TRestRawSignal.t W -> float.
Variable chi : TRestRawSignal.t W -> float.
Variable call : TRestRawSignal.t W -> Root.FitCall.

Hypothesis step_fits : forall s sg L,
  accepted sg = true ->
  stats (step s sg L) = record_stats s (sigma sg) (ratio sg) (chi sg) (stats L)
  /\ fits (step s sg L) = fits L ++ [call sg].

Hypothesis step_skips : forall s sg L,
  accepted sg = false ->
  stats (step s sg L) = stats L /\ fits (step s sg L) = fits L.

Lemma recorded_fits (i : Z) l L :
  fits (fold_signals step i l L) = fits L ++ map call (List.filter accepted l).
Proof.
  revert i L. induction l as [|sg l IH]; intros i L; simpl.
  - rewrite app_nil_r. reflexivity.
  - rewrite IH. destruct (accepted sg) eqn:E.
    + destruct (step_fits i sg L E) as [_ ->]. simpl. rewrite <- app_assoc. reflexivity.
    + destruct (step_skips i sg L E) as [_ ->]. reflexivity.
Qed.

Lemma recorded_sums (i : Z) l L :
  SigmaMean (stats (fold_signals step i l L))
  = foldl PrimFloat.add (SigmaMean (stats L)) (map sigma (List.filter accepted l))
  /\ RatioSigmaMaxPeakMean (stats (fold_signals step i l L))
     = foldl PrimFloat.add (RatioSigmaMaxPeakMean (stats L)) (map ratio (List.filter accepted l))
  /\ ChiSquareMean (stats (fold_signals step i l L))
     = foldl PrimFloat.add (ChiSquareMean (stats L)) (map chi (List.filter accepted l)).
Proof.
  revert i L. induction l as [|sg l IH]; intros i L; simpl; [repeat split|].
  destruct (IH (i + 1) (step i sg L)) as (-> & -> & ->).
  destruct (accepted sg) eqn:E.
  - destruct (step_fits i sg L E) as [-> _]. repeat split.
  - destruct (step_skips i sg L E) as [-> _]. repeat split.
Qed.

(** When every signal is accepted, the arrays are filled in order. *)
Lemma recorded_arrays (pre_s pre_r pre_c rest_s rest_r rest_c : list float) l L :
  Forall (fun sg => accepted sg = true) l ->
  length pre_r = length pre_s -> length pre_c = length pre_s ->
  Sigma (stats L) = pre_s ++ rest_s ->
  RatioSigmaMaxPeak (stats L) = pre_r ++ rest_r ->
  ChiSquare (stats L) = pre_c ++ rest_c ->
  (length l <= length rest_s)%nat ->
  (length l <= length rest_r)%nat ->
  (length l <= length rest_c)%nat ->
  Sigma (stats (fold_signals step (Z.of_nat (length pre_s)) l L))
  = pre_s ++ map sigma l ++ drop (length l) rest_s
  /\ RatioSigmaMaxPeak (stats (fold_signals step (Z.of_nat (length pre_s)) l L))
     = pre_r ++ map ratio l ++ drop (length l) rest_r
  /\ ChiSquare (stats (fold_signals step (Z.of_nat (length pre_s)) l L))
     = pre_c ++ map chi l ++ drop (length l) rest_c.
Proof.
  intros Hall. revert pre_s pre_r pre_c rest_s rest_r rest_c L.
  induction Hall as [|sg l Hsg _ IH];
    intros pre_s pre_r pre_c rest_s rest_r rest_c L Hr Hc Hs Hra Hch Hls Hlr Hlc.
  - simpl. rewrite !drop_0. repeat split; assumption.
  - destruct rest_s as [|xs rest_s]; [simpl in Hls; lia|].
    destruct rest_r as [|xr rest_r]; [simpl in Hlr; lia|].
    destruct rest_c as [|xc rest_c]; [simpl in Hlc; lia|].
    rewrite fold_signals_cons.
    destruct (step_fits (Z.of_nat (length pre_s)) sg L Hsg) as [Hst _].
    specialize (IH (pre_s ++ [sigma sg]) (pre_r ++ [ratio sg]) (pre_c ++ [chi sg])
                  rest_s rest_r rest_c (step (Z.of_nat (length pre_s)) sg L)).
    rewrite !length_app in IH. simpl in IH.
    replace (Z.of_nat (length pre_s + 1)) with (Z.of_nat (length pre_s) + 1) in IH by lia.
    destruct IH as (-> & -> & ->).
    + lia.
    + lia.
    + rewrite Hst. unfold record_stats. cbn [Sigma]. rewrite Hs, Nat2Z.id.
      rewrite <- (Nat.add_0_r (length pre_s)), insert_app_r. simpl.
      rewrite <- app_assoc. reflexivity.
    + rewrite Hst. unfold record_stats. cbn [RatioSigmaMaxPeak]. rewrite Hra, Nat2Z.id.
      rewrite <- Hr, <- (Nat.add_0_r (length pre_r)), insert_app_r. simpl.
      rewrite <- app_assoc. reflexivity.
    + rewrite Hst. unfold record_stats. cbn [ChiSquare]. rewrite Hch, Nat2Z.id.
      rewrite <- Hc, <- (Nat.add_0_r (length pre_c)), insert_app_r. simpl.
      rewrite <- app_assoc. reflexivity.
    + simpl in Hls. lia.
    + simpl in Hlr. lia.
    + simpl in Hlc. lia.
    + simpl. rewrite <- !app_assoc. repeat split.
Qed.

(** The arrays start as zeros, and a signal that is skipped leaves the 0 of
    its index. *)
Lemma recorded_arrays_skipping (pre_s pre_r pre_c : list float) (k : nat) l L :
  length pre_r = length pre_s -> length pre_c = length pre_s ->
  Sigma (stats L) = pre_s ++ replicate k 0%float ->
  RatioSigmaMaxPeak (stats L) = pre_r ++ replicate k 0%float ->
  ChiSquare (stats L) = pre_c ++ replicate k 0%float ->
  (length l <= k)%nat ->
  Sigma (stats (fold_signals step (Z.of_nat (length pre_s)) l L))
  = pre_s ++ map (fun sg => if accepted sg then sigma sg else 0%float) l
      ++ replicate (k - length l) 0%float
  /\ RatioSigmaMaxPeak (stats (fold_signals step (Z.of_nat (length pre_s)) l L))
     = pre_r ++ map (fun sg => if accepted sg then ratio sg else 0%float) l
         ++ replicate (k - length l) 0%float
  /\ ChiSquare (stats (fold_signals step (Z.of_nat (length pre_s)) l L))
     = pre_c ++ map (fun sg => if accepted sg then chi sg else 0%float) l
         ++ replicate (k - length l) 0%float.
Proof.
  revert pre_s pre_r pre_c k L.
  induction l as [|sg l IH]; intros pre_s pre_r pre_c k L Hr Hc Hs Hra Hch Hk.
  - simpl. rewrite Nat.sub_0_r. repeat split; assumption.
  - destruct k as [|k]; [simpl in Hk; lia|].
    rewrite fold_signals_cons.
    specialize (IH (pre_s ++ [if accepted sg then sigma sg else 0%float])
                  (pre_r ++ [if accepted sg then ratio sg else 0%float])
                  (pre_c ++ [if accepted sg then chi sg else 0%float])
                  k (step (Z.of_nat (length pre_s)) sg L)).
    rewrite !length_app in IH. simpl in IH.
    replace (Z.of_nat (length pre_s + 1)) with (Z.of_nat (length pre_s) + 1) in IH by lia.
    destruct IH as (-> & -> & ->).
    + lia.
    + lia.
    + destruct (accepted sg) eqn:E.
      * destruct (step_fits (Z.of_nat (length pre_s)) sg L E) as [-> _].
        unfold record_stats. cbn [Sigma]. rewrite Hs, Nat2Z.id.
        rewrite <- (Nat.add_0_r (length pre_s)), insert_app_r. simpl.
        rewrite <- app_assoc. reflexivity.
      * destruct (step_skips (Z.of_nat (length pre_s)) sg L E) as [-> _].
        rewrite Hs. simpl. rewrite <- app_assoc. reflexivity.
    + destruct (accepted sg) eqn:E.
      * destruct (step_fits (Z.of_nat (length pre_s)) sg L E) as [-> _].
        unfold record_stats. cbn [RatioSigmaMaxPeak]. rewrite Hra, Nat2Z.id.
        rewrite <- Hr, <- (Nat.add_0_r (length pre_r)), insert_app_r. simpl.
        rewrite <- app_assoc. reflexivity.
      * destruct (step_skips (Z.of_nat (length pre_s)) sg L E) as [-> _].
        rewrite Hra. simpl. rewrite <- app_assoc. reflexivity.
    + destruct (accepted sg) eqn:E.
      * destruct (step_fits (Z.of_nat (length pre_s)) sg L E) as [-> _].
        unfold record_stats. cbn [ChiSquare]. rewrite Hch, Nat2Z.id.
        rewrite <- Hc, <- (Nat.add_0_r (length pre_c)), insert_app_r. simpl.
        rewrite <- app_assoc. reflexivity.
      * destruct (step_skips (Z.of_nat (length pre_s)) sg L E) as [-> _].
        rewrite Hch. simpl. rewrite <- app_assoc. reflexivity.
    + simpl in Hk. lia.
    + simpl. rewrite <- !app_assoc. repeat split.
Qed.

(** The sums weighted by the error of a parameter. *)
Variable weight_mean : TRestRawSignal.t W -> float.
Variable weight_variance : TRestRawSignal.t W -> float.
Variable weight : TRestRawSignal.t W -> float.

Hypothesis step_weighs : forall s sg L,
  accepted sg = true ->
  weighted (step s sg L)
  = mkWeighted (VGmean (weighted L) + weight_mean sg)%float
      (VGvariance (weighted L) + weight_variance sg)%float
      (VGweights (weighted L) + weight sg)%float.

Hypothesis step_skips_weights : forall s sg L,
  accepted sg = false -> weighted (step s sg L) = weighted L.

Lemma recorded_weights (i : Z) l L :
  VGmean (weighted (fold_signals step i l L))
  = foldl PrimFloat.add (VGmean (weighted L)) (map weight_mean (List.filter accepted l))
  /\ VGvariance (weighted (fold_signals step i l L))
     = foldl PrimFloat.add (VGvariance (weighted L)) (map weight_variance (List.filter accepted l))
  /\ VGweights (weighted (fold_signals step i l L))
     = foldl PrimFloat.add (VGweights (weighted L)) (map weight (List.filter accepted l)).
Proof.
  revert i L. induction l as [|sg l IH]; intros i L; simpl; [repeat split|].
  destruct (IH (i + 1) (step i sg L)) as (-> & -> & ->).
  destruct (accepted sg) eqn:E.
  - rewrite (step_weighs i sg L E). repeat split.
  - rewrite (step_skips_weights i sg L E). repeat split.
Qed.

End Recorded.

(** *** A loop whose step writes the maps at the ID of its signal only *)

Section Written.
Variable step : Z -> TRestRawSignal.t W -> Locals -> Locals.

Hypothesis step_other : forall s sg L id,
  TRestRawSignal.GetID sg <> id -> entries (step s sg L) id = entries L id.

Lemma written_other l (i id : Z) L :
  id ∉ map TRestRawSignal.GetSignalID l ->
  entries (fold_signals step i l L) id = entries L id.
Proof.
  revert i L. induction l as [|sg l IH]; intros i L Hout; [reflexivity|].
  rewrite fold_signals_cons. simpl in Hout. apply not_elem_of_cons in Hout as [Hne Hout].
  rewrite IH by exact Hout. apply step_other. intros Heq. apply Hne. symmetry. exact Heq.
Qed.

(** With distinct IDs, what the maps hold at the ID of a signal after the
    loop is what the step on that signal wrote. *)
Lemma written_last l (i : Z) L sg :
  NoDup (map TRestRawSignal.GetSignalID l) ->
  sg ∈ l ->
  exists s L',
    entries (fold_signals step i l L) (TRestRawSignal.GetID sg)
    = entries (step s sg L') (TRestRawSignal.GetID sg).
Proof.
  intros Hnd Hin. apply list_elem_of_split in Hin as (l1 & l2 & ->).
  rewrite map_app in Hnd. simpl in Hnd.
  apply NoDup_app in Hnd as (_ & _ & Hnd2). apply NoDup_cons in Hnd2 as [Hout _].
  rewrite fold_signals_app, fold_signals_cons.
  eexists _, _. apply written_other. exact Hout.
Qed.

End Written.

(** *** What one fit records *)

Abbreviation conv_fitted sg := (Fit (convolution_call cfg sg)).
Abbreviation conv_sigma sg := (residual_around_peak (conv_fitted sg) 45 70 sg).
Abbreviation conv_ratio sg := (residual_ratio (conv_sigma sg) sg).
Abbreviation aget_fitted sg := (Fit (aget_call cfg sg)).
Abbreviation aget_sigma sg := (residual_around_peak (aget_fitted sg) 145 165 sg).
Abbreviation aget_ratio sg := (residual_ratio (aget_sigma sg) sg).

Lemma conv_sigma_is_stored sg :
  PrimFloat.sqrt
    (squared_residuals (signal_histogram (TRestRawSignal.wave sg)) (conv_fitted sg)
       (TRestRawSignal.GetMaxPeakBin (TRestRawSignal.wave sg) - MinBinRange)
       (TRestRawSignal.GetMaxPeakBin (TRestRawSignal.wave sg) + MaxBinRange)
     / Numeric.Z2D (MinBinRange + MaxBinRange))
  = conv_sigma sg.
Proof.
  rewrite squared_residuals_sum.
  unfold residual_around_peak, window_rms, MinBinRange, MaxBinRange.
  replace (TRestRawSignal.GetMaxPeakBin (TRestRawSignal.wave sg) + 70
           - (TRestRawSignal.GetMaxPeakBin (TRestRawSignal.wave sg) - 45)) with (45 + 70) by lia.
  reflexivity.
Qed.

Lemma aget_sigma_is_stored sg :
  PrimFloat.sqrt
    (squared_residuals (signal_histogram (TRestRawSignal.wave sg)) (aget_fitted sg)
       (TRestRawSignal.GetMaxPeakBin (TRestRawSignal.wave sg) - 145)
       (TRestRawSignal.GetMaxPeakBin (TRestRawSignal.wave sg) + 165)
     / Numeric.Z2D (145 + 165))
  = aget_sigma sg.
Proof.
  rewrite squared_residuals_sum. unfold residual_around_peak, window_rms.
  replace (TRestRawSignal.GetMaxPeakBin (TRestRawSignal.wave sg) + 165
           - (TRestRawSignal.GetMaxPeakBin (TRestRawSignal.wave sg) - 145)) with (145 + 165) by lia.
  reflexivity.
Qed.

Lemma fit_convolution_records (s : Z) sg L :
  stats (fit_convolution Fit cfg s sg L)
  = record_stats s (conv_sigma sg) (conv_ratio sg) (Root.GetChisquare (conv_fitted sg)) (stats L)
  /\ fits (fit_convolution Fit cfg s sg L) = fits L ++ [convolution_call cfg sg].
Proof.
  unfold fit_convolution. cbn [stats fits].
  change (Root.mkFitCall _ _ _ _) with (convolution_call cfg sg).
  rewrite (conv_sigma_is_stored sg). split; reflexivity.
Qed.

Lemma fit_aget_records (s : Z) sg L :
  stats (fit_aget Fit cfg s sg L)
  = record_stats s (aget_sigma sg) (aget_ratio sg) (Root.GetChisquare (aget_fitted sg)) (stats L)
  /\ fits (fit_aget Fit cfg s sg L) = fits L ++ [aget_call cfg sg].
Proof.
  unfold fit_aget. cbn [stats fits].
  change (Root.mkFitCall _ _ _ _) with (aget_call cfg sg).
  rewrite (aget_sigma_is_stored sg). split; reflexivity.
Qed.

Lemma fit_convolution_entries (s : Z) sg L :
  entries (fit_convolution Fit cfg s sg L) (TRestRawSignal.GetID sg)
  = [ Some (Root.GetParameter (conv_fitted sg) Amplitude);
      Some (Root.GetParameter (conv_fitted sg) ShapingTime);
      Some (Root.GetParameter (conv_fitted sg) StartPosition);
      Some (Root.GetParameter (conv_fitted sg) VarianceGauss);
      Some (conv_ratio sg) ].
Proof.
  unfold fit_convolution, all_maps. cbn [maps amplitudeFit shapingtimeFit StartPositionFit
    variancegaussFit ratiosigmaamplitudeFit map].
  change (Root.mkFitCall _ _ _ _) with (convolution_call cfg sg).
  rewrite (conv_sigma_is_stored sg), !lookup_insert_eq. reflexivity.
Qed.

Lemma fit_convolution_other (s id : Z) sg L :
  TRestRawSignal.GetID sg <> id ->
  entries (fit_convolution Fit cfg s sg L) id = entries L id.
Proof.
  intros Hne. unfold fit_convolution, all_maps. cbn [maps amplitudeFit shapingtimeFit
    StartPositionFit variancegaussFit ratiosigmaamplitudeFit map].
  rewrite !lookup_insert_ne by exact Hne. reflexivity.
Qed.

Lemma fit_aget_entries (s : Z) sg L :
  entries (fit_aget Fit cfg s sg L) (TRestRawSignal.GetID sg)
  = [ Some (Root.GetParameter (aget_fitted sg) AgetAmplitude);
      Some (Root.GetParameter (aget_fitted sg) 0%nat);
      Some (Root.GetParameter (aget_fitted sg) 1%nat);
      variancegaussFit (maps L) !! TRestRawSignal.GetID sg;
      Some (aget_ratio sg) ].
Proof.
  unfold fit_aget, all_maps. cbn [maps amplitudeFit shapingtimeFit StartPositionFit
    variancegaussFit ratiosigmaamplitudeFit map].
  change (Root.mkFitCall _ _ _ _) with (aget_call cfg sg).
  rewrite (aget_sigma_is_stored sg), !lookup_insert_eq. reflexivity.
Qed.

Lemma fit_aget_other (s id : Z) sg L :
  TRestRawSignal.GetID sg <> id ->
  entries (fit_aget Fit cfg s sg L) id = entries L id.
Proof.
  intros Hne. unfold fit_aget, all_maps. cbn [maps amplitudeFit shapingtimeFit
    StartPositionFit variancegaussFit ratiosigmaamplitudeFit map].
  rewrite !lookup_insert_ne by exact Hne. reflexivity.
Qed.

(** *** Every signal fitted with the convolution *)

Lemma filter_all {A : Type} (l : list A) : List.filter (fun _ => true) l = l.
Proof. induction l as [|x l IH]; simpl; [reflexivity|]. rewrite IH. reflexivity. Qed.

Lemma fit_all_loop ev :
  no_selection cfg = true ->
  convolution_loop Fit cfg ev
  = (TRestRawSignalEvent.mk (map default_baseline (TRestRawSignalEvent.fSignal ev))
       (TRestRawSignalEvent.fBaseLineRange ev) (TRestRawSignalEvent.fRange ev),
     fold_signals (fit_convolution Fit cfg) 0
       (map default_baseline (TRestRawSignalEvent.fSignal ev))
       (init_Locals (TRestRawSignalEvent.GetNumberOfSignals ev))).
Proof.
  intros Hall. unfold convolution_loop. rewrite Hall.
  unfold fit_all_body. apply each_signal_loop.
Qed.

Lemma aget_loop_fold ev :
  aget_loop Fit cfg ev
  = (TRestRawSignalEvent.mk (map default_baseline (TRestRawSignalEvent.fSignal ev))
       (TRestRawSignalEvent.fBaseLineRange ev) (TRestRawSignalEvent.fRange ev),
     fold_signals (fit_aget Fit cfg) 0
       (map default_baseline (TRestRawSignalEvent.fSignal ev))
       (init_Locals (TRestRawSignalEvent.GetNumberOfSignals ev))).
Proof. unfold aget_loop, fit_aget_body. apply each_signal_loop. Qed.

(** The arrays after a loop that fits every signal of [l], started on the
    arrays of zeros. *)
Lemma arrays_of_all (step : Z -> TRestRawSignal.t W -> Locals -> Locals)
    (sigma ratio chi : TRestRawSignal.t W -> float) (call : TRestRawSignal.t W -> Root.FitCall) l :
  (forall s sg L,
     stats (step s sg L) = record_stats s (sigma sg) (ratio sg) (chi sg) (stats L)
     /\ fits (step s sg L) = fits L ++ [call sg]) ->
  let L := fold_signals step 0 l (init_Locals (Z.of_nat (length l))) in
  fits L = map call l
  /\ Sigma (stats L) = map sigma l
  /\ RatioSigmaMaxPeak (stats L) = map ratio l
  /\ ChiSquare (stats L) = map chi l
  /\ SigmaMean (stats L) = sum_doubles (map sigma l)
  /\ RatioSigmaMaxPeakMean (stats L) = sum_doubles (map ratio l)
  /\ ChiSquareMean (stats L) = sum_doubles (map chi l).
Proof.
  intros Hstep L.
  assert (Hfits := recorded_fits step (fun _ => true) sigma ratio chi call
                     (fun s sg L0 _ => Hstep s sg L0)
                     (fun s sg L0 (H : true = false) => ltac:(discriminate H))
                     0 l (init_Locals (Z.of_nat (length l)))).
  assert (Hsums := recorded_sums step (fun _ => true) sigma ratio chi call
                     (fun s sg L0 _ => Hstep s sg L0)
                     (fun s sg L0 (H : true = false) => ltac:(discriminate H))
                     0 l (init_Locals (Z.of_nat (length l)))).
  assert (Harr := recorded_arrays step (fun _ => true) sigma ratio chi call
                    (fun s sg L0 _ => Hstep s sg L0)
                    [] [] []
                    (replicate (length l) 0%float) (replicate (length l) 0%float)
                    (replicate (length l) 0%float) l (init_Locals (Z.of_nat (length l)))).
  rewrite filter_all in Hfits, Hsums. fold L in Hfits, Hsums.
  destruct Hsums as (Hs & Hr & Hc).
  destruct Harr as (Has & Har & Hac).
  - apply Forall_forall. intros; reflexivity.
  - reflexivity.
  - reflexivity.
  - unfold init_Locals. cbn [stats Sigma]. rewrite Nat2Z.id. reflexivity.
  - unfold init_Locals. cbn [stats RatioSigmaMaxPeak]. rewrite Nat2Z.id. reflexivity.
  - unfold init_Locals. cbn [stats ChiSquare]. rewrite Nat2Z.id. reflexivity.
  - rewrite length_replicate. lia.
  - rewrite length_replicate. lia.
  - rewrite length_replicate. lia.
  - change (Z.of_nat (length (@nil float))) with 0 in Has, Har, Hac. fold L in Has, Har, Hac.
    rewrite drop_replicate, Nat.sub_diag in Has, Har, Hac. simpl in Has, Har, Hac.
    rewrite app_nil_r in Has, Har, Hac.
    split; [exact Hfits|]. split; [exact Has|]. split; [exact Har|]. split; [exact Hac|].
    split; [exact Hs|]. split; [exact Hr|exact Hc].
Qed.

(** The sum of the squared deviations runs over the whole array. *)
Lemma sum_squared_deviations_all (S : list float) (mean : float) :
  sum_squared_deviations false (Z.of_nat (length S)) S mean
  = sum_doubles (map (squared_deviation mean) S).
Proof.
  unfold sum_squared_deviations, sum_doubles.
  rewrite <- (foldl_add_map (squared_deviation mean) S 0%float).
  rewrite <- (for_range_vector S (fun x acc => (acc + squared_deviation mean x)%float) 0%float).
  unfold for_range. apply for_loop_ext. intros j acc Hj.
  destruct (Z.ltb_spec j 0) as [Hneg|_]; [lia|].
  destruct (S !! Z.to_nat j) as [x|] eqn:E; [reflexivity|].
  apply lookup_ge_None in E. lia.
Qed.

(** X17. With no selection configured and the convolution chosen, every
    signal is fitted once, in insertion order, after its baseline is
    computed over the bins 20 to 150: the calls of [Fit] are the calls for
    the signals of the event as the process leaves it, and the arrays hold,
    signal by signal, the residual over the window of the fit, that residual
    divided by the cell after the peak, and the chi-square. *)
Theorem fit_all_fits_every_signal ev :
  fAddAllPulses cfg = false -> fAgetFit cfg = false -> no_selection cfg = true ->
  let out := ProcessEvent Fit ApplyCut cfg ev in
  TRestRawSignalEvent.fSignal (event_after out)
  = map default_baseline (TRestRawSignalEvent.fSignal ev)
  /\ fit_calls out = map (convolution_call cfg) (TRestRawSignalEvent.fSignal (event_after out))
  /\ Sigma (reported out)
     = map (fun sg => conv_sigma sg) (TRestRawSignalEvent.fSignal (event_after out))
  /\ RatioSigmaMaxPeak (reported out)
     = map (fun sg => conv_ratio sg) (TRestRawSignalEvent.fSignal (event_after out))
  /\ ChiSquare (reported out)
     = map (fun sg => Root.GetChisquare (conv_fitted sg))
         (TRestRawSignalEvent.fSignal (event_after out)).
Proof.
  intros Hadd Haget Hall out. subst out. rewrite ProcessEvent_selection by assumption.
  change (event_after (ProcessEvent_convolution Fit ApplyCut cfg ev))
    with (convolution_loop Fit cfg ev).1.
  change (fit_calls (ProcessEvent_convolution Fit ApplyCut cfg ev))
    with (fits (convolution_loop Fit cfg ev).2).
  change (Sigma (reported (ProcessEvent_convolution Fit ApplyCut cfg ev)))
    with (Sigma (stats (convolution_loop Fit cfg ev).2)).
  change (RatioSigmaMaxPeak (reported (ProcessEvent_convolution Fit ApplyCut cfg ev)))
    with (RatioSigmaMaxPeak (stats (convolution_loop Fit cfg ev).2)).
  change (ChiSquare (reported (ProcessEvent_convolution Fit ApplyCut cfg ev)))
    with (ChiSquare (stats (convolution_loop Fit cfg ev).2)).
  rewrite (fit_all_loop ev Hall). cbn [fst snd TRestRawSignalEvent.fSignal].
  split; [reflexivity|].
  unfold TRestRawSignalEvent.GetNumberOfSignals.
  rewrite <- (length_map default_baseline (TRestRawSignalEvent.fSignal ev)).
  destruct (arrays_of_all (fit_convolution Fit cfg)
              (fun sg => conv_sigma sg) (fun sg => conv_ratio sg)
              (fun sg => Root.GetChisquare (conv_fitted sg)) (convolution_call cfg)
              (map default_baseline (TRestRawSignalEvent.fSignal ev))
              fit_convolution_records)
    as (Hf & Hs & Hr & Hc & _).
  split; [exact Hf|]. split; [exact Hs|]. split; [exact Hr|exact Hc].
Qed.

Lemma fit_all_results ev :
  no_selection cfg = true ->
  let signals := map default_baseline (TRestRawSignalEvent.fSignal ev) in
  let L := (convolution_loop Fit cfg ev).2 in
  TRestRawSignalEvent.fSignal (convolution_loop Fit cfg ev).1 = signals
  /\ fits L = map (convolution_call cfg) signals
  /\ Sigma (stats L) = map (fun sg => conv_sigma sg) signals
  /\ RatioSigmaMaxPeak (stats L) = map (fun sg => conv_ratio sg) signals
  /\ ChiSquare (stats L) = map (fun sg => Root.GetChisquare (conv_fitted sg)) signals
  /\ SigmaMean (stats L) = sum_doubles (map (fun sg => conv_sigma sg) signals)
  /\ RatioSigmaMaxPeakMean (stats L) = sum_doubles (map (fun sg => conv_ratio sg) signals)
  /\ ChiSquareMean (stats L)
     = sum_doubles (map (fun sg => Root.GetChisquare (conv_fitted sg)) signals).
Proof.
  intros Hall signals L. subst L. rewrite (fit_all_loop ev Hall).
  cbn [fst snd TRestRawSignalEvent.fSignal]. fold signals.
  split; [reflexivity|].
  unfold TRestRawSignalEvent.GetNumberOfSignals.
  rewrite <- (length_map default_baseline (TRestRawSignalEvent.fSignal ev)). fold signals.
  exact (arrays_of_all (fit_convolution Fit cfg)
           (fun sg => conv_sigma sg) (fun sg => conv_ratio sg)
           (fun sg => Root.GetChisquare (conv_fitted sg)) (convolution_call cfg)
           signals fit_convolution_records).
Qed.

(** X18. With no selection configured and the convolution chosen, the four
    means published are taken over all the signals of the event:
    [FitSigmaMean] is the sum of the residuals of the signals, in insertion
    order, divided by the number of signals; [FitSigmaStdDev] is the square
    root of the mean squared deviation of the residuals from that mean;
    [FitChiSquareMean] and [FitRatioSigmaMaxPeakMean] are the sums of the
    chi-squares and of the ratios divided by the number of signals. *)
Theorem fit_all_means ev :
  fAddAllPulses cfg = false -> fAgetFit cfg = false -> no_selection cfg = true ->
  let out := ProcessEvent Fit ApplyCut cfg ev in
  let signals := TRestRawSignalEvent.fSignal (event_after out) in
  let n := Numeric.Z2D (Z.of_nat (length signals)) in
  let sigmas := map (fun sg => conv_sigma sg) signals in
  let mean := (sum_doubles sigmas / n)%float in
  GetObservable "FitSigmaMean" (observables out) = Some (Scalar mean)
  /\ GetObservable "FitSigmaStdDev" (observables out)
     = Some (Scalar (PrimFloat.sqrt (sum_doubles (map (squared_deviation mean) sigmas) / n)))
  /\ GetObservable "FitChiSquareMean" (observables out)
     = Some (Scalar (sum_doubles (map (fun sg => Root.GetChisquare (conv_fitted sg)) signals) / n)%float)
  /\ GetObservable "FitRatioSigmaMaxPeakMean" (observables out)
     = Some (Scalar (sum_doubles (map (fun sg => conv_ratio sg) signals) / n)%float).
Proof.
  intros Hadd Haget Hall out. subst out. rewrite ProcessEvent_selection by assumption.
  change (event_after (ProcessEvent_convolution Fit ApplyCut cfg ev))
    with (convolution_loop Fit cfg ev).1.
  intros signals n sigmas mean.
  destruct (published_means Fit ApplyCut cfg ev) as (Hmean & Hdev & Hchi & Hratio).
  rewrite Hall in Hmean, Hdev, Hchi, Hratio. change (negb true) with false in Hdev.
  destruct (fit_all_results ev Hall) as (Hsig & _ & Hs & _ & _ & Hsm & Hrm & Hcm).
  unfold TRestRawSignalEvent.GetNumberOfSignals in Hmean, Hdev, Hchi, Hratio.
  rewrite Hsm in Hmean, Hdev. rewrite Hs in Hdev. rewrite Hcm in Hchi. rewrite Hrm in Hratio.
  rewrite <- Hsig in Hmean, Hdev, Hchi, Hratio.
  fold signals in Hmean, Hdev, Hchi, Hratio.
  fold sigmas in Hmean, Hdev. fold n in Hmean, Hdev, Hchi, Hratio. fold mean in Hmean, Hdev.
  replace (Z.of_nat (length signals)) with (Z.of_nat (length sigmas)) in Hdev at 1
    by (unfold sigmas; rewrite length_map; reflexivity).
  rewrite sum_squared_deviations_all in Hdev.
  split; [exact Hmean|]. split; [exact Hdev|]. split; [exact Hchi|exact Hratio].
Qed.

(** X19. With no selection configured and the convolution chosen, for an
    event whose signal IDs are distinct, the five maps published hold, at
    the ID of each signal, what the fit of that signal gave: the amplitude
    (parameter 3), the shaping time (parameter 0), the start position
    (parameter 1), the variance of the Gaussian (parameter 2), and the
    residual of the signal divided by the cell after its peak. *)
Theorem fit_all_maps ev sg :
  fAddAllPulses cfg = false -> fAgetFit cfg = false -> no_selection cfg = true ->
  NoDup (signal_ids ev) ->
  let out := ProcessEvent Fit ApplyCut cfg ev in
  sg ∈ TRestRawSignalEvent.fSignal (event_after out) ->
  let id := TRestRawSignal.GetID sg in
  published_at (observables out) "FitAmplitude_map" id = Some (Root.GetParameter (conv_fitted sg) 3%nat)
  /\ published_at (observables out) "FitShapingTime_map" id
     = Some (Root.GetParameter (conv_fitted sg) 0%nat)
  /\ published_at (observables out) "FitStartPosition_map" id
     = Some (Root.GetParameter (conv_fitted sg) 1%nat)
  /\ published_at (observables out) "FitVarianceGauss_map" id
     = Some (Root.GetParameter (conv_fitted sg) 2%nat)
  /\ published_at (observables out) "FitRatioSigmaMaxPeak_map" id = Some (conv_ratio sg).
Proof.
  intros Hadd Haget Hall Hnd out. subst out. rewrite ProcessEvent_selection by assumption.
  change (event_after (ProcessEvent_convolution Fit ApplyCut cfg ev))
    with (convolution_loop Fit cfg ev).1.
  intros Hin id. subst id.
  assert (Hentries : entries (convolution_loop Fit cfg ev).2 (TRestRawSignal.GetID sg)
                     = [ Some (Root.GetParameter (conv_fitted sg) Amplitude);
                         Some (Root.GetParameter (conv_fitted sg) ShapingTime);
                         Some (Root.GetParameter (conv_fitted sg) StartPosition);
                         Some (Root.GetParameter (conv_fitted sg) VarianceGauss);
                         Some (conv_ratio sg) ]).
  { rewrite (fit_all_loop ev Hall) in Hin |- *.
    cbn [fst snd TRestRawSignalEvent.fSignal] in Hin |- *.
    destruct (written_last (fit_convolution Fit cfg)
                (fun s sg0 L0 id0 => fit_convolution_other s id0 sg0 L0)
                (map default_baseline (TRestRawSignalEvent.fSignal ev)) 0
                (init_Locals (TRestRawSignalEvent.GetNumberOfSignals ev)) sg)
      as (s & L' & ->).
    - rewrite prepare_keeps_ids by reflexivity. exact Hnd.
    - exact Hin.
    - apply fit_convolution_entries. }
  unfold all_maps in Hentries. cbn [map] in Hentries.
  injection Hentries as Ha Ht Hp Hv Hr.
  split; [exact Ha|]. split; [exact Ht|]. split; [exact Hp|]. split; [exact Hv|exact Hr].
Qed.

(** *** Every signal fitted with the AGET function *)

Lemma ProcessEvent_aget_branch ev :
  fAddAllPulses cfg = false -> fAgetFit cfg = true ->
  ProcessEvent Fit ApplyCut cfg ev = ProcessEvent_aget Fit ApplyCut cfg ev.
Proof. intros Hadd Haget. unfold ProcessEvent. rewrite Hadd, Haget. reflexivity. Qed.

Lemma aget_results ev :
  let signals := map default_baseline (TRestRawSignalEvent.fSignal ev) in
  let L := (aget_loop Fit cfg ev).2 in
  TRestRawSignalEvent.fSignal (aget_loop Fit cfg ev).1 = signals
  /\ fits L = map (aget_call cfg) signals
  /\ Sigma (stats L) = map (fun sg => aget_sigma sg) signals
  /\ RatioSigmaMaxPeak (stats L) = map (fun sg => aget_ratio sg) signals
  /\ ChiSquare (stats L) = map (fun sg => Root.GetChisquare (aget_fitted sg)) signals
  /\ SigmaMean (stats L) = sum_doubles (map (fun sg => aget_sigma sg) signals)
  /\ RatioSigmaMaxPeakMean (stats L) = sum_doubles (map (fun sg => aget_ratio sg) signals)
  /\ ChiSquareMean (stats L)
     = sum_doubles (map (fun sg => Root.GetChisquare (aget_fitted sg)) signals).
Proof.
  intros signals L. subst L. rewrite (aget_loop_fold ev).
  cbn [fst snd TRestRawSignalEvent.fSignal]. fold signals.
  split; [reflexivity|].
  unfold TRestRawSignalEvent.GetNumberOfSignals.
  rewrite <- (length_map default_baseline (TRestRawSignalEvent.fSignal ev)). fold signals.
  exact (arrays_of_all (fit_aget Fit cfg)
           (fun sg => aget_sigma sg) (fun sg => aget_ratio sg)
           (fun sg => Root.GetChisquare (aget_fitted sg)) (aget_call cfg)
           signals fit_aget_records).
Qed.

(** X20. With the AGET function chosen, every signal is fitted once, in
    insertion order, after its baseline is computed over the bins 20 to 150,
    whatever selection the configuration asks for: the calls of [Fit] are
    the calls for the signals of the event as the process leaves it, over
    the window of 45 bins before the peak to 70 after it, and the arrays
    hold, signal by signal, the residual over the 145 bins before the peak
    to the 165 after it, that residual divided by the cell after the peak,
    and the chi-square. *)
Theorem aget_fits_every_signal ev :
  fAddAllPulses cfg = false -> fAgetFit cfg = true ->
  let out := ProcessEvent Fit ApplyCut cfg ev in
  let signals := TRestRawSignalEvent.fSignal (event_after out) in
  signals = map default_baseline (TRestRawSignalEvent.fSignal ev)
  /\ fit_calls out = map (aget_call cfg) signals
  /\ Sigma (reported out) = map (fun sg => aget_sigma sg) signals
  /\ RatioSigmaMaxPeak (reported out) = map (fun sg => aget_ratio sg) signals
  /\ ChiSquare (reported out) = map (fun sg => Root.GetChisquare (aget_fitted sg)) signals.
Proof.
  intros Hadd Haget out. subst out. rewrite ProcessEvent_aget_branch by assumption.
  change (event_after (ProcessEvent_aget Fit ApplyCut cfg ev)) with (aget_loop Fit cfg ev).1.
  change (fit_calls (ProcessEvent_aget Fit ApplyCut cfg ev))
    with (fits (aget_loop Fit cfg ev).2).
  change (Sigma (reported (ProcessEvent_aget Fit ApplyCut cfg ev)))
    with (Sigma (stats (aget_loop Fit cfg ev).2)).
  change (RatioSigmaMaxPeak (reported (ProcessEvent_aget Fit ApplyCut cfg ev)))
    with (RatioSigmaMaxPeak (stats (aget_loop Fit cfg ev).2)).
  change (ChiSquare (reported (ProcessEvent_aget Fit ApplyCut cfg ev)))
    with (ChiSquare (stats (aget_loop Fit cfg ev).2)).
  intros signals. subst signals.
  destruct (aget_results ev) as (Hsig & Hf & Hs & Hr & Hc & _).
  rewrite Hsig. split; [reflexivity|].
  split; [exact Hf|]. split; [exact Hs|]. split; [exact Hr|exact Hc].
Qed.

Lemma aget_published_means ev :
  let obs := observables (ProcessEvent_aget Fit ApplyCut cfg ev) in
  let L := (aget_loop Fit cfg ev).2 in
  let N := TRestRawSignalEvent.GetNumberOfSignals (aget_loop Fit cfg ev).1 in
  let mean := (SigmaMean (stats L) / Numeric.Z2D N)%float in
  GetObservable "FitSigmaMean" obs = Some (Scalar mean)
  /\ GetObservable "FitSigmaStdDev" obs
     = Some (Scalar (PrimFloat.sqrt
                       (sum_squared_deviations false N (Sigma (stats L)) mean / Numeric.Z2D N)))
  /\ GetObservable "FitChiSquareMean" obs
     = Some (Scalar (ChiSquareMean (stats L) / Numeric.Z2D N)%float)
  /\ GetObservable "FitRatioSigmaMaxPeakMean" obs
     = Some (Scalar (RatioSigmaMaxPeakMean (stats L) / Numeric.Z2D N)%float).
Proof. repeat split. Qed.

(** X21. With the AGET function chosen, the four means published are taken
    over all the signals of the event, as sums in insertion order divided by
    the number of signals, the standard deviation as the square root of the
    mean squared deviation of the residuals; and none of the observables of
    the variance of the Gaussian is published. *)
Theorem aget_means ev :
  fAddAllPulses cfg = false -> fAgetFit cfg = true ->
  let out := ProcessEvent Fit ApplyCut cfg ev in
  let signals := TRestRawSignalEvent.fSignal (event_after out) in
  let n := Numeric.Z2D (Z.of_nat (length signals)) in
  let sigmas := map (fun sg => aget_sigma sg) signals in
  let mean := (sum_doubles sigmas / n)%float in
  GetObservable "FitSigmaMean" (observables out) = Some (Scalar mean)
  /\ GetObservable "FitSigmaStdDev" (observables out)
     = Some (Scalar (PrimFloat.sqrt (sum_doubles (map (squared_deviation mean) sigmas) / n)))
  /\ GetObservable "FitChiSquareMean" (observables out)
     = Some (Scalar (sum_doubles (map (fun sg => Root.GetChisquare (aget_fitted sg)) signals) / n)%float)
  /\ GetObservable "FitRatioSigmaMaxPeakMean" (observables out)
     = Some (Scalar (sum_doubles (map (fun sg => aget_ratio sg) signals) / n)%float)
  /\ (forall name, name ∈ variance_names -> GetObservable name (observables out) = None).
Proof.
  intros Hadd Haget out. subst out. rewrite ProcessEvent_aget_branch by assumption.
  change (event_after (ProcessEvent_aget Fit ApplyCut cfg ev)) with (aget_loop Fit cfg ev).1.
  intros signals n sigmas mean.
  destruct (aget_published_means ev) as (Hmean & Hdev & Hchi & Hratio).
  destruct (aget_results ev) as (Hsig & _ & Hs & _ & _ & Hsm & Hrm & Hcm).
  unfold TRestRawSignalEvent.GetNumberOfSignals in Hmean, Hdev, Hchi, Hratio.
  rewrite Hsm in Hmean, Hdev. rewrite Hs in Hdev. rewrite Hcm in Hchi. rewrite Hrm in Hratio.
  rewrite <- Hsig in Hmean, Hdev, Hchi, Hratio.
  fold signals in Hmean, Hdev, Hchi, Hratio.
  fold sigmas in Hmean, Hdev. fold n in Hmean, Hdev, Hchi, Hratio. fold mean in Hmean, Hdev.
  replace (Z.of_nat (length signals)) with (Z.of_nat (length sigmas)) in Hdev at 1
    by (unfold sigmas; rewrite length_map; reflexivity).
  rewrite sum_squared_deviations_all in Hdev.
  split; [exact Hmean|]. split; [exact Hdev|]. split; [exact Hchi|]. split; [exact Hratio|].
  intros name Hname. unfold variance_names in Hname.
  repeat (apply elem_of_cons in Hname as [->|Hname]); [| | | |inversion Hname]; reflexivity.
Qed.

(** X22. With the AGET function chosen, for an event whose signal IDs are
    distinct, the maps published hold, at the ID of each signal, what the
    fit of that signal gave: the amplitude is parameter 2, the shaping time
    parameter 0, the start position parameter 1, and the ratio is the
    residual of the signal divided by the cell after its peak. *)
Theorem aget_maps ev sg :
  fAddAllPulses cfg = false -> fAgetFit cfg = true ->
  NoDup (signal_ids ev) ->
  let out := ProcessEvent Fit ApplyCut cfg ev in
  sg ∈ TRestRawSignalEvent.fSignal (event_after out) ->
  let id := TRestRawSignal.GetID sg in
  published_at (observables out) "FitAmplitude_map" id = Some (Root.GetParameter (aget_fitted sg) 2%nat)
  /\ published_at (observables out) "FitShapingTime_map" id
     = Some (Root.GetParameter (aget_fitted sg) 0%nat)
  /\ published_at (observables out) "FitStartPosition_map" id
     = Some (Root.GetParameter (aget_fitted sg) 1%nat)
  /\ published_at (observables out) "FitRatioSigmaMaxPeak_map" id = Some (aget_ratio sg).
Proof.
  intros Hadd Haget Hnd out. subst out. rewrite ProcessEvent_aget_branch by assumption.
  change (event_after (ProcessEvent_aget Fit ApplyCut cfg ev)) with (aget_loop Fit cfg ev).1.
  intros Hin id. subst id.
  assert (Hentries : exists v,
             entries (aget_loop Fit cfg ev).2 (TRestRawSignal.GetID sg)
             = [ Some (Root.GetParameter (aget_fitted sg) AgetAmplitude);
                 Some (Root.GetParameter (aget_fitted sg) 0%nat);
                 Some (Root.GetParameter (aget_fitted sg) 1%nat);
                 v;
                 Some (aget_ratio sg) ]).
  { rewrite (aget_loop_fold ev) in Hin |- *.
    cbn [fst snd TRestRawSignalEvent.fSignal] in Hin |- *.
    destruct (written_last (fit_aget Fit cfg)
                (fun s sg0 L0 id0 => fit_aget_other s id0 sg0 L0)
                (map default_baseline (TRestRawSignalEvent.fSignal ev)) 0
                (init_Locals (TRestRawSignalEvent.GetNumberOfSignals ev)) sg)
      as (s & L' & ->).
    - rewrite prepare_keeps_ids by reflexivity. exact Hnd.
    - exact Hin.
    - eexists. apply fit_aget_entries. }
  destruct Hentries as (v & Hentries).
  unfold all_maps in Hentries. cbn [map] in Hentries.
  injection Hentries as Ha Ht Hp _ Hr.
  split; [exact Ha|]. split; [exact Ht|]. split; [exact Hp|exact Hr].
Qed.

(** *** The signals a selection accepts *)

Lemma fit_or_skip_good (s : Z) sg L :
  good_signal sg = true ->
  fit_or_skip Fit cfg s sg L
  = fit_convolution Fit cfg s sg
      (mkLocals (stats L) (weighted L) (maps L) (goodSig L + 1) (fits L)).
Proof. intros Hg. unfold fit_or_skip. rewrite Hg. reflexivity. Qed.

Lemma fit_or_skip_bad (s : Z) sg L :
  good_signal sg = false -> fit_or_skip Fit cfg s sg L = skip_signal sg L.
Proof. intros Hg. unfold fit_or_skip. rewrite Hg. reflexivity. Qed.

Lemma fit_or_skip_records (s : Z) sg L :
  good_signal sg = true ->
  stats (fit_or_skip Fit cfg s sg L)
  = record_stats s (conv_sigma sg) (conv_ratio sg) (Root.GetChisquare (conv_fitted sg)) (stats L)
  /\ fits (fit_or_skip Fit cfg s sg L) = fits L ++ [convolution_call cfg sg].
Proof.
  intros Hg. rewrite fit_or_skip_good by exact Hg.
  exact (fit_convolution_records s sg
           (mkLocals (stats L) (weighted L) (maps L) (goodSig L + 1) (fits L))).
Qed.

Lemma fit_or_skip_leaves (s : Z) sg L :
  good_signal sg = false ->
  stats (fit_or_skip Fit cfg s sg L) = stats L /\ fits (fit_or_skip Fit cfg s sg L) = fits L.
Proof. intros Hg. rewrite fit_or_skip_bad by exact Hg. split; reflexivity. Qed.

Lemma selection_good_count (i : Z) l L :
  goodSig (fold_signals (fit_or_skip Fit cfg) i l L)
  = goodSig L + Z.of_nat (length (List.filter good_signal l)).
Proof.
  revert i L. induction l as [|sg l IH]; intros i L.
  - simpl. lia.
  - rewrite fold_signals_cons, IH. simpl. destruct (good_signal sg) eqn:E.
    + rewrite fit_or_skip_good by exact E. simpl. lia.
    + rewrite fit_or_skip_bad by exact E. simpl. lia.
Qed.

Lemma fit_or_skip_entries (s : Z) sg L :
  good_signal sg = true ->
  entries (fit_or_skip Fit cfg s sg L) (TRestRawSignal.GetID sg)
  = [ Some (Root.GetParameter (conv_fitted sg) Amplitude);
      Some (Root.GetParameter (conv_fitted sg) ShapingTime);
      Some (Root.GetParameter (conv_fitted sg) StartPosition);
      Some (Root.GetParameter (conv_fitted sg) VarianceGauss);
      Some (conv_ratio sg) ].
Proof.
  intros Hg. rewrite fit_or_skip_good by exact Hg. apply fit_convolution_entries.
Qed.

(** The sum of the squared deviations that leaves out the entries that are
    0. *)
Lemma sum_squared_deviations_nonzero (S : list float) (mean : float) :
  sum_squared_deviations true (Z.of_nat (length S)) S mean
  = sum_doubles (map (squared_deviation mean)
                   (List.filter (fun x => negb (Numeric.is_zero x)) S)).
Proof.
  unfold sum_squared_deviations, sum_doubles.
  rewrite <- (foldl_filtered_sum (fun x => negb (Numeric.is_zero x))
                (squared_deviation mean) S 0%float).
  rewrite <- (for_range_vector S
                (fun x acc => if negb (Numeric.is_zero x)
                              then (acc + squared_deviation mean x)%float else acc) 0%float).
  unfold for_range. apply for_loop_ext. intros j acc Hj.
  destruct (Z.ltb_spec j 0) as [Hneg|_]; [lia|].
  destruct (S !! Z.to_nat j) as [x|] eqn:E.
  - simpl. destruct (Numeric.is_zero x); reflexivity.
  - apply lookup_ge_None in E. lia.
Qed.

Lemma selection_results ev :
  no_selection cfg = false ->
  let signals := TRestRawSignalEvent.fSignal (convolution_loop Fit cfg ev).1 in
  let L := (convolution_loop Fit cfg ev).2 in
  let good := List.filter good_signal signals in
  fits L = map (convolution_call cfg) good
  /\ goodSig L = Z.of_nat (length good)
  /\ Sigma (stats L) = map (fun sg => if good_signal sg then conv_sigma sg else 0%float) signals
  /\ RatioSigmaMaxPeak (stats L)
     = map (fun sg => if good_signal sg then conv_ratio sg else 0%float) signals
  /\ ChiSquare (stats L)
     = map (fun sg => if good_signal sg then Root.GetChisquare (conv_fitted sg) else 0%float)
         signals
  /\ SigmaMean (stats L) = sum_doubles (map (fun sg => conv_sigma sg) good)
  /\ RatioSigmaMaxPeakMean (stats L) = sum_doubles (map (fun sg => conv_ratio sg) good)
  /\ ChiSquareMean (stats L)
     = sum_doubles (map (fun sg => Root.GetChisquare (conv_fitted sg)) good).
Proof.
  intros Hsel signals L good. subst signals L good.
  rewrite (selection_loop Fit cfg ev Hsel). cbn [fst snd TRestRawSignalEvent.fSignal].
  set (l := map (selection_prepare cfg) _).
  assert (Hlen : TRestRawSignalEvent.GetNumberOfSignals ev = Z.of_nat (length l)).
  { unfold l, TRestRawSignalEvent.SetBaseLineRange, TRestRawSignalEvent.GetNumberOfSignals.
    cbn [TRestRawSignalEvent.fSignal]. rewrite !length_map. reflexivity. }
  rewrite Hlen.
  split.
  { exact (recorded_fits (fit_or_skip Fit cfg) good_signal
             (fun sg => conv_sigma sg) (fun sg => conv_ratio sg)
             (fun sg => Root.GetChisquare (conv_fitted sg)) (convolution_call cfg)
             fit_or_skip_records fit_or_skip_leaves 0 l (init_Locals (Z.of_nat (length l)))). }
  split.
  { rewrite selection_good_count. reflexivity. }
  destruct (recorded_arrays_skipping (fit_or_skip Fit cfg) good_signal
              (fun sg => conv_sigma sg) (fun sg => conv_ratio sg)
              (fun sg => Root.GetChisquare (conv_fitted sg)) (convolution_call cfg)
              fit_or_skip_records fit_or_skip_leaves [] [] [] (length l) l
              (init_Locals (Z.of_nat (length l)))) as (Hs & Hr & Hc).
  - reflexivity.
  - reflexivity.
  - unfold init_Locals. cbn [stats Sigma]. rewrite Nat2Z.id. reflexivity.
  - unfold init_Locals. cbn [stats RatioSigmaMaxPeak]. rewrite Nat2Z.id. reflexivity.
  - unfold init_Locals. cbn [stats ChiSquare]. rewrite Nat2Z.id. reflexivity.
  - lia.
  - change (Z.of_nat (length (@nil float))) with 0 in Hs, Hr, Hc.
    rewrite Nat.sub_diag in Hs, Hr, Hc. simpl in Hs, Hr, Hc.
    rewrite app_nil_r in Hs, Hr, Hc.
    split; [exact Hs|]. split; [exact Hr|]. split; [exact Hc|].
    exact (recorded_sums (fit_or_skip Fit cfg) good_signal
             (fun sg => conv_sigma sg) (fun sg => conv_ratio sg)
             (fun sg => Root.GetChisquare (conv_fitted sg)) (convolution_call cfg)
             fit_or_skip_records fit_or_skip_leaves 0 l (init_Locals (Z.of_nat (length l)))).
Qed.

(** X23. Under a selection, the signals fitted are those with at least 2
    points over threshold, in insertion order, and no other: the calls of
    [Fit] are the calls for those signals; the arrays hold the residual, the
    ratio and the chi-square at the index of each of them and 0 at the index
    of every other signal; the three means published are the sums over the
    fitted signals divided by their number; and [FitSigmaStdDev] is taken
    over the entries of the array of residuals that are not 0, divided by
    the number of fitted signals. *)
Theorem selection_fits_good_signals ev :
  fAddAllPulses cfg = false -> fAgetFit cfg = false -> no_selection cfg = false ->
  let out := ProcessEvent Fit ApplyCut cfg ev in
  let signals := TRestRawSignalEvent.fSignal (event_after out) in
  let good := List.filter good_signal signals in
  let n := Numeric.Z2D (Z.of_nat (length good)) in
  let mean := (sum_doubles (map (fun sg => conv_sigma sg) good) / n)%float in
  fit_calls out = map (convolution_call cfg) good
  /\ Sigma (reported out)
     = map (fun sg => if good_signal sg then conv_sigma sg else 0%float) signals
  /\ RatioSigmaMaxPeak (reported out)
     = map (fun sg => if good_signal sg then conv_ratio sg else 0%float) signals
  /\ ChiSquare (reported out)
     = map (fun sg => if good_signal sg then Root.GetChisquare (conv_fitted sg) else 0%float)
         signals
  /\ GetObservable "FitSigmaMean" (observables out) = Some (Scalar mean)
  /\ GetObservable "FitSigmaStdDev" (observables out)
     = Some (Scalar (PrimFloat.sqrt
                       (sum_doubles
                          (map (squared_deviation mean)
                             (List.filter (fun x => negb (Numeric.is_zero x))
                                (Sigma (reported out)))) / n)))
  /\ GetObservable "FitChiSquareMean" (observables out)
     = Some (Scalar (sum_doubles (map (fun sg => Root.GetChisquare (conv_fitted sg)) good) / n)%float)
  /\ GetObservable "FitRatioSigmaMaxPeakMean" (observables out)
     = Some (Scalar (sum_doubles (map (fun sg => conv_ratio sg) good) / n)%float).
Proof.
  intros Hadd Haget Hsel out. subst out. rewrite ProcessEvent_selection by assumption.
  change (event_after (ProcessEvent_convolution Fit ApplyCut cfg ev))
    with (convolution_loop Fit cfg ev).1.
  change (fit_calls (ProcessEvent_convolution Fit ApplyCut cfg ev))
    with (fits (convolution_loop Fit cfg ev).2).
  change (Sigma (reported (ProcessEvent_convolution Fit ApplyCut cfg ev)))
    with (Sigma (stats (convolution_loop Fit cfg ev).2)).
  change (RatioSigmaMaxPeak (reported (ProcessEvent_convolution Fit ApplyCut cfg ev)))
    with (RatioSigmaMaxPeak (stats (convolution_loop Fit cfg ev).2)).
  change (ChiSquare (reported (ProcessEvent_convolution Fit ApplyCut cfg ev)))
    with (ChiSquare (stats (convolution_loop Fit cfg ev).2)).
  intros signals good n mean.
  destruct (published_means Fit ApplyCut cfg ev) as (Hmean & Hdev & Hchi & Hratio).
  rewrite Hsel in Hmean, Hdev, Hchi, Hratio. change (negb false) with true in Hdev.
  destruct (selection_results ev Hsel) as (Hf & Hg & Hs & Hr & Hc & Hsm & Hrm & Hcm).
  fold signals in Hf, Hg, Hs, Hr, Hc, Hsm, Hrm, Hcm.
  fold good in Hf, Hg, Hsm, Hrm, Hcm.
  rewrite Hg in Hmean, Hdev, Hchi, Hratio.
  rewrite Hsm in Hmean, Hdev. rewrite Hcm in Hchi. rewrite Hrm in Hratio.
  fold n in Hmean, Hdev, Hchi, Hratio. fold mean in Hmean, Hdev.
  replace (TRestRawSignalEvent.GetNumberOfSignals (convolution_loop Fit cfg ev).1)
    with (Z.of_nat (length (Sigma (stats (convolution_loop Fit cfg ev).2)))) in Hdev
    by (rewrite Hs, length_map; reflexivity).
  rewrite sum_squared_deviations_nonzero in Hdev.
  split; [exact Hf|]. split; [exact Hs|]. split; [exact Hr|]. split; [exact Hc|].
  split; [exact Hmean|]. split; [exact Hdev|]. split; [exact Hchi|exact Hratio].
Qed.

(** X24. Under a selection, for an event whose signal IDs are distinct, the
    five maps published hold, at the ID of each signal with at least 2
    points over threshold, what the fit of that signal gave: the amplitude,
    the shaping time, the start position, the variance of the Gaussian, and
    the residual divided by the cell after the peak. *)
Theorem selection_maps_of_good_signals ev sg :
  fAddAllPulses cfg = false -> fAgetFit cfg = false -> no_selection cfg = false ->
  NoDup (signal_ids ev) ->
  let out := ProcessEvent Fit ApplyCut cfg ev in
  sg ∈ TRestRawSignalEvent.fSignal (event_after out) ->
  good_signal sg = true ->
  let id := TRestRawSignal.GetID sg in
  published_at (observables out) "FitAmplitude_map" id = Some (Root.GetParameter (conv_fitted sg) 3%nat)
  /\ published_at (observables out) "FitShapingTime_map" id
     = Some (Root.GetParameter (conv_fitted sg) 0%nat)
  /\ published_at (observables out) "FitStartPosition_map" id
     = Some (Root.GetParameter (conv_fitted sg) 1%nat)
  /\ published_at (observables out) "FitVarianceGauss_map" id
     = Some (Root.GetParameter (conv_fitted sg) 2%nat)
  /\ published_at (observables out) "FitRatioSigmaMaxPeak_map" id = Some (conv_ratio sg).
Proof.
  intros Hadd Haget Hsel Hnd out. subst out. rewrite ProcessEvent_selection by assumption.
  change (event_after (ProcessEvent_convolution Fit ApplyCut cfg ev))
    with (convolution_loop Fit cfg ev).1.
  intros Hin Hgood id. subst id.
  assert (Hentries : entries (convolution_loop Fit cfg ev).2 (TRestRawSignal.GetID sg)
                     = [ Some (Root.GetParameter (conv_fitted sg) Amplitude);
                         Some (Root.GetParameter (conv_fitted sg) ShapingTime);
                         Some (Root.GetParameter (conv_fitted sg) StartPosition);
                         Some (Root.GetParameter (conv_fitted sg) VarianceGauss);
                         Some (conv_ratio sg) ]).
  { assert (Hids : NoDup (map TRestRawSignal.GetSignalID
                            (TRestRawSignalEvent.fSignal (convolution_loop Fit cfg ev).1))).
    { pose proof (selection_keeps_ids Fit cfg ev Hsel) as Hk. unfold signal_ids in Hk, Hnd.
      rewrite Hk. exact Hnd. }
    rewrite (selection_loop Fit cfg ev Hsel) in Hin, Hids |- *.
    cbn [fst snd TRestRawSignalEvent.fSignal] in Hin, Hids |- *.
    destruct (written_last (fit_or_skip Fit cfg)
                (fun s sg0 L0 id0 => fit_or_skip_other Fit cfg s id0 sg0 L0)
                _ 0 (init_Locals (TRestRawSignalEvent.GetNumberOfSignals ev)) sg Hids Hin)
      as (s & L' & ->).
    apply fit_or_skip_entries, Hgood. }
  unfold all_maps in Hentries. cbn [map] in Hentries.
  injection Hentries as Ha Ht Hp Hv Hr.
  split; [exact Ha|]. split; [exact Ht|]. split; [exact Hp|]. split; [exact Hv|exact Hr].
Qed.

(** *** The variance of the Gaussian *)

Abbreviation conv_var sg := (Root.GetParameter (conv_fitted sg) 2%nat).
Abbreviation conv_err sg := (Root.GetParError (conv_fitted sg) 2).

Lemma fit_convolution_weighs (s : Z) sg L :
  weighted (fit_convolution Fit cfg s sg L)
  = mkWeighted (VGmean (weighted L) + conv_var sg / conv_err sg)%float
      (VGvariance (weighted L) + conv_var sg * conv_var sg / conv_err sg)%float
      (VGweights (weighted L) + 1 / conv_err sg)%float.
Proof. reflexivity. Qed.

Lemma fit_or_skip_weighs (s : Z) sg L :
  good_signal sg = true ->
  weighted (fit_or_skip Fit cfg s sg L)
  = mkWeighted (VGmean (weighted L) + conv_var sg / conv_err sg)%float
      (VGvariance (weighted L) + conv_var sg * conv_var sg / conv_err sg)%float
      (VGweights (weighted L) + 1 / conv_err sg)%float.
Proof. intros Hg. rewrite fit_or_skip_good by exact Hg. reflexivity. Qed.

Lemma fit_or_skip_keeps_weights (s : Z) sg L :
  good_signal sg = false -> weighted (fit_or_skip Fit cfg s sg L) = weighted L.
Proof. intros Hg. rewrite fit_or_skip_bad by exact Hg. reflexivity. Qed.

(** The signals the loop of the convolution fits. *)
Lemma convolution_weights ev :
  let signals := TRestRawSignalEvent.fSignal (convolution_loop Fit cfg ev).1 in
  let fitted := if no_selection cfg then signals else List.filter good_signal signals in
  let v := weighted (convolution_loop Fit cfg ev).2 in
  VGmean v = sum_doubles (map (fun sg => conv_var sg / conv_err sg)%float fitted)
  /\ VGvariance v = sum_doubles (map (fun sg => conv_var sg * conv_var sg / conv_err sg)%float fitted)
  /\ VGweights v = sum_doubles (map (fun sg => 1 / conv_err sg)%float fitted).
Proof.
  intros signals fitted v. subst signals fitted v.
  destruct (no_selection cfg) eqn:Hsel.
  - rewrite (fit_all_loop ev Hsel). cbn [fst snd TRestRawSignalEvent.fSignal].
    rewrite <- (filter_all (map default_baseline (TRestRawSignalEvent.fSignal ev))) at 2 4 6.
    exact (recorded_weights (fit_convolution Fit cfg) (fun _ => true)
             (fun sg => conv_var sg / conv_err sg)%float
             (fun sg => conv_var sg * conv_var sg / conv_err sg)%float
             (fun sg => 1 / conv_err sg)%float
             (fun s sg L _ => fit_convolution_weighs s sg L)
             (fun s sg L (H : true = false) => ltac:(discriminate H))
             0 _ (init_Locals (TRestRawSignalEvent.GetNumberOfSignals ev))).
  - rewrite (selection_loop Fit cfg ev Hsel). cbn [fst snd TRestRawSignalEvent.fSignal].
    exact (recorded_weights (fit_or_skip Fit cfg) good_signal
             (fun sg => conv_var sg / conv_err sg)%float
             (fun sg => conv_var sg * conv_var sg / conv_err sg)%float
             (fun sg => 1 / conv_err sg)%float
             fit_or_skip_weighs fit_or_skip_keeps_weights
             0 _ (init_Locals (TRestRawSignalEvent.GetNumberOfSignals ev))).
Qed.

(** X25. With the convolution, the mean of the variance of the Gaussian is
    weighted by the inverse of the error of that parameter: over the signals
    fitted (all of them with no selection, else those with at least 2 points
    over threshold), [FitVarianceGaussWMean] is the sum of variance / error
    divided by the sum of 1 / error, and [FitVarianceGaussWStdDev] is the
    square root of the sum of variance * variance / error divided by the sum
    of 1 / error, minus the square of that mean. *)
Theorem variance_weighted_by_errors ev :
  fAddAllPulses cfg = false -> fAgetFit cfg = false ->
  let out := ProcessEvent Fit ApplyCut cfg ev in
  let signals := TRestRawSignalEvent.fSignal (event_after out) in
  let fitted := if no_selection cfg then signals else List.filter good_signal signals in
  let weights := sum_doubles (map (fun sg => 1 / conv_err sg)%float fitted) in
  let mean := (sum_doubles (map (fun sg => conv_var sg / conv_err sg)%float fitted) / weights)%float in
  GetObservable "FitVarianceGaussWMean" (observables out) = Some (Scalar mean)
  /\ GetObservable "FitVarianceGaussWStdDev" (observables out)
     = Some (Scalar (PrimFloat.sqrt
                       (sum_doubles (map (fun sg => conv_var sg * conv_var sg / conv_err sg)%float fitted)
                        / weights - mean * mean))).
Proof.
  intros Hadd Haget out. subst out. rewrite ProcessEvent_selection by assumption.
  change (event_after (ProcessEvent_convolution Fit ApplyCut cfg ev))
    with (convolution_loop Fit cfg ev).1.
  intros signals fitted weights mean. subst mean weights fitted signals.
  destruct (convolution_weights ev) as (Hm & Hv & Hw).
  rewrite <- Hm, <- Hv, <- Hw. split; reflexivity.
Qed.

Lemma max_variance_fold ev (m : gmap Z float) :
  max_variance ev m
  = running_maximum 0 (map (fun sg => map_at m (TRestRawSignal.GetID sg))
                         (TRestRawSignalEvent.fSignal ev)).
Proof.
  unfold max_variance, running_maximum. rewrite for_signals.
  generalize 0%float as a.
  induction (TRestRawSignalEvent.fSignal ev) as [|sg l IH]; intros a; simpl; [reflexivity|].
  apply IH.
Qed.

Lemma convolution_variance_entry ev sg :
  NoDup (signal_ids ev) ->
  sg ∈ TRestRawSignalEvent.fSignal (convolution_loop Fit cfg ev).1 ->
  variancegaussFit (maps (convolution_loop Fit cfg ev).2) !! TRestRawSignal.GetID sg
  = Some (if no_selection cfg || good_signal sg then conv_var sg else (-1)%float).
Proof.
  intros Hnd Hin.
  assert (Hentries : exists a b c d,
             entries (convolution_loop Fit cfg ev).2 (TRestRawSignal.GetID sg)
             = [a; b; c;
                Some (if no_selection cfg || good_signal sg then conv_var sg else (-1)%float);
                d]).
  { destruct (no_selection cfg) eqn:Hsel.
    - rewrite (fit_all_loop ev Hsel) in Hin |- *.
      cbn [fst snd TRestRawSignalEvent.fSignal] in Hin |- *.
      destruct (written_last (fit_convolution Fit cfg)
                  (fun s sg0 L0 id0 => fit_convolution_other s id0 sg0 L0)
                  (map default_baseline (TRestRawSignalEvent.fSignal ev)) 0
                  (init_Locals (TRestRawSignalEvent.GetNumberOfSignals ev)) sg)
        as (s & L' & ->).
      + rewrite prepare_keeps_ids by reflexivity. exact Hnd.
      + exact Hin.
      + rewrite fit_convolution_entries. do 4 eexists. reflexivity.
    - assert (Hids : NoDup (map TRestRawSignal.GetSignalID
                              (TRestRawSignalEvent.fSignal (convolution_loop Fit cfg ev).1))).
      { pose proof (selection_keeps_ids Fit cfg ev Hsel) as Hk. unfold signal_ids in Hk, Hnd.
        rewrite Hk. exact Hnd. }
      rewrite (selection_loop Fit cfg ev Hsel) in Hin, Hids |- *.
      cbn [fst snd TRestRawSignalEvent.fSignal] in Hin, Hids |- *.
      destruct (good_signal sg) eqn:Hg.
      + destruct (written_last (fit_or_skip Fit cfg)
                    (fun s sg0 L0 id0 => fit_or_skip_other Fit cfg s id0 sg0 L0)
                    _ 0 (init_Locals (TRestRawSignalEvent.GetNumberOfSignals ev)) sg Hids Hin)
          as (s & L' & ->).
        rewrite fit_or_skip_entries by exact Hg. do 4 eexists. reflexivity.
      + rewrite (selection_fold_sentinel Fit cfg _ 0 _ sg Hids Hin Hg).
        do 4 eexists. reflexivity. }
  destruct Hentries as (a & b & c & d & Hentries).
  unfold all_maps in Hentries. cbn [map] in Hentries.
  injection Hentries as _ _ _ Hv _. exact Hv.
Qed.

(** X26. With the convolution, for an event whose signal IDs are distinct,
    [FitMaxVarianceGauss] is the running maximum, started at 0, over the
    signals in insertion order, of the variance the fit of the signal gave,
    or of -1 for a signal the selection left out; a value replaces the one
    kept only when it compares greater. *)
Theorem largest_variance ev :
  fAddAllPulses cfg = false -> fAgetFit cfg = false ->
  NoDup (signal_ids ev) ->
  let out := ProcessEvent Fit ApplyCut cfg ev in
  GetObservable "FitMaxVarianceGauss" (observables out)
  = Some (Scalar (running_maximum 0
                    (map (fun sg => if no_selection cfg || good_signal sg
                                    then conv_var sg else (-1)%float)
                       (TRestRawSignalEvent.fSignal (event_after out))))).
Proof.
  intros Hadd Haget Hnd out. subst out. rewrite ProcessEvent_selection by assumption.
  change (event_after (ProcessEvent_convolution Fit ApplyCut cfg ev))
    with (convolution_loop Fit cfg ev).1.
  change (GetObservable "FitMaxVarianceGauss"
            (observables (ProcessEvent_convolution Fit ApplyCut cfg ev)))
    with (Some (Scalar (max_variance (convolution_loop Fit cfg ev).1
                          (variancegaussFit (maps (convolution_loop Fit cfg ev).2))))).
  rewrite max_variance_fold. do 3 f_equal.
  apply map_ext_in. intros sg Hin. apply list_elem_of_In in Hin.
  unfold map_at. rewrite (convolution_variance_entry ev sg Hnd Hin). reflexivity.
Qed.

(** *** All the pulses added *)

Lemma add_all_pulses_id ev :
  TRestRawSignal.GetID (add_all_pulses ev) = TRestRawSignal.create_id.
Proof.
  unfold add_all_pulses, for_range.
  apply (for_loop_invariant (fun sg => TRestRawSignal.GetID sg = TRestRawSignal.create_id)).
  - reflexivity.
  - intros j sg _ Hid. exact Hid.
Qed.

(** X27. With [fAddAllPulses] set, whatever the other options: the event is
    left as it was; the one fit is that of the sum signal, with the
    convolution; the four maps of the parameters hold a single entry, at the
    ID a new signal has, and the map of the ratios is published empty; the
    scalar observables are those of that fit, [FitMaxVarianceGauss] and
    [FitVarianceGaussWMean] both its variance, [FitVarianceGaussWStdDev] the
    error of its variance, [FitSigmaMean] its residual; and no
    [FitSigmaStdDev] is published. *)
Theorem all_pulses_observables ev :
  fAddAllPulses cfg = true ->
  let out := ProcessEvent Fit ApplyCut cfg ev in
  let allSig :=
    TRestRawSignal.upd
      (TRestRawSignal.CalculateBaseLine (X (fBaseLineRange cfg)) (Y (fBaseLineRange cfg)))
      (add_all_pulses ev) in
  let id := TRestRawSignal.create_id in
  event_after out = ev
  /\ fit_calls out = [convolution_call cfg allSig]
  /\ GetObservable "FitAmplitude_map" (observables out)
     = Some (ByID {[ id := Root.GetParameter (conv_fitted allSig) 3%nat ]})
  /\ GetObservable "FitShapingTime_map" (observables out)
     = Some (ByID {[ id := Root.GetParameter (conv_fitted allSig) 0%nat ]})
  /\ GetObservable "FitStartPosition_map" (observables out)
     = Some (ByID {[ id := Root.GetParameter (conv_fitted allSig) 1%nat ]})
  /\ GetObservable "FitVarianceGauss_map" (observables out)
     = Some (ByID {[ id := conv_var allSig ]})
  /\ GetObservable "FitRatioSigmaMaxPeak_map" (observables out) = Some (ByID ∅)
  /\ GetObservable "FitMaxVarianceGauss" (observables out) = Some (Scalar (conv_var allSig))
  /\ GetObservable "FitSigmaMean" (observables out) = Some (Scalar (conv_sigma allSig))
  /\ GetObservable "FitChiSquareMean" (observables out)
     = Some (Scalar (Root.GetChisquare (conv_fitted allSig)))
  /\ GetObservable "FitRatioSigmaMaxPeakMean" (observables out)
     = Some (Scalar (conv_ratio allSig))
  /\ GetObservable "FitVarianceGaussWMean" (observables out) = Some (Scalar (conv_var allSig))
  /\ GetObservable "FitVarianceGaussWStdDev" (observables out)
     = Some (Scalar (conv_err allSig))
  /\ GetObservable "FitSigmaStdDev" (observables out) = None.
Proof.
  intros Hall out allSig id. subst out.
  assert (Hout : ProcessEvent Fit ApplyCut cfg ev = ProcessEvent_all Fit ApplyCut cfg ev)
    by (unfold ProcessEvent; rewrite Hall; reflexivity).
  rewrite Hout. clear Hout.
  assert (Hid : TRestRawSignal.GetID allSig = id) by exact (add_all_pulses_id ev).
  pose proof (conv_sigma_is_stored allSig) as Hsigma.
  unfold ProcessEvent_all.
  cbv beta iota zeta delta [event_after fit_calls observables].
  fold allSig.
  change (Root.mkFitCall _ _ _ _) with (convolution_call cfg allSig).
  rewrite Hid, Hsigma.
  change (GetObservable "FitMaxVarianceGauss" _)
    with (Some (Scalar (map_at (<[id := conv_var allSig]> (∅ : gmap Z float)) id))).
  unfold map_at. rewrite lookup_insert_eq.
  repeat split.
Qed.

(** *** Every mode *)

(** X28. Whatever the configuration, [ProcessEvent] keeps the signals of the
    event and their IDs, in order; it returns the event unless the cut of
    the framework rejects the observables; and it calls [Fit] once with
    [fAddAllPulses], once per signal with the AGET function or with no
    selection, and once per signal with at least 2 points over threshold
    under a selection. *)
Theorem ProcessEvent_keeps_the_signals ev :
  let out := ProcessEvent Fit ApplyCut cfg ev in
  signal_ids (event_after out) = signal_ids ev
  /\ returned out = (if ApplyCut (observables out) then None else Some (event_after out))
  /\ length (fit_calls out)
     = if fAddAllPulses cfg then 1%nat
       else if fAgetFit cfg || no_selection cfg
            then length (TRestRawSignalEvent.fSignal ev)
            else length (List.filter good_signal (TRestRawSignalEvent.fSignal (event_after out))).
Proof.
  intros out. subst out. unfold ProcessEvent.
  destruct (fAddAllPulses cfg) eqn:Hadd; cbn [negb].
  { repeat split. }
  destruct (fAgetFit cfg) eqn:Haget; cbn [negb orb].
  - change (event_after (ProcessEvent_aget Fit ApplyCut cfg ev)) with (aget_loop Fit cfg ev).1.
    change (fit_calls (ProcessEvent_aget Fit ApplyCut cfg ev))
      with (fits (aget_loop Fit cfg ev).2).
    destruct (aget_results ev) as (Hsig & Hf & _).
    split; [|split; [reflexivity|]].
    + unfold signal_ids. rewrite Hsig. apply prepare_keeps_ids. reflexivity.
    + rewrite Hf, !length_map. reflexivity.
  - change (event_after (ProcessEvent_convolution Fit ApplyCut cfg ev))
      with (convolution_loop Fit cfg ev).1.
    change (fit_calls (ProcessEvent_convolution Fit ApplyCut cfg ev))
      with (fits (convolution_loop Fit cfg ev).2).
    destruct (no_selection cfg) eqn:Hsel.
    + destruct (fit_all_results ev Hsel) as (Hsig & Hf & _).
      split; [|split; [reflexivity|]].
      * unfold signal_ids. rewrite Hsig. apply prepare_keeps_ids. reflexivity.
      * rewrite Hf, !length_map. reflexivity.
    + destruct (selection_results ev Hsel) as (Hf & _).
      split; [|split; [reflexivity|]].
      * apply selection_keeps_ids, Hsel.
      * rewrite Hf, length_map. reflexivity.
Qed.

(** X29. An event with no signal is not rejected: without [fAddAllPulses],
    [Fit] is not called, and each of the four means is published as NaN,
    the quotient of 0 by the count 0. *)
Theorem empty_event_publishes_nan ev :
  TRestRawSignalEvent.fSignal ev = [] ->
  fAddAllPulses cfg = false ->
  let out := ProcessEvent Fit ApplyCut cfg ev in
  fit_calls out = []
  /\ (forall name, name ∈ event_mean_names ->
        GetObservable name (observables out) = Some (Scalar nan)).
Proof.
  intros Hempty Hadd out. subst out.
  destruct (fAgetFit cfg) eqn:Haget.
  - rewrite ProcessEvent_aget_branch by assumption.
    change (fit_calls (ProcessEvent_aget Fit ApplyCut cfg ev))
      with (fits (aget_loop Fit cfg ev).2).
    destruct (aget_published_means ev) as (Hmean & Hdev & Hchi & Hratio).
    destruct (aget_results ev) as (Hsig & Hf & Hs & _ & _ & Hsm & Hrm & Hcm).
    unfold TRestRawSignalEvent.GetNumberOfSignals in Hmean, Hdev, Hchi, Hratio.
    rewrite Hsm in Hmean, Hdev. rewrite Hs in Hdev. rewrite Hcm in Hchi. rewrite Hrm in Hratio.
    rewrite Hsig in Hmean, Hdev, Hchi, Hratio.
    rewrite Hempty in Hf, Hmean, Hdev, Hchi, Hratio.
    split; [exact Hf|].
    intros name Hname. unfold event_mean_names in Hname.
    repeat (apply elem_of_cons in Hname as [->|Hname]); [| | | |inversion Hname].
    + exact Hmean.
    + exact Hdev.
    + exact Hchi.
    + exact Hratio.
  - rewrite ProcessEvent_selection by assumption.
    change (fit_calls (ProcessEvent_convolution Fit ApplyCut cfg ev))
      with (fits (convolution_loop Fit cfg ev).2).
    destruct (published_means Fit ApplyCut cfg ev) as (Hmean & Hdev & Hchi & Hratio).
    destruct (no_selection cfg) eqn:Hsel.
    + destruct (fit_all_results ev Hsel) as (Hsig & Hf & Hs & _ & _ & Hsm & Hrm & Hcm).
      unfold TRestRawSignalEvent.GetNumberOfSignals in Hmean, Hdev, Hchi, Hratio.
      rewrite Hsm in Hmean, Hdev. rewrite Hs in Hdev. rewrite Hcm in Hchi. rewrite Hrm in Hratio.
      rewrite Hsig in Hmean, Hdev, Hchi, Hratio.
      rewrite Hempty in Hf, Hmean, Hdev, Hchi, Hratio.
      split; [exact Hf|].
      intros name Hname. unfold event_mean_names in Hname.
      repeat (apply elem_of_cons in Hname as [->|Hname]); [| | | |inversion Hname].
      * exact Hmean.
      * exact Hdev.
      * exact Hchi.
      * exact Hratio.
    + destruct (selection_results ev Hsel) as (Hf & Hg & Hs & _ & _ & Hsm & Hrm & Hcm).
      assert (Hnone : TRestRawSignalEvent.fSignal (convolution_loop Fit cfg ev).1 = []).
      { rewrite (selection_loop Fit cfg ev Hsel).
        unfold TRestRawSignalEvent.SetBaseLineRange.
        cbn [fst TRestRawSignalEvent.fSignal]. rewrite Hempty. reflexivity. }
      unfold TRestRawSignalEvent.GetNumberOfSignals in Hmean, Hdev, Hchi, Hratio.
      rewrite Hg in Hmean, Hdev, Hchi, Hratio.
      rewrite Hsm in Hmean, Hdev. rewrite Hs in Hdev. rewrite Hcm in Hchi. rewrite Hrm in Hratio.
      rewrite Hnone in Hf, Hmean, Hdev, Hchi, Hratio.
      split; [exact Hf|].
      intros name Hname. unfold event_mean_names in Hname.
      repeat (apply elem_of_cons in Hname as [->|Hname]); [| | | |inversion Hname].
      * exact Hmean.
      * exact Hdev.
      * exact Hchi.
      * exact Hratio.
Qed.

End FitLoops.

(** ** The mutators and the modes on concrete events *)

Section OnConcreteEvents.
Import Tabulated TRestRawSignalEvent TRestRawSignalFitEventProcess.

Lemma GetSignalIndex_first_match_witness :
  2 ∈ signal_ids (event [with_peak 1 10 4; with_peak 2 15 6; with_peak 2 1 1])
  /\ exists (k : nat) s,
       GetSignalIndex (event [with_peak 1 10 4; with_peak 2 15 6; with_peak 2 1 1]) 2 = Z.of_nat k
       /\ GetSignal (event [with_peak 1 10 4; with_peak 2 15 6; with_peak 2 1 1])
            (GetSignalIndex (event [with_peak 1 10 4; with_peak 2 15 6; with_peak 2 1 1]) 2)
          = Some s
       /\ TRestRawSignal.GetSignalID s = 2
       /\ (2 ∉ map TRestRawSignal.GetSignalID
                 (take k (fSignal (event [with_peak 1 10 4; with_peak 2 15 6; with_peak 2 1 1])))).
Proof.
  assert (Hin : 2 ∈ signal_ids (event [with_peak 1 10 4; with_peak 2 15 6; with_peak 2 1 1]))
    by (right; left).
  split; [exact Hin|].
  exact (GetSignalIndex_first_match _ 2 Hin).
Defined.

Lemma RemoveSignalWithId_missing_witness :
  (3 ∉ signal_ids (event [with_peak 1 10 4; with_peak 2 15 6]))
  /\ RemoveSignalWithId (event [with_peak 1 10 4; with_peak 2 15 6]) 3
     = (event [with_peak 1 10 4; with_peak 2 15 6], [warning_missing 3]).
Proof.
  assert (Hout : 3 ∉ signal_ids (event [with_peak 1 10 4; with_peak 2 15 6])).
  { intros H. repeat (apply elem_of_cons in H as [H|H]; [discriminate H|]). inversion H. }
  split; [exact Hout|].
  exact (RemoveSignalWithId_missing _ 3 Hout).
Defined.

Lemma RemoveSignalWithId_present_witness :
  2 ∈ signal_ids (event [with_peak 1 10 4; with_peak 2 15 6; with_peak 2 1 1])
  /\ GetNumberOfSignals
       (fst (RemoveSignalWithId (event [with_peak 1 10 4; with_peak 2 15 6; with_peak 2 1 1]) 2))
     = GetNumberOfSignals (event [with_peak 1 10 4; with_peak 2 15 6; with_peak 2 1 1]) - 1.
Proof.
  assert (Hin : 2 ∈ signal_ids (event [with_peak 1 10 4; with_peak 2 15 6; with_peak 2 1 1]))
    by (right; left).
  split; [exact Hin|].
  destruct (RemoveSignalWithId_present _ 2 Hin) as (l1 & s & l2 & _ & _ & _ & _ & Hcount).
  exact Hcount.
Defined.

Lemma AddSignal_new_is_found_last_witness :
  (TRestRawSignal.GetSignalID (with_peak 3 3 3)
     ∉ signal_ids (event [with_peak 1 10 4; with_peak 2 15 6]))
  /\ GetSignalIndex (AddSignal (event [with_peak 1 10 4; with_peak 2 15 6]) (with_peak 3 3 3)).1.1
       (TRestRawSignal.GetSignalID (with_peak 3 3 3))
     = GetNumberOfSignals (event [with_peak 1 10 4; with_peak 2 15 6]).
Proof.
  assert (Hout : TRestRawSignal.GetSignalID (with_peak 3 3 3)
                   ∉ signal_ids (event [with_peak 1 10 4; with_peak 2 15 6])).
  { intros H. repeat (apply elem_of_cons in H as [H|H]; [discriminate H|]). inversion H. }
  split; [exact Hout|].
  exact (proj1 (proj2 (proj2 (AddSignal_new_is_found_last _ _ Hout)))).
Defined.

Lemma AddSignal_then_RemoveSignalWithId_witness :
  (TRestRawSignal.GetSignalID (with_peak 3 3 3)
     ∉ signal_ids (event [with_peak 1 10 4; with_peak 2 15 6]))
  /\ RemoveSignalWithId
       (AddSignal (event [with_peak 1 10 4; with_peak 2 15 6]) (with_peak 3 3 3)).1.1
       (TRestRawSignal.GetSignalID (with_peak 3 3 3))
     = (event [with_peak 1 10 4; with_peak 2 15 6], []).
Proof.
  assert (Hout : TRestRawSignal.GetSignalID (with_peak 3 3 3)
                   ∉ signal_ids (event [with_peak 1 10 4; with_peak 2 15 6])).
  { intros H. repeat (apply elem_of_cons in H as [H|H]; [discriminate H|]). inversion H. }
  split; [exact Hout|].
  exact (AddSignal_then_RemoveSignalWithId _ _ Hout).
Defined.

Lemma AddChargeToSignal_existing_witness :
  2 ∈ signal_ids (event [level 1 4 0 0 0 []; level 2 4 0 0 0 []])
  /\ exists l1 s l2,
       fSignal (event [level 1 4 0 0 0 []; level 2 4 0 0 0 []]) = l1 ++ s :: l2
       /\ TRestRawSignal.GetSignalID s = 2
       /\ (2 ∉ map TRestRawSignal.GetSignalID l1)
       /\ AddChargeToSignal (event [level 1 4 0 0 0 []; level 2 4 0 0 0 []]) 2 1 5
          = (mk (l1 ++ TRestRawSignal.upd (TRestRawSignal.IncreaseBinBy 1 5) s :: l2)
               (TRestRawSignalEvent.fBaseLineRange (event [level 1 4 0 0 0 []; level 2 4 0 0 0 []]))
               (fRange (event [level 1 4 0 0 0 []; level 2 4 0 0 0 []])), []).
Proof.
  assert (Hin : 2 ∈ signal_ids (event [level 1 4 0 0 0 []; level 2 4 0 0 0 []]))
    by (right; left).
  split; [exact Hin|].
  exact (AddChargeToSignal_existing _ 2 1 5 Hin).
Defined.

Lemma AddChargeToSignal_new_witness :
  (3 ∉ signal_ids (event [level 1 4 0 0 0 []; level 2 4 0 0 0 []]))
  /\ GetNumberOfSignals (fst (AddChargeToSignal (event [level 1 4 0 0 0 []; level 2 4 0 0 0 []]) 3 1 5))
     = 3.
Proof.
  assert (Hout : 3 ∉ signal_ids (event [level 1 4 0 0 0 []; level 2 4 0 0 0 []])).
  { intros H. repeat (apply elem_of_cons in H as [H|H]; [discriminate H|]). inversion H. }
  split; [exact Hout|].
  rewrite (AddChargeToSignal_new _ 3 1 5 Hout). reflexivity.
Defined.

Lemma mutators_keep_ids_distinct_witness :
  NoDup (signal_ids one_good_one_not)
  /\ NoDup (signal_ids (fst (AddChargeToSignal one_good_one_not 3 1 5))).
Proof.
  assert (Hnd : NoDup (signal_ids one_good_one_not)).
  { apply NoDup_cons. split; [|apply NoDup_singleton].
    intros H. apply list_elem_of_singleton in H. discriminate H. }
  split; [exact Hnd|].
  exact (proj2 (proj2 (mutators_keep_ids_distinct _ Hnd)) 3 1 5).
Defined.

Lemma signal_histogram_cells_witness :
  Root.fNcells (signal_histogram (TRestRawSignal.wave (level 1 4 5 1 2 []))) = 6
  /\ Root.GetBinContent (signal_histogram (TRestRawSignal.wave (level 1 4 5 1 2 []))) 2 = 4%float
  /\ Root.GetBinContent (signal_histogram (TRestRawSignal.wave (level 1 4 5 1 2 []))) 5 = 0%float
  /\ Root.fNcells (signal_histogram (TRestRawSignal.wave (level 1 0 5 1 0 []))) = 3
  /\ Root.GetBinContent (signal_histogram (TRestRawSignal.wave (level 1 0 5 1 0 []))) 1 = 0%float.
Proof.
  destruct (signal_histogram_cells (TRestRawSignal.wave (level 1 4 5 1 2 []))) as [Hcells Hcell].
  destruct (signal_histogram_cells (TRestRawSignal.wave (level 1 0 5 1 0 []))) as [Hnone Hzero].
  split; [exact Hcells|]. split; [rewrite (Hcell 2); reflexivity|].
  split; [rewrite (Hcell 5); reflexivity|].
  split; [exact Hnone|]. rewrite (Hzero 1). reflexivity.
Defined.

Lemma GetLowAverageWidth_negative_count_witness :
  Numeric.Int_min <= -1 < 0
  /\ qualifying_widths (event [with_peak 1 10 4; with_peak 2 10 2; with_peak 3 10 9]) 5 <> []
  /\ Z.of_nat (length (qualifying_widths
                         (event [with_peak 1 10 4; with_peak 2 10 2; with_peak 3 10 9]) 5))
     <= Numeric.Int_max
  /\ GetLowAverageWidth (event [with_peak 1 10 4; with_peak 2 10 2; with_peak 3 10 9]) (-1) 5
     = (-15)%float.
Proof.
  assert (Hn : Numeric.Int_min <= -1 < 0) by (unfold Numeric.Int_min; lia).
  assert (Hne : qualifying_widths (event [with_peak 1 10 4; with_peak 2 10 2; with_peak 3 10 9]) 5
                <> []) by discriminate.
  assert (Hq : Z.of_nat (length (qualifying_widths
                                   (event [with_peak 1 10 4; with_peak 2 10 2; with_peak 3 10 9]) 5))
               <= Numeric.Int_max) by (unfold Numeric.Int_max; simpl; lia).
  split; [exact Hn|]. split; [exact Hne|]. split; [exact Hq|].
  rewrite (GetLowAverageWidth_negative_count _ (-1) 5 Hn Hne Hq). reflexivity.
Defined.

Abbreviation fitted_all := (ProcessEvent flat_fit no_cut fit_all_config one_good_one_not).
Abbreviation fitted_aget := (ProcessEvent flat_fit no_cut aget_config one_good_one_not).
Abbreviation fitted_selection := (ProcessEvent flat_fit no_cut selection_config one_good_one_not).
Abbreviation first_signal := (level 1 16 5 0 8 [7; 8; 9]).

Lemma distinct_ids : NoDup (signal_ids one_good_one_not).
Proof.
  apply NoDup_cons. split; [|apply NoDup_singleton].
  intros H. apply list_elem_of_singleton in H. discriminate H.
Defined.

Lemma fit_all_fits_every_signal_witness :
  fAddAllPulses fit_all_config = false /\ fAgetFit fit_all_config = false
  /\ no_selection fit_all_config = true
  /\ fit_calls fitted_all
     = map (convolution_call fit_all_config) (fSignal (event_after fitted_all)).
Proof.
  do 3 (split; [reflexivity|]).
  exact (proj1 (proj2 (fit_all_fits_every_signal flat_fit no_cut fit_all_config one_good_one_not
                         eq_refl eq_refl eq_refl))).
Defined.

Lemma fit_all_means_witness :
  fAddAllPulses fit_all_config = false /\ fAgetFit fit_all_config = false
  /\ no_selection fit_all_config = true
  /\ GetObservable "FitChiSquareMean" (observables fitted_all) = Some (Scalar 0).
Proof.
  do 3 (split; [reflexivity|]).
  destruct (fit_all_means flat_fit no_cut fit_all_config one_good_one_not
              eq_refl eq_refl eq_refl) as (_ & _ & Hchi & _).
  rewrite Hchi. reflexivity.
Defined.

Lemma fit_all_maps_witness :
  fAddAllPulses fit_all_config = false /\ fAgetFit fit_all_config = false
  /\ no_selection fit_all_config = true
  /\ NoDup (signal_ids one_good_one_not)
  /\ first_signal ∈ fSignal (event_after fitted_all)
  /\ published_at (observables fitted_all) "FitVarianceGauss_map" 1 = Some 0%float.
Proof.
  assert (Hin : first_signal ∈ fSignal (event_after fitted_all)) by left.
  do 3 (split; [reflexivity|]). split; [exact distinct_ids|]. split; [exact Hin|].
  destruct (fit_all_maps flat_fit no_cut fit_all_config one_good_one_not first_signal
              eq_refl eq_refl eq_refl distinct_ids Hin) as (_ & _ & _ & Hv & _).
  exact Hv.
Defined.

Lemma aget_fits_every_signal_witness :
  fAddAllPulses aget_config = false /\ fAgetFit aget_config = true
  /\ fit_calls fitted_aget = map (aget_call aget_config) (fSignal (event_after fitted_aget)).
Proof.
  do 2 (split; [reflexivity|]).
  exact (proj1 (proj2 (aget_fits_every_signal flat_fit no_cut aget_config one_good_one_not
                         eq_refl eq_refl))).
Defined.

Lemma aget_means_witness :
  fAddAllPulses aget_config = false /\ fAgetFit aget_config = true
  /\ GetObservable "FitChiSquareMean" (observables fitted_aget) = Some (Scalar 0)
  /\ GetObservable "FitMaxVarianceGauss" (observables fitted_aget) = None.
Proof.
  do 2 (split; [reflexivity|]).
  destruct (aget_means flat_fit no_cut aget_config one_good_one_not eq_refl eq_refl)
    as (_ & _ & Hchi & _ & Hnone).
  split; [rewrite Hchi; reflexivity|].
  apply Hnone. right. left.
Defined.

Lemma aget_maps_witness :
  fAddAllPulses aget_config = false /\ fAgetFit aget_config = true
  /\ NoDup (signal_ids one_good_one_not)
  /\ first_signal ∈ fSignal (event_after fitted_aget)
  /\ published_at (observables fitted_aget) "FitAmplitude_map" 1 = Some 0%float.
Proof.
  assert (Hin : first_signal ∈ fSignal (event_after fitted_aget)) by left.
  do 2 (split; [reflexivity|]). split; [exact distinct_ids|]. split; [exact Hin|].
  destruct (aget_maps flat_fit no_cut aget_config one_good_one_not first_signal
              eq_refl eq_refl distinct_ids Hin) as (Ha & _).
  exact Ha.
Defined.

Lemma selection_fits_good_signals_witness :
  fAddAllPulses selection_config = false /\ fAgetFit selection_config = false
  /\ no_selection selection_config = false
  /\ fit_calls fitted_selection = [convolution_call selection_config first_signal].
Proof.
  do 3 (split; [reflexivity|]).
  destruct (selection_fits_good_signals flat_fit no_cut selection_config one_good_one_not
              eq_refl eq_refl eq_refl) as (Hf & _).
  rewrite Hf. reflexivity.
Defined.

Lemma selection_maps_of_good_signals_witness :
  fAddAllPulses selection_config = false /\ fAgetFit selection_config = false
  /\ no_selection selection_config = false
  /\ NoDup (signal_ids one_good_one_not)
  /\ first_signal ∈ fSignal (event_after fitted_selection)
  /\ good_signal first_signal = true
  /\ published_at (observables fitted_selection) "FitVarianceGauss_map" 1 = Some 0%float.
Proof.
  assert (Hin : first_signal ∈ fSignal (event_after fitted_selection)) by left.
  do 3 (split; [reflexivity|]). split; [exact distinct_ids|]. split; [exact Hin|].
  split; [reflexivity|].
  destruct (selection_maps_of_good_signals flat_fit no_cut selection_config one_good_one_not
              first_signal eq_refl eq_refl eq_refl distinct_ids Hin eq_refl) as (_ & _ & _ & Hv & _).
  exact Hv.
Defined.

Lemma variance_weighted_by_errors_witness :
  fAddAllPulses selection_config = false /\ fAgetFit selection_config = false
  /\ GetObservable "FitVarianceGaussWMean" (observables fitted_selection) = Some (Scalar 0).
Proof.
  do 2 (split; [reflexivity|]).
  destruct (variance_weighted_by_errors flat_fit no_cut selection_config one_good_one_not
              eq_refl eq_refl) as (Hm & _).
  rewrite Hm. reflexivity.
Defined.

Lemma largest_variance_witness :
  fAddAllPulses selection_config = false /\ fAgetFit selection_config = false
  /\ NoDup (signal_ids one_good_one_not)
  /\ GetObservable "FitMaxVarianceGauss" (observables fitted_selection) = Some (Scalar 0).
Proof.
  do 2 (split; [reflexivity|]). split; [exact distinct_ids|].
  rewrite (largest_variance flat_fit no_cut selection_config one_good_one_not
             eq_refl eq_refl distinct_ids).
  reflexivity.
Defined.

Lemma all_pulses_observables_witness :
  fAddAllPulses all_pulses_config = true
  /\ event_after (ProcessEvent flat_fit no_cut all_pulses_config one_good_one_not)
     = one_good_one_not
  /\ GetObservable "FitSigmaStdDev"
       (observables (ProcessEvent flat_fit no_cut all_pulses_config one_good_one_not)) = None.
Proof.
  split; [reflexivity|].
  destruct (all_pulses_observables flat_fit no_cut all_pulses_config one_good_one_not eq_refl)
    as (Hev & Hrest).
  split; [exact Hev|].
  exact (proj2 (proj2 (proj2 (proj2 (proj2 (proj2 (proj2 (proj2 (proj2 (proj2 (proj2
           (proj2 Hrest)))))))))))).
Defined.

Lemma empty_event_publishes_nan_witness :
  fSignal no_signal = [] /\ fAddAllPulses fit_all_config = false
  /\ fit_calls (ProcessEvent flat_fit no_cut fit_all_config no_signal) = []
  /\ GetObservable "FitSigmaMean"
       (observables (ProcessEvent flat_fit no_cut fit_all_config no_signal))
     = Some (Scalar nan).
Proof.
  do 2 (split; [reflexivity|]).
  destruct (empty_event_publishes_nan flat_fit no_cut fit_all_config no_signal eq_refl eq_refl)
    as (Hf & Hnan).
  split; [exact Hf|]. apply Hnan. left.
Defined.

End OnConcreteEvents.
